(** * Sift: line store, filter engine and view state

    A shallow embedding of the core of [src/main.go] (the interactive
    JSON-per-line log viewer): the truthiness and filter pipeline, the
    view transform, cursor re-anchoring, the chunked loader and the tail
    poll, together with the properties the specification states about
    them.

    Conventions.  A Go [int] / [int64] is a [Z]; every integer below is a
    slice length, an index or a line count, far from the 64-bit bounds,
    so no wrap-around is written out.  A Go [interface{}] holding a gojq
    value is a [goval].  A compiled [*gojq.Query] is the function from
    the input object to the values its iterator yields, in order; an
    error yielded by the iterator is the [GError] value, as in gojq. *)

From Stdlib Require Import ZArith List Bool String Ascii Lia.
From Stdlib Require Import Floats.SpecFloat Numbers.DecimalString.
From Stdlib Require Numbers.DecimalFacts Numbers.DecimalZ.
From Stdlib Require Import Sorting.Sorted.
Import ListNotations.

(** [len] of a slice. *)
Definition len {A : Type} (l : list A) : Z := Z.of_nat (List.length l).

Open Scope string_scope.
Open Scope list_scope.
Open Scope Z_scope.

#[local] Set Warnings "-register-all".

(** ** Values of the query language *)

(** The dynamic types a gojq result can have.  [GOther] stands for any
    dynamic type the switches of [main.go] do not name (for instance
    [*big.Int]); its tag only tells two such values apart. *)
Inductive goval : Type :=
  | GNil
  | GBool (b : bool)
  | GInt (n : Z)
  | GFloat (f : spec_float)
  | GString (s : string)
  | GSlice (elems : list goval)
  | GMap (fields : list (string * goval))
  | GError (msg : string)
  | GOther (tag : nat).

(** [map[string]interface{}]: only its emptiness and the lookups of the
    example queries are observed, so the pairs are kept as written. *)
Definition JSONObject : Type := list (string * goval).

(** [Query.Run(v)] followed by repeated [iter.Next()]. *)
Definition Query : Type := JSONObject -> list goval.

(** [result.(error)] succeeds with a non-nil error. *)
Definition isError (v : goval) : bool :=
  match v with
  | GError _ => true
  | _ => false
  end.

(** [float64] comparison [v != 0]. *)
Definition float_neq_zero (f : spec_float) : bool :=
  negb (SFeqb f (S754_zero false)).

(** [isTruthy], main.go 2060-2079. *)
Definition isTruthy (value : goval) : bool :=
  match value with
  | GNil => false
  | GBool v => v
  | GInt v => negb (v =? 0)
  | GFloat v => float_neq_zero v
  | GString v => negb (String.eqb v "")
  | GSlice v => len v >? 0
  | GMap v => len v >? 0
  | GError _ => true
  | GOther _ => true
  end.

(** ** The data model *)

(** [type Filter struct], main.go 73-77. *)
Record Filter : Type := mkFilter {
  Expression : string;
  FQuery : Query;
  Enabled : bool
}.

(** [type LogLine struct], main.go 80-85. *)
Record LogLine : Type := mkLogLine {
  LineNumber : Z;
  RawLine : string;
  JSONData : JSONObject;
  IsValid : bool
}.

(** The retained [*os.File] of the lazy loader: the raw lines a scanner
    opened on the handle yields, and whether that scanner then stops on a
    read error ([scanner.Err() != nil]) instead of at end of file. *)
Record FileHandle : Type := mkFileHandle {
  pending : list string;
  failing : bool
}.

(** [type Model struct], main.go 88-137.  The text-entry buffers, the
    overlay scroll offsets, the file name and the progress estimate are
    left out: no handler below reads them. *)
Record Model : Type := mkModel {
  lines : list LogLine;
  filteredLines : list LogLine;
  filters : list Filter;
  cursor : Z;
  viewport : Z;
  height : Z;
  width : Z;
  showPretty : bool;
  fileSize : Z;
  lastLineNum : Z;
  filterMode : bool;
  filterManageMode : bool;
  filterCursor : Z;
  filterEditMode : bool;
  lineScrollOffset : Z;
  viewMode : bool;
  viewFilter : option Query;
  file : option FileHandle;
  isFileFullyLoaded : bool;
  loadingMoreLines : bool;
  showSpinner : bool;
  spinnerFrame : Z;
  tailMode : bool;
  needsInitialTailJump : bool;
  showHelp : bool
}.

(** The assignments [m.field = v], one per field. *)
Definition set_lines (v : list LogLine) (m : Model) : Model :=
  mkModel v (filteredLines m) (filters m) (cursor m) (viewport m) (height m)
    (width m) (showPretty m) (fileSize m) (lastLineNum m) (filterMode m)
    (filterManageMode m) (filterCursor m) (filterEditMode m)
    (lineScrollOffset m) (viewMode m) (viewFilter m) (file m)
    (isFileFullyLoaded m) (loadingMoreLines m) (showSpinner m) (spinnerFrame
    m) (tailMode m) (needsInitialTailJump m) (showHelp m).

Definition set_filteredLines (v : list LogLine) (m : Model) : Model :=
  mkModel (lines m) v (filters m) (cursor m) (viewport m) (height m) (width
    m) (showPretty m) (fileSize m) (lastLineNum m) (filterMode m)
    (filterManageMode m) (filterCursor m) (filterEditMode m)
    (lineScrollOffset m) (viewMode m) (viewFilter m) (file m)
    (isFileFullyLoaded m) (loadingMoreLines m) (showSpinner m) (spinnerFrame
    m) (tailMode m) (needsInitialTailJump m) (showHelp m).

Definition set_filters (v : list Filter) (m : Model) : Model :=
  mkModel (lines m) (filteredLines m) v (cursor m) (viewport m) (height m)
    (width m) (showPretty m) (fileSize m) (lastLineNum m) (filterMode m)
    (filterManageMode m) (filterCursor m) (filterEditMode m)
    (lineScrollOffset m) (viewMode m) (viewFilter m) (file m)
    (isFileFullyLoaded m) (loadingMoreLines m) (showSpinner m) (spinnerFrame
    m) (tailMode m) (needsInitialTailJump m) (showHelp m).

Definition set_cursor (v : Z) (m : Model) : Model :=
  mkModel (lines m) (filteredLines m) (filters m) v (viewport m) (height m)
    (width m) (showPretty m) (fileSize m) (lastLineNum m) (filterMode m)
    (filterManageMode m) (filterCursor m) (filterEditMode m)
    (lineScrollOffset m) (viewMode m) (viewFilter m) (file m)
    (isFileFullyLoaded m) (loadingMoreLines m) (showSpinner m) (spinnerFrame
    m) (tailMode m) (needsInitialTailJump m) (showHelp m).

Definition set_viewport (v : Z) (m : Model) : Model :=
  mkModel (lines m) (filteredLines m) (filters m) (cursor m) v (height m)
    (width m) (showPretty m) (fileSize m) (lastLineNum m) (filterMode m)
    (filterManageMode m) (filterCursor m) (filterEditMode m)
    (lineScrollOffset m) (viewMode m) (viewFilter m) (file m)
    (isFileFullyLoaded m) (loadingMoreLines m) (showSpinner m) (spinnerFrame
    m) (tailMode m) (needsInitialTailJump m) (showHelp m).

Definition set_height (v : Z) (m : Model) : Model :=
  mkModel (lines m) (filteredLines m) (filters m) (cursor m) (viewport m) v
    (width m) (showPretty m) (fileSize m) (lastLineNum m) (filterMode m)
    (filterManageMode m) (filterCursor m) (filterEditMode m)
    (lineScrollOffset m) (viewMode m) (viewFilter m) (file m)
    (isFileFullyLoaded m) (loadingMoreLines m) (showSpinner m) (spinnerFrame
    m) (tailMode m) (needsInitialTailJump m) (showHelp m).

Definition set_width (v : Z) (m : Model) : Model :=
  mkModel (lines m) (filteredLines m) (filters m) (cursor m) (viewport m)
    (height m) v (showPretty m) (fileSize m) (lastLineNum m) (filterMode m)
    (filterManageMode m) (filterCursor m) (filterEditMode m)
    (lineScrollOffset m) (viewMode m) (viewFilter m) (file m)
    (isFileFullyLoaded m) (loadingMoreLines m) (showSpinner m) (spinnerFrame
    m) (tailMode m) (needsInitialTailJump m) (showHelp m).

Definition set_showPretty (v : bool) (m : Model) : Model :=
  mkModel (lines m) (filteredLines m) (filters m) (cursor m) (viewport m)
    (height m) (width m) v (fileSize m) (lastLineNum m) (filterMode m)
    (filterManageMode m) (filterCursor m) (filterEditMode m)
    (lineScrollOffset m) (viewMode m) (viewFilter m) (file m)
    (isFileFullyLoaded m) (loadingMoreLines m) (showSpinner m) (spinnerFrame
    m) (tailMode m) (needsInitialTailJump m) (showHelp m).

Definition set_fileSize (v : Z) (m : Model) : Model :=
  mkModel (lines m) (filteredLines m) (filters m) (cursor m) (viewport m)
    (height m) (width m) (showPretty m) v (lastLineNum m) (filterMode m)
    (filterManageMode m) (filterCursor m) (filterEditMode m)
    (lineScrollOffset m) (viewMode m) (viewFilter m) (file m)
    (isFileFullyLoaded m) (loadingMoreLines m) (showSpinner m) (spinnerFrame
    m) (tailMode m) (needsInitialTailJump m) (showHelp m).

Definition set_lastLineNum (v : Z) (m : Model) : Model :=
  mkModel (lines m) (filteredLines m) (filters m) (cursor m) (viewport m)
    (height m) (width m) (showPretty m) (fileSize m) v (filterMode m)
    (filterManageMode m) (filterCursor m) (filterEditMode m)
    (lineScrollOffset m) (viewMode m) (viewFilter m) (file m)
    (isFileFullyLoaded m) (loadingMoreLines m) (showSpinner m) (spinnerFrame
    m) (tailMode m) (needsInitialTailJump m) (showHelp m).

Definition set_filterMode (v : bool) (m : Model) : Model :=
  mkModel (lines m) (filteredLines m) (filters m) (cursor m) (viewport m)
    (height m) (width m) (showPretty m) (fileSize m) (lastLineNum m) v
    (filterManageMode m) (filterCursor m) (filterEditMode m)
    (lineScrollOffset m) (viewMode m) (viewFilter m) (file m)
    (isFileFullyLoaded m) (loadingMoreLines m) (showSpinner m) (spinnerFrame
    m) (tailMode m) (needsInitialTailJump m) (showHelp m).

Definition set_filterManageMode (v : bool) (m : Model) : Model :=
  mkModel (lines m) (filteredLines m) (filters m) (cursor m) (viewport m)
    (height m) (width m) (showPretty m) (fileSize m) (lastLineNum m)
    (filterMode m) v (filterCursor m) (filterEditMode m) (lineScrollOffset
    m) (viewMode m) (viewFilter m) (file m) (isFileFullyLoaded m)
    (loadingMoreLines m) (showSpinner m) (spinnerFrame m) (tailMode m)
    (needsInitialTailJump m) (showHelp m).

Definition set_filterCursor (v : Z) (m : Model) : Model :=
  mkModel (lines m) (filteredLines m) (filters m) (cursor m) (viewport m)
    (height m) (width m) (showPretty m) (fileSize m) (lastLineNum m)
    (filterMode m) (filterManageMode m) v (filterEditMode m)
    (lineScrollOffset m) (viewMode m) (viewFilter m) (file m)
    (isFileFullyLoaded m) (loadingMoreLines m) (showSpinner m) (spinnerFrame
    m) (tailMode m) (needsInitialTailJump m) (showHelp m).

Definition set_filterEditMode (v : bool) (m : Model) : Model :=
  mkModel (lines m) (filteredLines m) (filters m) (cursor m) (viewport m)
    (height m) (width m) (showPretty m) (fileSize m) (lastLineNum m)
    (filterMode m) (filterManageMode m) (filterCursor m) v (lineScrollOffset
    m) (viewMode m) (viewFilter m) (file m) (isFileFullyLoaded m)
    (loadingMoreLines m) (showSpinner m) (spinnerFrame m) (tailMode m)
    (needsInitialTailJump m) (showHelp m).

Definition set_lineScrollOffset (v : Z) (m : Model) : Model :=
  mkModel (lines m) (filteredLines m) (filters m) (cursor m) (viewport m)
    (height m) (width m) (showPretty m) (fileSize m) (lastLineNum m)
    (filterMode m) (filterManageMode m) (filterCursor m) (filterEditMode m)
    v (viewMode m) (viewFilter m) (file m) (isFileFullyLoaded m)
    (loadingMoreLines m) (showSpinner m) (spinnerFrame m) (tailMode m)
    (needsInitialTailJump m) (showHelp m).

Definition set_viewMode (v : bool) (m : Model) : Model :=
  mkModel (lines m) (filteredLines m) (filters m) (cursor m) (viewport m)
    (height m) (width m) (showPretty m) (fileSize m) (lastLineNum m)
    (filterMode m) (filterManageMode m) (filterCursor m) (filterEditMode m)
    (lineScrollOffset m) v (viewFilter m) (file m) (isFileFullyLoaded m)
    (loadingMoreLines m) (showSpinner m) (spinnerFrame m) (tailMode m)
    (needsInitialTailJump m) (showHelp m).


Definition set_file (v : option FileHandle) (m : Model) : Model :=
  mkModel (lines m) (filteredLines m) (filters m) (cursor m) (viewport m)
    (height m) (width m) (showPretty m) (fileSize m) (lastLineNum m)
    (filterMode m) (filterManageMode m) (filterCursor m) (filterEditMode m)
    (lineScrollOffset m) (viewMode m) (viewFilter m) v (isFileFullyLoaded m)
    (loadingMoreLines m) (showSpinner m) (spinnerFrame m) (tailMode m)
    (needsInitialTailJump m) (showHelp m).

Definition set_isFileFullyLoaded (v : bool) (m : Model) : Model :=
  mkModel (lines m) (filteredLines m) (filters m) (cursor m) (viewport m)
    (height m) (width m) (showPretty m) (fileSize m) (lastLineNum m)
    (filterMode m) (filterManageMode m) (filterCursor m) (filterEditMode m)
    (lineScrollOffset m) (viewMode m) (viewFilter m) (file m) v
    (loadingMoreLines m) (showSpinner m) (spinnerFrame m) (tailMode m)
    (needsInitialTailJump m) (showHelp m).

Definition set_loadingMoreLines (v : bool) (m : Model) : Model :=
  mkModel (lines m) (filteredLines m) (filters m) (cursor m) (viewport m)
    (height m) (width m) (showPretty m) (fileSize m) (lastLineNum m)
    (filterMode m) (filterManageMode m) (filterCursor m) (filterEditMode m)
    (lineScrollOffset m) (viewMode m) (viewFilter m) (file m)
    (isFileFullyLoaded m) v (showSpinner m) (spinnerFrame m) (tailMode m)
    (needsInitialTailJump m) (showHelp m).

Definition set_showSpinner (v : bool) (m : Model) : Model :=
  mkModel (lines m) (filteredLines m) (filters m) (cursor m) (viewport m)
    (height m) (width m) (showPretty m) (fileSize m) (lastLineNum m)
    (filterMode m) (filterManageMode m) (filterCursor m) (filterEditMode m)
    (lineScrollOffset m) (viewMode m) (viewFilter m) (file m)
    (isFileFullyLoaded m) (loadingMoreLines m) v (spinnerFrame m) (tailMode
    m) (needsInitialTailJump m) (showHelp m).

Definition set_spinnerFrame (v : Z) (m : Model) : Model :=
  mkModel (lines m) (filteredLines m) (filters m) (cursor m) (viewport m)
    (height m) (width m) (showPretty m) (fileSize m) (lastLineNum m)
    (filterMode m) (filterManageMode m) (filterCursor m) (filterEditMode m)
    (lineScrollOffset m) (viewMode m) (viewFilter m) (file m)
    (isFileFullyLoaded m) (loadingMoreLines m) (showSpinner m) v (tailMode
    m) (needsInitialTailJump m) (showHelp m).

Definition set_tailMode (v : bool) (m : Model) : Model :=
  mkModel (lines m) (filteredLines m) (filters m) (cursor m) (viewport m)
    (height m) (width m) (showPretty m) (fileSize m) (lastLineNum m)
    (filterMode m) (filterManageMode m) (filterCursor m) (filterEditMode m)
    (lineScrollOffset m) (viewMode m) (viewFilter m) (file m)
    (isFileFullyLoaded m) (loadingMoreLines m) (showSpinner m) (spinnerFrame
    m) v (needsInitialTailJump m) (showHelp m).

Definition set_needsInitialTailJump (v : bool) (m : Model) : Model :=
  mkModel (lines m) (filteredLines m) (filters m) (cursor m) (viewport m)
    (height m) (width m) (showPretty m) (fileSize m) (lastLineNum m)
    (filterMode m) (filterManageMode m) (filterCursor m) (filterEditMode m)
    (lineScrollOffset m) (viewMode m) (viewFilter m) (file m)
    (isFileFullyLoaded m) (loadingMoreLines m) (showSpinner m) (spinnerFrame
    m) (tailMode m) v (showHelp m).

Definition set_showHelp (v : bool) (m : Model) : Model :=
  mkModel (lines m) (filteredLines m) (filters m) (cursor m) (viewport m)
    (height m) (width m) (showPretty m) (fileSize m) (lastLineNum m)
    (filterMode m) (filterManageMode m) (filterCursor m) (filterEditMode m)
    (lineScrollOffset m) (viewMode m) (viewFilter m) (file m)
    (isFileFullyLoaded m) (loadingMoreLines m) (showSpinner m) (spinnerFrame
    m) (tailMode m) (needsInitialTailJump m) v.


(** ** FilterEngine *)

(** [getVisibleLines], main.go 1994-1999. *)
Definition getVisibleLines (m : Model) : list LogLine :=
  if len (filters m) =? 0 then lines m else filteredLines m.

(** The [for _, filter := range m.filters] loop of
    [linePassesAllFilters], main.go 2039-2056: a disabled filter is
    skipped, [iter.Next()] is called once, and the first missing, error
    or falsy result returns [false]. *)
Fixpoint filterLoop (fs : list Filter) (line : LogLine) : bool :=
  match fs with
  | [] => true
  | filter :: rest =>
      if negb (Enabled filter) then filterLoop rest line
      else
        match FQuery filter (JSONData line) with
        | [] => false
        | result :: _ =>
            if isError result then false
            else if negb (isTruthy result) then false
            else filterLoop rest line
        end
  end.

(** [linePassesAllFilters], main.go 2034-2057. *)
Definition linePassesAllFilters (m : Model) (line : LogLine) : bool :=
  if negb (IsValid line) then false
  else filterLoop (filters m) line.

(** [applyFilters], main.go 2019-2031: the filtered slice is rebuilt by
    appending, in store order, each line that passes. *)
Definition applyFilters (m : Model) : Model :=
  if len (filters m) =? 0 then set_filteredLines (lines m) m
  else
    set_filteredLines
      (fold_left
         (fun acc line =>
            if linePassesAllFilters m line then acc ++ [line] else acc)
         (lines m) [])
      m.

(** The specification's reading of one filter on one line: the result
    stream has a first value, it is not an error, and it is truthy. *)
Definition evalTruthy (f : Filter) (line : LogLine) : Prop :=
  exists v rest,
    FQuery f (JSONData line) = v :: rest /\
    isError v = false /\ isTruthy v = true.

(** The specification's membership condition for the visible sequence. *)
Definition passesSpec (fs : list Filter) (line : LogLine) : Prop :=
  IsValid line = true /\
  forall f, In f fs -> Enabled f = true -> evalTruthy f line.

(** The specification's list of falsy values. *)
Definition falsy (v : goval) : Prop :=
  v = GNil \/ v = GBool false \/ v = GInt 0 \/
  (exists s, v = GFloat (S754_zero s)) \/
  v = GString "" \/ v = GSlice [] \/ v = GMap [].

(** ** ViewState: re-anchoring *)

(** Slice indexing [s[i]]; [None] is Go's index-out-of-range panic. *)
Definition index {A : Type} (s : list A) (i : Z) : option A :=
  if i <? 0 then None else nth_error s (Z.to_nat i).

(** The scan of [restorePositionAfterFilter], main.go 1961-1975, from
    index [i] on, with [bestPosition] so far. *)
Fixpoint restoreScan (visibleLines : list LogLine) (i : Z)
    (targetLineNumber bestPosition : Z) : Z :=
  match visibleLines with
  | [] => bestPosition
  | line :: rest =>
      if LineNumber line =? targetLineNumber then i
      else if LineNumber line >? targetLineNumber then bestPosition
      else restoreScan rest (i + 1) targetLineNumber i
  end.

(** [restorePositionAfterFilter], main.go 1951-1991. *)
Definition restorePositionAfterFilter (targetLineNumber : Z) (m : Model)
    : Model :=
  let visibleLines := getVisibleLines m in
  if len visibleLines =? 0 then
    set_lineScrollOffset 0 (set_viewport 0 (set_cursor 0 m))
  else
    let bestPosition := restoreScan visibleLines 0 targetLineNumber 0 in
    let m := set_cursor bestPosition m in
    let m :=
      if cursor m <? viewport m then set_viewport (cursor m) m
      else if cursor m >=? viewport m + height m - 1 then
        let m := set_viewport (cursor m - height m + 2) m in
        if viewport m <? 0 then set_viewport 0 m else m
      else m in
    set_lineScrollOffset 0 m.

(** The line number under the cursor, captured before a filter change
    (main.go 362-367 and its three copies); 0 when the cursor is past
    the end. *)
Definition currentLineNumber (m : Model) : Z :=
  let visibleLines := getVisibleLines m in
  if cursor m <? len visibleLines then
    match index visibleLines (cursor m) with
    | Some line => LineNumber line
    | None => 0
    end
  else 0.

(** Replacing [s[i]] in place; out of range is a Go panic, which no
    caller below reaches (each checks [i < len(s)] first). *)
Fixpoint updateAt {A : Type} (s : list A) (i : nat) (g : A -> A) : list A :=
  match s, i with
  | [], _ => []
  | x :: rest, O => g x :: rest
  | x :: rest, S j => x :: updateAt rest j g
  end.

(** Filter management, key [enter] or space: toggle the filter under the
    management cursor, main.go 359-374. *)
Definition manageToggle (m : Model) : Model :=
  if filterCursor m <? len (filters m) then
    let target := currentLineNumber m in
    let m :=
      set_filters
        (updateAt (filters m) (Z.to_nat (filterCursor m))
           (fun f => mkFilter (Expression f) (FQuery f) (negb (Enabled f))))
        m in
    let m := applyFilters m in
    restorePositionAfterFilter target m
  else m.

(** ** ViewTransformer *)

Section ViewTransformer.

(** The formatting collaborators: [fmt.Sprintf] with the verbs [%g] and
    [%v], and [json.Marshal] ([None] when it returns an error). *)
Variable sprintfG : spec_float -> string.
Variable jsonMarshal : goval -> option string.
Variable sprintfV : goval -> string.

(** [fmt.Sprintf] with the verb [%d]: the decimal digits, with a
    leading minus sign for a negative number. *)
Definition sprintfD (v : Z) : string := NilZero.string_of_int (Z.to_int v).

(** [applyViewTransform], main.go 2390-2437.  The deferred [recover]
    turns a panic of the query into the empty-string result, the same
    fallback as for an empty stream; a query is a total function here,
    so that path adds no case. *)
Definition applyViewTransform (m : Model) (jsonData : JSONObject) : string :=
  match viewFilter m with
  | None => ""
  | Some query =>
      match query jsonData with
      | [] => ""
      | result :: _ =>
          if isError result then ""
          else
            match result with
            | GString v => v
            | GNil => "null"
            | GBool v => if v then "true" else "false"
            | GInt v => sprintfD v
            | GFloat v => sprintfG v
            | v =>
                match jsonMarshal v with
                | Some jsonBytes => jsonBytes
                | None => sprintfV v
                end
            end
      end
  end.

(** The text [View] shows for a line before horizontal scrolling and
    truncation, main.go 1032-1040. *)
Definition displayLine (m : Model) (line : LogLine) : string :=
  match viewFilter m with
  | Some _ =>
      if IsValid line then
        let transformedData := applyViewTransform m (JSONData line) in
        if negb (String.eqb transformedData "") then transformedData
        else RawLine line
      else RawLine line
  | None => RawLine line
  end.


End ViewTransformer.

(** ** LineStore and Loader *)

(** [lines[len(lines)-1].LineNumber], guarded by [len(lines) > 0] at each
    use. *)
Definition lastLineNumber (lines : list LogLine) : Z :=
  match index lines (len lines - 1) with
  | Some line => LineNumber line
  | None => 0
  end.

Section Loader.

(** [json.Unmarshal] into a [map[string]interface{}]; [None] is any
    decoding error. *)
Variable parseJSON : string -> option JSONObject.

(** [bufio.Scanner] reads the file in blocks: when a scanner is dropped
    with these lines not yet returned by [Scan], the first
    [readAhead] of them were already taken from the handle. *)
Variable readAhead : list string -> nat.

Definition dropScanner (rest : list string) : list string :=
  skipn (readAhead rest) rest.

(** The body shared by every read loop: build the [LogLine] and try to
    parse it. *)
Definition parseLine (lineNumber : Z) (rawLine : string) : LogLine :=
  match parseJSON rawLine with
  | Some jsonData => mkLogLine lineNumber rawLine jsonData true
  | None => mkLogLine lineNumber rawLine [] false
  end.

(** The loop of [loadInitialChunk], main.go 1767-1784.  [Scan] is
    evaluated before the bound, so the line after the chunk is consumed
    and dropped.  The result is the slice, the lines not yet scanned,
    and whether the loop ended because [Scan] returned false. *)
Fixpoint initialLoop (tokens : list string) (lineNumber chunkSize : Z)
    (lines : list LogLine) : list LogLine * list string * bool :=
  match tokens with
  | [] => (lines, [], true)
  | rawLine :: rest =>
      if lineNumber <=? chunkSize then
        initialLoop rest (lineNumber + 1) chunkSize
          (lines ++ [parseLine lineNumber rawLine])
      else (lines, rest, false)
  end.

(** [loadInitialChunk], main.go 1757-1792; the source file is [None]
    when [os.Open] fails. *)
Definition loadInitialChunk (source : option FileHandle) (chunkSize : Z)
    : option (list LogLine * FileHandle) :=
  match source with
  | None => None
  | Some file =>
      let '(lines, rest, scanEnded) :=
        initialLoop (pending file) 1 chunkSize [] in
      if scanEnded && failing file then None
      else Some (lines, mkFileHandle (dropScanner rest) (failing file))
  end.

(** The loop of [loadMoreLines], main.go 1804-1822. *)
Fixpoint moreLoop (tokens : list string)
    (linesLoaded chunkSize nextLineNumber : Z) (lines : list LogLine)
    : list LogLine * list string * Z * bool :=
  match tokens with
  | [] => (lines, [], linesLoaded, true)
  | rawLine :: rest =>
      if linesLoaded <? chunkSize then
        moreLoop rest (linesLoaded + 1) chunkSize (nextLineNumber + 1)
          (lines ++ [parseLine nextLineNumber rawLine])
      else (lines, rest, linesLoaded, false)
  end.

(** [loadMoreLines], main.go 1795-1841.  The boolean is [err != nil]. *)
Definition loadMoreLines (chunkSize : Z) (m : Model) : Model * bool :=
  match file m with
  | None => (m, false)
  | Some handle =>
      if isFileFullyLoaded m then (m, false)
      else
        let '(appended, rest, linesLoaded, scanEnded) :=
          moreLoop (pending handle) 0 chunkSize (len (lines m) + 1)
            (lines m) in
        let m := set_lines appended m in
        let m :=
          set_file
            (Some (mkFileHandle (dropScanner rest) (failing handle))) m in
        if scanEnded && failing handle then (m, true)
        else
          let m :=
            if linesLoaded <? chunkSize then
              set_file None (set_isFileFullyLoaded true m)
            else m in
          let m :=
            if len (lines m) >? 0 then
              set_lastLineNum (lastLineNumber (lines m)) m
            else m in
          (m, false)
  end.

(** [main], main.go 2132-2203, without the tail flag: the first chunk,
    then the initial model. *)
Definition initialChunkSize : Z := 1000.

Definition newModel (lines : list LogLine) (file : option FileHandle)
    (isFileFullyLoaded : bool) (size : Z) : Model :=
  mkModel lines lines [] 0 0 24 80 false size
    (if len lines >? 0 then lastLineNumber lines else 0)
    false false 0 false 0 false None file isFileFullyLoaded
    false false 0 false false false.

Definition startup (source : option FileHandle) (size : Z) : option Model :=
  match loadInitialChunk source initialChunkSize with
  | None => None
  | Some (lines, file) =>
      Some (newModel lines (Some file) (len lines <? initialChunkSize) size)
  end.

End Loader.

(** ** TailMonitor *)

(** The source file as a poll sees it by name: the size [Stat] reports
    ([None] when it fails), whether [Seek] succeeds, and the lines a
    scanner yields from a byte offset on. *)
Record SourceFile : Type := mkSourceFile {
  statSize : option Z;
  seekable : bool;
  linesFrom : Z -> list string
}.

(** The file system at the moment of a poll; [None] when [os.Open]
    fails, for instance because the file was deleted. *)
Definition Disk : Type := option SourceFile.

(** [os.Stat(m.filename)]. *)
Definition osStat (disk : Disk) : option Z :=
  match disk with
  | Some f => statSize f
  | None => None
  end.

Section TailMonitor.

Variable parseJSON : string -> option JSONObject.

(** The read loop of [checkForNewLines], main.go 1923-1940. *)
Fixpoint tailLoop (tokens : list string) (lineNumber : Z)
    (newLines : list LogLine) : list LogLine :=
  match tokens with
  | [] => newLines
  | rawLine :: rest =>
      tailLoop rest (lineNumber + 1)
        (newLines ++ [parseLine parseJSON lineNumber rawLine])
  end.

(** The command built by [checkForNewLines], main.go 1894-1948, run
    against the disk; [None] is the nil message. *)
Definition checkForNewLines (disk : Disk) (currentSize lastLineNum : Z)
    : option (list LogLine) :=
  match disk with
  | None => None
  | Some f =>
      match statSize f with
      | None => None
      | Some size =>
          if size <=? currentSize then None
          else if negb (seekable f) then None
          else
            let newLines :=
              tailLoop (linesFrom f currentSize) (lastLineNum + 1) [] in
            if len newLines >? 0 then Some newLines else None
      end
  end.

End TailMonitor.

(** ** The update function *)

(** The commands [Update] returns. *)
Inductive Cmd : Type :=
  | CmdTick
  | CmdCheckForNewLines (currentSize lastLineNum : Z)
  | CmdLoadMoreLines (chunkSize : Z)
  | CmdLoadToEnd (file : option FileHandle) (currentLineCount : Z)
  | CmdSpinnerTick
  | CmdQuit.

(** A command that asks the loader to read from the file. *)
Definition isLoadRequest (c : Cmd) : bool :=
  match c with
  | CmdLoadMoreLines _ | CmdLoadToEnd _ _ => true
  | _ => false
  end.

(** [case tickMsg], main.go 840-845. *)
Definition updateTick (m : Model) : Model * list Cmd :=
  (m, [CmdCheckForNewLines (fileSize m) (lastLineNum m); CmdTick]).

(** The jump to the last visible line of [case newLinesMsg], main.go
    863-876. *)
Definition tailJump (m : Model) : Model :=
  let visibleLines := getVisibleLines m in
  if len visibleLines >? 0 then
    let m := set_cursor (len visibleLines - 1) m in
    let m :=
      if cursor m >=? height m - 1 then
        let m := set_viewport (cursor m - height m + 2) m in
        if viewport m <? 0 then set_viewport 0 m else m
      else set_viewport 0 m in
    set_lineScrollOffset 0 m
  else m.

(** [case newLinesMsg], main.go 847-885. *)
Definition updateNewLines (disk : Disk) (newLines : list LogLine) (m : Model)
    : Model * list Cmd :=
  if len newLines >? 0 then
    let m := set_lines (lines m ++ newLines) m in
    let m := set_lastLineNum (lastLineNumber newLines) m in
    let m := if len (filters m) >? 0 then applyFilters m else m in
    let m := if tailMode m then tailJump m else m in
    let m :=
      match osStat disk with
      | Some size => set_fileSize size m
      | None => m
      end in
    (m, [])
  else (m, []).

(** [case loadMoreLinesMsg], main.go 887-899. *)
Definition updateLoadMoreLinesMsg (err : bool) (m : Model)
    : Model * list Cmd :=
  let m := set_loadingMoreLines false m in
  if err then (set_isFileFullyLoaded true m, [])
  else if len (filters m) >? 0 then (applyFilters m, [])
  else (m, []).

(** The jump of the [end] key and of a finished read-to-end, main.go
    825-835. *)
Definition endJump (m : Model) : Model :=
  let visibleLines := getVisibleLines m in
  if len visibleLines >? 0 then
    let m := set_cursor (len visibleLines - 1) m in
    let m :=
      if cursor m >=? height m - 1 then
        set_viewport (cursor m - height m + 2) m
      else set_viewport 0 m in
    set_lineScrollOffset 0 m
  else m.

(** [case loadToEndMsg], main.go 928-969. *)
Definition updateLoadToEndMsg (newLines : list LogLine)
    (err isComplete : bool) (m : Model) : Model * list Cmd :=
  let m :=
    if len newLines >? 0 then
      set_lastLineNum (lastLineNumber newLines)
        (set_lines (lines m ++ newLines) m)
    else m in
  if err || isComplete then
    let m := set_isFileFullyLoaded true m in
    let m := set_showSpinner false m in
    let m := set_spinnerFrame 0 m in
    let m := set_file None m in
    let m := if len (filters m) >? 0 then applyFilters m else m in
    (endJump m, [])
  else (m, [CmdLoadToEnd (file m) (len (lines m))]).

(** The lazy-load trigger of downward navigation, main.go 598-609 and
    753-764. *)
Definition loadTriggerThreshold : Z := 100.

Definition lazyLoadDue (m : Model) : bool :=
  negb (isFileFullyLoaded m) && negb (loadingMoreLines m) &&
  (len (lines m) - cursor m <=? loadTriggerThreshold).

(** Normal mode, key [down] or [j], main.go 575-613.  With the help or
    detail overlay open the key only scrolls the overlay. *)
Definition keyDown (m : Model) : Model * list Cmd :=
  if showHelp m then (m, [])
  else if showPretty m then (m, [])
  else
    let visibleLines := getVisibleLines m in
    if cursor m <? len visibleLines - 1 then
      let m := set_cursor (cursor m + 1) m in
      let m :=
        if cursor m >=? viewport m + height m - 1 then
          set_viewport (cursor m - height m + 2) m
        else m in
      if lazyLoadDue m then
        (set_loadingMoreLines true m, [CmdLoadMoreLines 500])
      else (set_lineScrollOffset 0 m, [])
    else (set_lineScrollOffset 0 m, []).

(** Normal mode, key [pgdn], main.go 711-768. *)
Definition keyPageDown (m : Model) : Model * list Cmd :=
  if showHelp m then (m, [])
  else if showPretty m then (m, [])
  else
    let visibleLines := getVisibleLines m in
    if len visibleLines >? 0 then
      let pageSize := if height m - 1 <? 1 then 1 else height m - 1 in
      let m := set_cursor (cursor m + pageSize) m in
      let m :=
        if cursor m >=? len visibleLines then
          set_cursor (len visibleLines - 1) m
        else m in
      let m :=
        if cursor m >=? viewport m + height m - 1 then
          set_viewport (cursor m - height m + 2) m
        else m in
      if lazyLoadDue m then
        (set_loadingMoreLines true m, [CmdLoadMoreLines 500])
      else (set_lineScrollOffset 0 m, [])
    else (set_lineScrollOffset 0 m, []).

(** Normal mode, key [end], main.go 812-837. *)
Definition keyEnd (m : Model) : Model * list Cmd :=
  if negb (showPretty m) then
    if negb (isFileFullyLoaded m) then
      (set_spinnerFrame 0 (set_showSpinner true m),
       [CmdSpinnerTick; CmdLoadToEnd (file m) (len (lines m))])
    else (endJump m, [])
  else (m, []).

(** Normal mode, key [t], main.go 513-545. *)
Definition keyTail (m : Model) : Model * list Cmd :=
  if negb (showPretty m) && negb (filterMode m) &&
     negb (filterManageMode m) && negb (viewMode m) then
    let m := set_tailMode (negb (tailMode m)) m in
    if tailMode m then
      if negb (isFileFullyLoaded m) then
        (set_spinnerFrame 0 (set_showSpinner true m),
         [CmdSpinnerTick; CmdLoadToEnd (file m) (len (lines m))])
      else (tailJump m, [])
    else (m, [])
  else (m, []).

(** ** Sessions: polls and loads in sequence *)

Section Session.

Variable parseJSON : string -> option JSONObject.
Variable readAhead : list string -> nat.

(** Running one command of a tick against the disk and handing its
    message to [Update].  A nil message is dropped by the event loop;
    the timer command only schedules the next tick. *)
Definition runPoll (disk : Disk) (m : Model) (c : Cmd) : Model :=
  match c with
  | CmdCheckForNewLines currentSize lastLineNum =>
      match checkForNewLines parseJSON disk currentSize lastLineNum with
      | Some newLines => fst (updateNewLines disk newLines m)
      | None => m
      end
  | _ => m
  end.

(** One tick: [Update] on the tick message, then its commands. *)
Definition pollRound (disk : Disk) (m : Model) : Model :=
  let '(m, cmds) := updateTick m in
  fold_left (runPoll disk) cmds m.

(** A poll that cannot read the source: open, stat or seek fails. *)
Definition pollFails (disk : Disk) (currentSize : Z) : Prop :=
  match disk with
  | None => True
  | Some f =>
      match statSize f with
      | None => True
      | Some size => currentSize < size /\ seekable f = false
      end
  end.

(** The writers of the line store after startup. *)
Inductive StoreOp : Type :=
  | OpLoadMore (chunkSize : Z)
  | OpTailAppend (disk : Disk).

Definition applyOp (m : Model) (op : StoreOp) : Model :=
  match op with
  | OpLoadMore chunkSize => fst (loadMoreLines parseJSON readAhead chunkSize m)
  | OpTailAppend disk => pollRound disk m
  end.

Definition runOps (ops : list StoreOp) (m : Model) : Model :=
  fold_left applyOp ops m.

(** No [loadMoreLines] call of the run returns an error. *)
Fixpoint errorFree (ops : list StoreOp) (m : Model) : Prop :=
  match ops with
  | [] => True
  | op :: rest =>
      match op with
      | OpLoadMore chunkSize =>
          snd (loadMoreLines parseJSON readAhead chunkSize m) = false
      | OpTailAppend _ => True
      end /\ errorFree rest (applyOp m op)
  end.

End Session.

(** ** Predicates of the specification *)

(** Line numbers exactly [1..len], in order. *)
Definition numbered (ls : list LogLine) : Prop :=
  map LineNumber ls = map Z.of_nat (seq 1 (List.length ls)).

(** Strictly increasing line numbers, as in every subsequence of a
    numbered store. *)
Definition increasing (ls : list LogLine) : Prop :=
  StronglySorted (fun a b => LineNumber a < LineNumber b) ls.



(** The invariant of the line store: numbered lines, and the last line
    number the tail monitor continues from is the store's length. *)
Definition storeInv (m : Model) : Prop :=
  numbered (lines m) /\ lastLineNum m = len (lines m).

(** ** Runs of events *)

(** Input events that can issue a load request, and the messages that
    complete one. *)
Inductive Event : Type :=
  | KeyDown
  | KeyPageDown
  | KeyEnd
  | KeyTail
  | MsgLoadMoreLines (err : bool)
  | MsgLoadToEnd (newLines : list LogLine) (err isComplete : bool).

(** The mode dispatch of [case tea.KeyMsg], main.go 171-486, for the
    four keys above.  The three text-entry modes turn each of them into
    an edit of their input buffer, which is not part of this model; in
    filter management the [down] key moves the management cursor
    (main.go 355-358) and the other three keys do nothing. *)
Definition updateKey (e : Event) (normal : Model -> Model * list Cmd)
    (m : Model) : Model * list Cmd :=
  if filterEditMode m then (m, [])
  else if filterMode m then (m, [])
  else if filterManageMode m then
    match e with
    | KeyDown =>
        if filterCursor m <? len (filters m) - 1 then
          (set_filterCursor (filterCursor m + 1) m, [])
        else (m, [])
    | _ => (m, [])
    end
  else if viewMode m then (m, [])
  else normal m.

(** [Update], main.go 147-973, on these events. *)
Definition update (m : Model) (e : Event) : Model * list Cmd :=
  match e with
  | KeyDown => updateKey e keyDown m
  | KeyPageDown => updateKey e keyPageDown m
  | KeyEnd => updateKey e keyEnd m
  | KeyTail => updateKey e keyTail m
  | MsgLoadMoreLines err => updateLoadMoreLinesMsg err m
  | MsgLoadToEnd newLines err isComplete =>
      updateLoadToEndMsg newLines err isComplete m
  end.

(** The load requests issued along a run of events, oldest first. *)
Fixpoint issuedLoads (m : Model) (events : list Event) : list Cmd :=
  match events with
  | [] => []
  | e :: rest =>
      let '(m', cmds) := update m e in
      filter isLoadRequest cmds ++ issuedLoads m' rest
  end.

(** ** Concrete lines, queries and files used in the examples *)

Definition dq : string := String "034"%char "".

(** The text of a one-field log line with the given level. *)
Definition levelText (level : string) : string :=
  "{" ++ dq ++ "level" ++ dq ++ ":" ++ dq ++ level ++ dq ++ "}".

Definition levelLine (n : Z) (level : string) : LogLine :=
  mkLogLine n (levelText level) [("level", GString level)] true.

Definition garbageLine (n : Z) : LogLine :=
  mkLogLine n "garbage" [] false.

(** A decoder that knows the two example lines and rejects the rest. *)
Definition parseLevel (raw : string) : option JSONObject :=
  if String.eqb raw (levelText "error") then Some [("level", GString "error")]
  else if String.eqb raw (levelText "info") then Some [("level", GString "info")]
  else None.

Definition field (key : string) (obj : JSONObject) : goval :=
  match find (fun kv => String.eqb (fst kv) key) obj with
  | Some (_, v) => v
  | None => GNil
  end.

(** The query [.level == "error"] and its relatives: one boolean. *)
Definition levelIs (level : string) : Query :=
  fun obj =>
    match field "level" obj with
    | GString s => [GBool (String.eqb s level)]
    | _ => [GBool false]
    end.

(** A query that yields the given stream whatever the input. *)
Definition yields (stream : list goval) : Query := fun _ => stream.

Definition errorFilter : Filter :=
  mkFilter ".level == error" (levelIs "error") true.

(** A model with the defaults of [main] around the given store, filters
    and cursor, its filtered slice computed by [applyFilters]. *)
Definition modelOf (ls : list LogLine) (fs : list Filter) (c : Z) : Model :=
  applyFilters
    (set_cursor c (set_filters fs (newModel ls None true 0))).

(** The state after a run of events. *)
Definition runEvents (m : Model) (events : list Event) : Model :=
  fold_left (fun m e => fst (update m e)) events m.

(** No read-ahead: a dropped scanner leaves every unscanned line. *)
Definition noReadAhead (rest : list string) : nat := 0%nat.



(** A filter that yields nothing. *)
Definition emptyFilter : Filter := mkFilter "empty" (yields []) true.

(** A filter whose first result is an error. *)
Definition errorFirst : Filter :=
  mkFilter "error, true" (yields [GError "boom"; GBool true]) true.

(** One error line under the error filter and one more filter. *)
Definition withSecondFilter (f : Filter) : Model :=
  modelOf [levelLine 1 "error"] [errorFilter; f] 0.

(** Seven lines, the even ones not JSON; a filter that accepts every
    level but debug, enabled, and the error filter, disabled and under
    the management cursor.  The visible lines are 1, 3, 5 and 7 and the
    selection is on line 5, which toggling the error filter removes. *)
Definition reanchorExample : Model :=
  set_filterManageMode true
    (set_filterCursor 1
       (modelOf
          [levelLine 1 "error"; garbageLine 2; levelLine 3 "error";
           garbageLine 4; levelLine 5 "info"; garbageLine 6;
           levelLine 7 "error"]
          [mkFilter ".level != debug"
             (fun obj =>
                match field "level" obj with
                | GString s => [GBool (negb (String.eqb s "debug"))]
                | _ => [GBool true]
                end)
             true;
           mkFilter ".level == error" (levelIs "error") false]
          2)).







(** Three error lines under the error filter, tail-follow on, and the
    selection moved back to the first line. *)
Definition tailExample : Model :=
  set_tailMode true
    (modelOf [levelLine 1 "error"; levelLine 2 "error"; levelLine 3 "error"]
       [errorFilter] 0).

(** The same model with tail-follow off. *)
Definition quietExample : Model := set_tailMode false tailExample.

(** A batch the error filter removes entirely, and one of five lines of
    which only the third passes. *)
Definition filteredBatch : list LogLine :=
  [levelLine 4 "info"; levelLine 5 "info"].

Definition mixedBatch : list LogLine :=
  [levelLine 4 "info"; levelLine 5 "info"; levelLine 6 "error";
   levelLine 7 "info"; levelLine 8 "info"].

(** A model that is still loading lazily, for the poll examples. *)
Definition pollingModel : Model :=
  newModel [levelLine 1 "info"] (Some (mkFileHandle [] false)) false 17.

(** A source of 1500 lines, larger than the first chunk, as [startup]
    loads it; its size on disk is taken to be 30000 bytes. *)
Definition longSource : FileHandle :=
  mkFileHandle (repeat (levelText "info") 1500) false.

Definition longModel : option Model :=
  startup parseLevel noReadAhead (Some longSource) 30000.

(** A source whose line 1004 is longer than the scanner's buffer: the
    scanner yields 1003 lines and then stops on the error. *)
Definition oversizedSource : FileHandle :=
  mkFileHandle (repeat (levelText "info") 1003) true.

Definition oversizedModel : option Model :=
  startup parseLevel noReadAhead (Some oversizedSource) 30000.

(** The same file after one more line was written to it. *)
Definition grownDisk : Disk :=
  Some (mkSourceFile (Some 30020) true (fun _ => [levelText "error"])).

(** Two lazy loads with a poll of the grown file in between. *)
Definition lazySession : list StoreOp :=
  [OpLoadMore 300; OpTailAppend grownDisk; OpLoadMore 300].

(** The models [main] starts from on the two example sources. *)
Definition longStart : Model :=
  Eval vm_compute in
    match longModel with
    | Some m => m
    | None => newModel [] None true 0
    end.

Definition oversizedStart : Model :=
  Eval vm_compute in
    match oversizedModel with
    | Some m => m
    | None => newModel [] None true 0
    end.

(** ** Text as bytes *)

(** [len(s)] of a Go string: its number of bytes. *)
Definition byteLen (s : string) : Z := Z.of_nat (String.length s).

(** The slices [s[:n]] and [s[n:]] for [0 <= n <= len(s)]. *)
Fixpoint strTake (n : nat) (s : string) : string :=
  match n, s with
  | S k, String c rest => String c (strTake k rest)
  | _, _ => ""
  end.

Fixpoint strDrop (n : nat) (s : string) : string :=
  match n, s with
  | S k, String c rest => strDrop k rest
  | _, _ => s
  end.

(** [strings.Join(pieces, "")]. *)
Definition joinAll (pieces : list string) : string :=
  fold_right String.append "" pieces.

(** ** Line wrapping for the detail view *)

(** The bytes [wrapLine] prefers to break after. *)
Definition isBreakByte (c : ascii) : bool :=
  Ascii.eqb c " "%char || Ascii.eqb c ","%char || Ascii.eqb c ":"%char.

(** The inner loop of [wrapLine], main.go 1683-1688: from index [i]
    down to [width-20], and above index 0, look for a break byte.  The
    loop body runs at most twenty times, which is what [steps] counts;
    the index is below [width], itself below [len(line)], so the byte
    exists. *)
Fixpoint breakScan (line : string) (width i : Z) (steps : nat) : Z :=
  match steps with
  | O => width
  | S steps' =>
      if (i >=? width - 20) && (i >? 0) then
        match String.get (Z.to_nat i) line with
        | Some c =>
            if isBreakByte c then i + 1
            else breakScan line width (i - 1) steps'
        | None => width
        end
      else width
  end.

(** The outer loop of [wrapLine], main.go 1680-1696, with the trailing
    piece.  Every round removes at least one byte, so [len(line)] rounds
    are enough; [fuel] counts them. *)
Fixpoint wrapLoop (fuel : nat) (line : string) (width : Z)
    (wrapped : list string) : list string :=
  match fuel with
  | O => if byteLen line >? 0 then wrapped ++ [line] else wrapped
  | S fuel' =>
      if byteLen line >? width then
        let breakPoint := breakScan line width (width - 1) 20 in
        wrapLoop fuel' (strDrop (Z.to_nat breakPoint) line) width
          (wrapped ++ [strTake (Z.to_nat breakPoint) line])
      else if byteLen line >? 0 then wrapped ++ [line]
      else wrapped
  end.

(** [wrapLine], main.go 1669-1698. *)
Definition wrapLine (line : string) (width : Z) : list string :=
  if width <=? 0 then [line]
  else if byteLen line <=? width then [line]
  else wrapLoop (String.length line) line width [].

(** ** The other loaders *)

Section MoreLoaders.

Variable parseJSON : string -> option JSONObject.
Variable readAhead : list string -> nat.

(** Whether [json.Unmarshal] accepts the text. *)
Definition decodes (raw : string) : bool :=
  match parseJSON raw with
  | Some _ => true
  | None => false
  end.

(** [loadAllLines], main.go 2352-2387, used when the tail flag is given
    at startup: every line of the file, numbered from 1.  Its read loop
    (2363-2380) is the loop of [checkForNewLines] started at 1. *)
Definition loadAllLines (source : option FileHandle)
    : option (list LogLine) :=
  match source with
  | None => None
  | Some file =>
      let lines := tailLoop parseJSON (pending file) 1 [] in
      if failing file then None else Some lines
  end.

(** The sampling loop of [estimateTotalLines], main.go 1866-1869: the
    bytes of each sampled line plus one for its terminator. *)
Fixpoint sampleLoop (tokens : list string)
    (lineCount sampleSize totalBytes : Z) : Z * Z * bool :=
  match tokens with
  | [] => (totalBytes, lineCount, true)
  | rawLine :: rest =>
      if lineCount <? sampleSize then
        sampleLoop rest (lineCount + 1) sampleSize
          (totalBytes + (byteLen rawLine + 1))
      else (totalBytes, lineCount, false)
  end.

(** [estimateTotalLines], main.go 1844-1884; [None] is a returned
    error, [stat] the result of [file.Stat()].  Both divisions are Go's
    integer division, which truncates. *)
Definition estimateTotalLines (source : option FileHandle) (stat : option Z)
    (sampleSize : Z) : option Z :=
  match source with
  | None => None
  | Some file =>
      match stat with
      | None => None
      | Some fileSize =>
          if fileSize =? 0 then Some 0
          else
            let '(totalBytes, lineCount, scanEnded) :=
              sampleLoop (pending file) 0 sampleSize 0 in
            if scanEnded && failing file then None
            else if lineCount =? 0 then Some 0
            else
              let avgLineSize := Z.quot totalBytes lineCount in
              Some (Z.quot fileSize avgLineSize)
      end
  end.

(** The loop of [loadToEndCmd] that skips the lines already read after
    reopening the file, main.go 2283-2286.  The count is tested before
    [Scan], so no line beyond the count is consumed; the boolean tells
    that [Scan] was called and returned false. *)
Fixpoint skipLoop (tokens : list string) (i currentLineCount : Z)
    : list string * bool :=
  match tokens with
  | [] => ([], i <? currentLineCount)
  | _ :: rest =>
      if i <? currentLineCount then skipLoop rest (i + 1) currentLineCount
      else (tokens, false)
  end.

(** The read loop of [loadToEndCmd], main.go 2306-2332: it returns as
    soon as the batch holds [chunkSize] = 1000 lines. *)
Fixpoint endLoop (tokens : list string) (lineNumber : Z)
    (allNewLines : list LogLine) : list LogLine * list string * bool :=
  match tokens with
  | [] => (allNewLines, [], true)
  | rawLine :: rest =>
      let allNewLines := allNewLines ++ [parseLine parseJSON lineNumber rawLine] in
      if len allNewLines >=? 1000 then (allNewLines, rest, false)
      else endLoop rest (lineNumber + 1) allNewLines
  end.

(** The message of [loadToEndCmd]: the batch, whether an error came with
    it, and whether loading is complete. *)
Definition LoadToEndMsg : Type := (list LogLine * bool * bool)%type.

(** The second half of [loadToEndCmd], main.go 2299-2347, on the handle
    [f]; the second component is what the handle still holds once the
    scanner of this call is dropped. *)
Definition readToEnd (f : FileHandle) (currentLineCount : Z)
    : LoadToEndMsg * FileHandle :=
  let '(allNewLines, rest, scanEnded) :=
    endLoop (pending f) (currentLineCount + 1) [] in
  let f' := mkFileHandle (dropScanner readAhead rest) (failing f) in
  if scanEnded then
    if failing f then ((allNewLines, true, true), f')
    else ((allNewLines, false, true), f')
  else ((allNewLines, false, false), f').

(** [loadToEndCmd], main.go 2265-2349, run against the retained handle
    [file], or against the file reopened by name ([reopen], [None] when
    [os.Open] fails) when no handle is retained.  The second component
    is the state of the retained handle afterwards; a reopened file is
    closed before the command returns. *)
Definition loadToEndCmd (reopen file : option FileHandle)
    (currentLineCount : Z) : LoadToEndMsg * option FileHandle :=
  match file with
  | Some f =>
      let '(msg, f') := readToEnd f currentLineCount in (msg, Some f')
  | None =>
      match reopen with
      | None => (([], true, true), None)
      | Some f =>
          let '(rest, scanEnded) := skipLoop (pending f) 0 currentLineCount in
          if scanEnded && failing f then (([], true, true), None)
          else
            let skipped :=
              mkFileHandle (dropScanner readAhead rest) (failing f) in
            (fst (readToEnd skipped currentLineCount), None)
      end
  end.



End MoreLoaders.

(** Every line is valid exactly when its text decodes. *)
Definition faithful (parseJSON : string -> option JSONObject)
    (ls : list LogLine) : Prop :=
  Forall (fun l => IsValid l = decodes parseJSON (RawLine l)) ls.

(** A file of three hundred lines of equal length, and its size in
    bytes with the line terminators. *)
Definition uniformSource : FileHandle :=
  mkFileHandle (repeat (levelText "info") 300) false.

Definition uniformSize : Z := 300 * (byteLen (levelText "info") + 1).


(** ** Vertical navigation *)

(** Normal mode, key [up] or [k], main.go 552-573.  With the help or
    detail overlay open the key only scrolls the overlay. *)
Definition keyUp (m : Model) : Model * list Cmd :=
  if showHelp m then (m, [])
  else if showPretty m then (m, [])
  else
    let m :=
      if cursor m >? 0 then
        let m := set_cursor (cursor m - 1) m in
        if cursor m <? viewport m then set_viewport (cursor m) m else m
      else m in
    (set_lineScrollOffset 0 m, []).

(** Normal mode, key [pgup], main.go 667-709. *)
Definition keyPageUp (m : Model) : Model * list Cmd :=
  if showHelp m then (m, [])
  else if showPretty m then (m, [])
  else
    let visibleLines := getVisibleLines m in
    let m :=
      if len visibleLines >? 0 then
        let pageSize := if height m - 1 <? 1 then 1 else height m - 1 in
        let m := set_cursor (cursor m - pageSize) m in
        let m := if cursor m <? 0 then set_cursor 0 m else m in
        if cursor m <? viewport m then set_viewport (cursor m) m else m
      else m in
    (set_lineScrollOffset 0 m, []).

(** Normal mode, key [home], main.go 803-810. *)
Definition keyHome (m : Model) : Model * list Cmd :=
  if negb (showPretty m) then
    (set_lineScrollOffset 0 (set_viewport 0 (set_cursor 0 m)), [])
  else (m, []).

(** The keys that move the selection. *)
Inductive NavKey : Type :=
  | NavUp
  | NavDown
  | NavPageUp
  | NavPageDown
  | NavHome
  | NavEnd.

Definition navigate (k : NavKey) (m : Model) : Model :=
  match k with
  | NavUp => fst (keyUp m)
  | NavDown => fst (keyDown m)
  | NavPageUp => fst (keyPageUp m)
  | NavPageDown => fst (keyPageDown m)
  | NavHome => fst (keyHome m)
  | NavEnd => fst (keyEnd m)
  end.

(** The selected index is inside the visible sequence, or 0 when
    nothing is visible. *)
Definition selectionValid (m : Model) : Prop :=
  0 <= cursor m <= Z.max 0 (len (getVisibleLines m) - 1).

(** The selected row is one of the rows [View] renders, main.go
    1010-1019: rows [viewport] to [viewport + (height - 1) - 1]. *)
Definition onScreen (m : Model) : Prop :=
  0 <= viewport m /\ viewport m <= cursor m < viewport m + (height m - 1).

(** ** Filter entry and filter management *)

(** [filteredLines] is what [applyFilters] computes from the present
    store and filters, as after every handler that changes either. *)
Definition synced (m : Model) : Prop :=
  filters m <> [] ->
  filteredLines m = filter (linePassesAllFilters m) (lines m).

Section FilterEntry.

(** [gojq.Parse]; [None] is a parse error. *)
Variable Parse : string -> option Query.

(** [addFilter], main.go 2002-2016; [None] is the returned error, with
    the model untouched. *)
Definition addFilter (expression : string) (m : Model) : option Model :=
  match Parse expression with
  | None => None
  | Some query =>
      Some (set_filters (filters m ++ [mkFilter expression query true]) m)
  end.

(** Filter entry, key [enter], main.go 269-286, on the model; the input
    buffer, cleared afterwards, is the argument. *)
Definition filterEntryEnter (filterInput : string) (m : Model) : Model :=
  let m :=
    if negb (String.eqb filterInput "") then
      let target := currentLineNumber m in
      match addFilter filterInput m with
      | Some m => restorePositionAfterFilter target (applyFilters m)
      | None => m
      end
    else m in
  set_filterMode false m.

End FilterEntry.

(** Filter management, key [d] or [x]: delete the filter under the
    management cursor, main.go 375-393. *)
Definition manageDelete (m : Model) : Model :=
  if filterCursor m <? len (filters m) then
    let target := currentLineNumber m in
    let m :=
      set_filters
        (firstn (Z.to_nat (filterCursor m)) (filters m) ++
         skipn (Z.to_nat (filterCursor m + 1)) (filters m))
        m in
    let m :=
      if (filterCursor m >=? len (filters m)) && (len (filters m) >? 0) then
        set_filterCursor (len (filters m) - 1) m
      else m in
    let m := applyFilters m in
    restorePositionAfterFilter target m
  else m.

(** The keys of filter management, main.go 347-401, but [e]. *)
Inductive ManageKey : Type :=
  | ManageEsc
  | ManageUp
  | ManageDown
  | ManageToggle
  | ManageDelete.

Definition manage (k : ManageKey) (m : Model) : Model :=
  match k with
  | ManageEsc => set_filterCursor 0 (set_filterManageMode false m)
  | ManageUp =>
      if filterCursor m >? 0 then set_filterCursor (filterCursor m - 1) m
      else m
  | ManageDown =>
      if filterCursor m <? len (filters m) - 1 then
        set_filterCursor (filterCursor m + 1) m
      else m
  | ManageToggle => manageToggle m
  | ManageDelete => manageDelete m
  end.

(** The management cursor is on a filter, or 0 when there is none. *)
Definition manageCursorValid (m : Model) : Prop :=
  0 <= filterCursor m <= Z.max 0 (len (filters m) - 1).

(** Gojq's parser on the two example expressions. *)
Definition parseExample (expression : string) : option Query :=
  if String.eqb expression ".level == error" then Some (levelIs "error")
  else if String.eqb expression ".level == info" then Some (levelIs "info")
  else None.

(** A store of mixed levels with the info filter on. *)
Definition mixedModel : Model :=
  modelOf
    [levelLine 1 "error"; levelLine 2 "info"; garbageLine 3;
     levelLine 4 "info"; levelLine 5 "error"]
    [mkFilter ".level == info" (levelIs "info") true] 1.

(** ** Text entry *)

(** An input buffer with its cursor: [filterInput] and
    [filterCursorPos], [filterEditInput] and [filterEditCursorPos],
    [viewInput] and [viewCursorPos]. *)
Record TextInput : Type := mkTextInput {
  inputText : string;
  cursorPos : Z
}.

(** The slice expressions [s[:hi]] and [s[lo:]] and the index
    expression [s[i]]; [None] is the run-time panic on a bound out of
    range. *)
Definition sliceTo (s : string) (hi : Z) : option string :=
  if (0 <=? hi) && (hi <=? byteLen s) then Some (strTake (Z.to_nat hi) s)
  else None.

Definition sliceFrom (s : string) (lo : Z) : option string :=
  if (0 <=? lo) && (lo <=? byteLen s) then Some (strDrop (Z.to_nat lo) s)
  else None.

Definition byteAt (s : string) (i : Z) : option ascii :=
  if 0 <=? i then String.get (Z.to_nat i) s else None.

(** [input[:upTo] + middle + input[from:]] with the cursor set to
    [pos]. *)
Definition splice (t : TextInput) (upTo from : Z) (middle : string) (pos : Z)
    : option TextInput :=
  match sliceTo (inputText t) upTo, sliceFrom (inputText t) from with
  | Some before, Some rest =>
      Some (mkTextInput (before ++ middle ++ rest)%string pos)
  | _, _ => None
  end.

(** The loop of [ctrl+w], main.go 314-316: move [start] left while it
    is above 0 and not on a space.  Each round lowers [start] by one,
    so [start] rounds are enough; [steps] counts them. *)
Fixpoint wordScan (input : string) (start : Z) (steps : nat) : option Z :=
  match steps with
  | O => Some start
  | S steps' =>
      if start >? 0 then
        match byteAt input start with
        | None => None
        | Some c =>
            if negb (Ascii.eqb c " "%char) then
              wordScan input (start - 1) steps'
            else Some start
        end
      else Some start
  end.

(** [ctrl+w], main.go 310-322. *)
Definition deleteWord (t : TextInput) : option TextInput :=
  if cursorPos t >? 0 then
    match wordScan (inputText t) (cursorPos t - 1)
            (Z.to_nat (cursorPos t - 1)) with
    | None => None
    | Some start =>
        match byteAt (inputText t) start with
        | None => None
        | Some c =>
            let start := if Ascii.eqb c " "%char then start + 1 else start in
            splice t start (cursorPos t) "" start
        end
    end
  else Some t.

Definition keyIs (key : string) (names : list string) : bool :=
  existsb (String.eqb key) names.

(** [len(k) == 1 && k >= " " && k <= "~"], main.go 335. *)
Definition isPrintableKey (key : string) : bool :=
  match key with
  | String c EmptyString =>
      (N_of_ascii " "%char <=? N_of_ascii c)%N &&
      (N_of_ascii c <=? N_of_ascii "~"%char)%N
  | _ => false
  end.

(** The key switch of the three entry modes on their buffer, main.go
    174-258, 264-341 and 407-483; [clipboardText] is what
    [getClipboardText] returns.  What [enter] does to the rest of the
    model is [filterEntryEnter] for filter entry. *)
Definition editKey (clipboardText key : string) (t : TextInput)
    : option TextInput :=
  let input := inputText t in
  let pos := cursorPos t in
  if keyIs key ["esc"; "enter"] then Some (mkTextInput "" 0)
  else if keyIs key ["left"] then
    Some (if pos >? 0 then mkTextInput input (pos - 1) else t)
  else if keyIs key ["right"] then
    Some (if pos <? byteLen input then mkTextInput input (pos + 1) else t)
  else if keyIs key ["home"; "ctrl+a"] then Some (mkTextInput input 0)
  else if keyIs key ["end"; "ctrl+e"] then
    Some (mkTextInput input (byteLen input))
  else if keyIs key ["backspace"] then
    if pos >? 0 then splice t (pos - 1) pos "" (pos - 1) else Some t
  else if keyIs key ["delete"; "ctrl+d"] then
    if pos <? byteLen input then splice t pos (pos + 1) "" pos else Some t
  else if keyIs key ["ctrl+w"] then deleteWord t
  else if keyIs key ["ctrl+k"] then
    match sliceTo input pos with
    | Some kept => Some (mkTextInput kept pos)
    | None => None
    end
  else if keyIs key ["ctrl+v"] then
    if negb (String.eqb clipboardText "") then
      splice t pos pos clipboardText (pos + byteLen clipboardText)
    else Some t
  else if isPrintableKey key then splice t pos pos key (pos + 1)
  else Some t.

(** The cursor is inside the buffer or at its end. *)
Definition inputValid (t : TextInput) : Prop :=
  0 <= cursorPos t <= byteLen (inputText t).

(** ** Horizontal scrolling and the rows of the list view *)

(** Normal mode, key [left], main.go 615-621. *)
Definition keyLeft (m : Model) : Model :=
  if negb (showPretty m) then
    if lineScrollOffset m >? 0 then
      set_lineScrollOffset (lineScrollOffset m - 1) m
    else m
  else m.

(** Normal mode, key [right], main.go 623-637.  A cursor below 0 would
    be an index out of range in Go; the model is left as it is there. *)
Definition keyRight (m : Model) : Model :=
  if negb (showPretty m) then
    let visibleLines := getVisibleLines m in
    if cursor m <? len visibleLines then
      match index visibleLines (cursor m) with
      | Some line =>
          let maxWidth := width m - 3 in
          if byteLen (RawLine line) >? maxWidth then
            let maxScroll := byteLen (RawLine line) - maxWidth in
            if lineScrollOffset m <? maxScroll then
              set_lineScrollOffset (lineScrollOffset m + 1) m
            else m
          else m
      | None => m
      end
    else m
  else m.

(** Normal mode, key [ctrl+left], main.go 639-648. *)
Definition keyCtrlLeft (m : Model) : Model :=
  if negb (showPretty m) then
    if lineScrollOffset m >? 0 then
      let m := set_lineScrollOffset (lineScrollOffset m - 5) m in
      if lineScrollOffset m <? 0 then set_lineScrollOffset 0 m else m
    else m
  else m.

(** Normal mode, key [ctrl+right], main.go 650-665. *)
Definition keyCtrlRight (m : Model) : Model :=
  if negb (showPretty m) then
    let visibleLines := getVisibleLines m in
    if cursor m <? len visibleLines then
      match index visibleLines (cursor m) with
      | Some line =>
          let maxWidth := width m - 3 in
          if byteLen (RawLine line) >? maxWidth then
            let maxScroll := byteLen (RawLine line) - maxWidth in
            let m := set_lineScrollOffset (lineScrollOffset m + 5) m in
            if lineScrollOffset m >? maxScroll then
              set_lineScrollOffset maxScroll m
            else m
          else m
      | None => m
      end
    else m
  else m.

Inductive ScrollKey : Type :=
  | ScrollLeft
  | ScrollRight
  | ScrollCtrlLeft
  | ScrollCtrlRight.

Definition scroll (k : ScrollKey) (m : Model) : Model :=
  match k with
  | ScrollLeft => keyLeft m
  | ScrollRight => keyRight m
  | ScrollCtrlLeft => keyCtrlLeft m
  | ScrollCtrlRight => keyCtrlRight m
  end.

(** How far the selected line can be scrolled: what of its raw text
    does not fit in [width - 3] columns. *)
Definition maxScrollOf (m : Model) : Z :=
  match index (getVisibleLines m) (cursor m) with
  | Some line => Z.max 0 (byteLen (RawLine line) - (width m - 3))
  | None => 0
  end.

Definition scrollValid (m : Model) : Prop :=
  0 <= lineScrollOffset m <= maxScrollOf m.

(** The text of a row of the list view, main.go 1042-1051: the
    selected row is scrolled, then a row that is too long is cut and
    ends in three dots.  [displayLine] is the raw line or its view
    transform.  The guards keep both slices in range. *)
Definition truncateRow (m : Model) (selected : bool) (displayLine : string)
    : string :=
  let maxWidth := width m - 3 in
  let displayLine :=
    if selected && (lineScrollOffset m >? 0)
       && (byteLen displayLine >? lineScrollOffset m) then
      strDrop (Z.to_nat (lineScrollOffset m)) displayLine
    else displayLine in
  if (width m >? 15) && (byteLen displayLine >? maxWidth) && (maxWidth >? 3)
  then (strTake (Z.to_nat (maxWidth - 3)) displayLine ++ "...")%string
  else displayLine.

(** ** The window size message *)

(** [case tea.WindowSizeMsg], main.go 149-169. *)
Definition updateWindowSize (msgHeight msgWidth : Z) (m : Model) : Model :=
  let m := set_width msgWidth (set_height msgHeight m) in
  if needsInitialTailJump m then
    let visibleLines := getVisibleLines m in
    let m :=
      if len visibleLines >? 0 then
        let m := set_cursor (len visibleLines - 1) m in
        let m :=
          if len visibleLines >? height m - 1 then
            set_viewport (len visibleLines - (height m - 1)) m
          else set_viewport 0 m in
        set_lineScrollOffset 0 m
      else m in
    set_needsInitialTailJump false m
  else m.

(** A store with one line of thirty bytes, in a window of twenty
    columns, scrolled by [offset]. *)
Definition wideLine : LogLine :=
  mkLogLine 1 "abcdefghijklmnopqrstuvwxyz0123" [] false.

Definition wideModel (offset : Z) : Model :=
  set_lineScrollOffset offset
    (set_width 20 (set_height 10 (modelOf [wideLine] [] 0))).

(** ** Filters given on the command line *)

Section FlagFilters.

Variable Parse : string -> option Query.

(** The loop over the [-f] flags, main.go 2211-2216; [None] is
    [os.Exit(1)] at the first expression that does not parse. *)
Fixpoint addFlagFilters (filterExprs : list string) (m : Model)
    : option Model :=
  match filterExprs with
  | [] => Some m
  | filterExpr :: rest =>
      match addFilter Parse filterExpr m with
      | None => None
      | Some m => addFlagFilters rest m
      end
  end.

(** [main], main.go 2210-2222. *)
Definition startFilters (filterExprs : list string) (m : Model)
    : option Model :=
  match addFlagFilters filterExprs m with
  | None => None
  | Some m => Some (if len filterExprs >? 0 then applyFilters m else m)
  end.

(** The same expressions entered one after the other in filter
    entry. *)
Definition typeFilters (filterExprs : list string) (m : Model) : Model :=
  fold_left (fun m filterExpr => filterEntryEnter Parse filterExpr m)
    filterExprs m.

(** The filter [addFilter] makes of an expression, if it parses. *)
Definition flagFilter (filterExpr : string) : list Filter :=
  match Parse filterExpr with
  | Some query => [mkFilter filterExpr query true]
  | None => []
  end.

End FlagFilters.

(** ** Editing a filter *)

Section FilterEdit.

Variable Parse : string -> option Query.

(** Filter edit, key [enter], main.go 179-203, on the model; the edit
    buffer, cleared afterwards, is the argument.  Edit mode is entered
    with the management cursor on a filter (main.go 394-400); off the
    list the two assignments would be a Go panic. *)
Definition filterEditEnter (filterEditInput : string) (m : Model) : Model :=
  let m :=
    if negb (String.eqb filterEditInput "") then
      let target := currentLineNumber m in
      match Parse filterEditInput with
      | Some query =>
          let m :=
            set_filters
              (updateAt (filters m) (Z.to_nat (filterCursor m))
                 (fun f => mkFilter filterEditInput query (Enabled f)))
              m in
          restorePositionAfterFilter target (applyFilters m)
      | None => m
      end
    else m in
  set_filterEditMode false m.

End FilterEdit.

(** What [applyFilters] makes visible of a store under a list of
    filters. *)
Definition visibleUnder (fs : list Filter) (ls : list LogLine)
    : list LogLine :=
  match fs with
  | [] => ls
  | _ :: _ =>
      filter (fun l => if negb (IsValid l) then false else filterLoop fs l) ls
  end.

(** The mixed store with the info filter and a disabled error filter. *)
Definition twoFilterModel : Model :=
  modelOf
    [levelLine 1 "error"; levelLine 2 "info"; garbageLine 3;
     levelLine 4 "info"; levelLine 5 "error"]
    [mkFilter ".level == info" (levelIs "info") true;
     mkFilter ".level == error" (levelIs "error") false] 1.

(** ** A poll handled while a read-to-end is outstanding *)

Section LateBatch.

Variable parseJSON : string -> option JSONObject.
Variable readAhead : list string -> nat.

(** The [end] key on a store that is not fully loaded, then a tick, then
    the message of the key's command.  [Update] builds the command when
    it handles the key, main.go 819-822, from the handle and the line
    count of that moment; the command runs outside the event loop, and
    the tick, its poll and the poll's message are handled before the
    command's message arrives. *)
Definition endKeyWithPoll (disk : Disk) (m : Model) : Model :=
  let '(m, cmds) := update m KeyEnd in
  match filter isLoadRequest cmds with
  | CmdLoadToEnd file currentLineCount :: _ =>
      let '((newLines, err, isComplete), file') :=
        loadToEndCmd parseJSON readAhead None file currentLineCount in
      let m := pollRound parseJSON disk m in
      let m := match file with Some _ => set_file file' m | None => m end in
      fst (update m (MsgLoadToEnd newLines err isComplete))
  | _ => m
  end.

End LateBatch.

(** The file of [longSource], 1500 lines of 17 bytes with their
    terminator, after one more line was written to it: what a poll sees
    from the old end, byte 25500, on. *)
Definition appendedDisk : Disk :=
  Some (mkSourceFile (Some 25518) true (fun _ => [levelText "error"])).

(** A scanner that is dropped with the next 199 lines of that file in
    its buffer, about what a buffer of 4096 bytes read in blocks holds
    after line 1001. *)
Definition blockReadAhead (rest : list string) : nat := 199.

(** The model [main] starts from on that file with that scanner. *)
Definition blockStart : Model :=
  Eval vm_compute in
    match startup parseLevel blockReadAhead (Some longSource) 25500 with
    | Some m => m
    | None => newModel [] None true 0
    end.

(** * Properties *)

(** ** Basic facts about slices *)

Lemma len_nil_iff {A : Type} (l : list A) : (len l =? 0) = true <-> l = [].
Proof.
  unfold len. rewrite Z.eqb_eq. destruct l as [|x l]; simpl.
  - split; auto.
  - split; [lia | discriminate].
Qed.

Lemma len_pos_iff {A : Type} (l : list A) : (len l >? 0) = true <-> l <> [].
Proof.
  unfold len. rewrite Z.gtb_ltb, Z.ltb_lt. destruct l as [|x l]; simpl.
  - split; [lia | congruence].
  - split; [discriminate | lia].
Qed.

Lemma len_app {A : Type} (l1 l2 : list A) : len (l1 ++ l2) = len l1 + len l2.
Proof. unfold len. rewrite length_app. lia. Qed.

Lemma fold_append_filter {A : Type} (p : A -> bool) (l acc : list A) :
  fold_left (fun acc x => if p x then acc ++ [x] else acc) l acc
  = acc ++ filter p l.
Proof.
  revert acc. induction l as [|x l IH]; intros acc; simpl.
  - now rewrite app_nil_r.
  - rewrite IH. destruct (p x); simpl; [now rewrite <- app_assoc | reflexivity].
Qed.

(** ** FilterEngine *)

Lemma applyFilters_filters (m : Model) : filters (applyFilters m) = filters m.
Proof. unfold applyFilters. destruct (len (filters m) =? 0); reflexivity. Qed.

Lemma applyFilters_lines (m : Model) : lines (applyFilters m) = lines m.
Proof. unfold applyFilters. destruct (len (filters m) =? 0); reflexivity. Qed.

Lemma applyFilters_filtered (m : Model) :
  filters m <> [] ->
  filteredLines (applyFilters m) = filter (linePassesAllFilters m) (lines m).
Proof.
  intros Hne. unfold applyFilters.
  destruct (len (filters m) =? 0) eqn:E.
  - apply len_nil_iff in E. contradiction.
  - simpl. now rewrite fold_append_filter.
Qed.

(** What the filter list leaves visible after [applyFilters]. *)
Lemma visible_after_apply (m : Model) :
  getVisibleLines (applyFilters m) =
  match filters m with
  | [] => lines m
  | _ :: _ => filter (linePassesAllFilters m) (lines m)
  end.
Proof.
  unfold getVisibleLines. rewrite applyFilters_filters.
  destruct (filters m) as [|f fs] eqn:E.
  - simpl. now rewrite applyFilters_lines.
  - replace (len (f :: fs) =? 0) with false
      by (symmetry; unfold len; simpl; lia).
    apply applyFilters_filtered. rewrite E. discriminate.
Qed.

(** One enabled filter accepts the line exactly when its first result is
    a truthy non-error value. *)
Lemma filterLoop_cons (f : Filter) (fs : list Filter) (line : LogLine) :
  filterLoop (f :: fs) line =
  (negb (Enabled f) ||
   match FQuery f (JSONData line) with
   | [] => false
   | v :: _ => negb (isError v) && isTruthy v
   end) && filterLoop fs line.
Proof.
  simpl. destruct (Enabled f); simpl; [|reflexivity].
  destruct (FQuery f (JSONData line)) as [|v rest]; [reflexivity|].
  destruct (isError v); simpl; [reflexivity|].
  destruct (isTruthy v); reflexivity.
Qed.

Lemma filterLoop_true_iff (fs : list Filter) (line : LogLine) :
  filterLoop fs line = true <->
  forall f, In f fs -> Enabled f = true -> evalTruthy f line.
Proof.
  induction fs as [|f fs IH].
  - simpl. split; [intros _ f [] | reflexivity].
  - rewrite filterLoop_cons, andb_true_iff, IH. split.
    + intros [Hf Hrest] g [<-|Hin] Hen; [|now apply Hrest].
      rewrite Hen in Hf. simpl in Hf.
      destruct (FQuery f (JSONData line)) as [|v rest] eqn:E; [discriminate|].
      apply andb_true_iff in Hf as [Hne Ht]. apply negb_true_iff in Hne.
      now exists v, rest.
    + intros H. split; [|intros g Hin; apply H; now right].
      destruct (Enabled f) eqn:Hen; [simpl|reflexivity].
      destruct (H f (or_introl eq_refl) Hen) as (v & rest & E & Hne & Ht).
      now rewrite E, Hne, Ht.
Qed.

Lemma linePasses_iff (m : Model) (line : LogLine) :
  linePassesAllFilters m line = true <-> passesSpec (filters m) line.
Proof.
  unfold linePassesAllFilters, passesSpec.
  destruct (IsValid line); simpl.
  - rewrite filterLoop_true_iff. tauto.
  - split; [discriminate | intros [H _]; discriminate].
Qed.

(** C1, as amended.  After the filters are applied, a line is in the
    visible sequence exactly when it is in the store and either the
    filter list is empty, or the line is valid JSON and every enabled
    filter yields, as its first result on the line's value, a truthy
    value that is not an error.  A non-empty list whose filters are all
    disabled therefore shows exactly the valid lines, and an empty list
    shows every line, invalid ones included. *)
Theorem visible_sequence_membership (m : Model) (L : LogLine) :
  In L (getVisibleLines (applyFilters m)) <->
  In L (lines m) /\ (filters m = [] \/ passesSpec (filters m) L).
Proof.
  rewrite visible_after_apply.
  destruct (filters m) as [|f fs] eqn:E.
  - split; [intros H; split; [assumption | now left] | tauto].
  - rewrite filter_In, linePasses_iff, E. split.
    + intros [Hin Hp]. split; [assumption | now right].
    + intros [Hin [Hnil | Hp]]; [discriminate | tauto].
Qed.

(** C1, counterexample.  With an empty filter list an invalid line of
    the store is visible, so membership is not equivalent to validity
    plus passing every enabled filter. *)
Lemma visible_sequence_membership_as_stated_fails :
  ~ (forall (m : Model) (L : LogLine),
       In L (lines m) ->
       (In L (getVisibleLines (applyFilters m)) <->
        passesSpec (filters m) L)).
Proof.
  intros H.
  specialize (H (modelOf [garbageLine 1] [] 0) (garbageLine 1)).
  assert (Hin : In (garbageLine 1) (lines (modelOf [garbageLine 1] [] 0)))
    by (now left).
  destruct (H Hin) as [Hvis _].
  assert (Hv : In (garbageLine 1)
                 (getVisibleLines (applyFilters (modelOf [garbageLine 1] [] 0))))
    by (now left).
  destruct (Hvis Hv) as [Hvalid _]. discriminate Hvalid.
Qed.

(** ** Truthiness *)

Lemma float_neq_zero_false_iff (f : spec_float) :
  float_neq_zero f = false <-> exists s, f = S754_zero s.
Proof.
  unfold float_neq_zero, SFeqb. split.
  - destruct f as [s|s| |s mant e]; simpl; intros H.
    + now exists s.
    + destruct s; discriminate.
    + discriminate.
    + destruct s; discriminate.
  - intros [s ->]. reflexivity.
Qed.

Lemma isTruthy_false_iff (v : goval) : isTruthy v = false <-> falsy v.
Proof.
  unfold falsy. split.
  - destruct v as [|b|n|f|s|elems|fields|msg|tag]; simpl; intros H.
    + now left.
    + subst b. right. now left.
    + apply negb_false_iff, Z.eqb_eq in H. subst n. right. right. now left.
    + apply float_neq_zero_false_iff in H as [s ->].
      right. right. right. left. now exists s.
    + apply negb_false_iff, String.eqb_eq in H. subst s. tauto.
    + destruct elems; [tauto | discriminate].
    + destruct fields; [tauto | discriminate].
    + discriminate.
    + discriminate.
  - intros [-> | [-> | [-> | [[s ->] | [-> | [-> | ->]]]]]]; reflexivity.
Qed.

(** C6.  [isTruthy] returns false exactly on null, false, the integer
    zero, a floating-point zero of either sign, the empty string, the
    empty array and the empty object; it returns true on every other
    value, and in particular on every value of a kind its switch does
    not name. *)
Theorem isTruthy_table (v : goval) :
  (isTruthy v = false <-> falsy v) /\
  (isTruthy v = true <-> ~ falsy v) /\
  (forall tag, isTruthy (GOther tag) = true) /\
  (forall msg, isTruthy (GError msg) = true).
Proof.
  split; [apply isTruthy_false_iff|]. split; [|split; reflexivity].
  rewrite <- isTruthy_false_iff. destruct (isTruthy v); split; congruence.
Qed.

(** ** Failing and multi-valued filter evaluations *)

Lemma filterLoop_app (pre post : list Filter) (line : LogLine) :
  filterLoop (pre ++ post) line = filterLoop pre line && filterLoop post line.
Proof.
  induction pre as [|f pre IH]; [reflexivity|].
  rewrite <- app_comm_cons, !filterLoop_cons, IH. now rewrite andb_assoc.
Qed.

Lemma filterLoop_rejects (fs : list Filter) (f : Filter) (line : LogLine) :
  In f fs -> Enabled f = true ->
  match FQuery f (JSONData line) with
  | [] => true
  | v :: _ => isError v || negb (isTruthy v)
  end = true ->
  filterLoop fs line = false.
Proof.
  intros Hin Hen Hbad. apply in_split in Hin as (pre & post & ->).
  rewrite filterLoop_app, filterLoop_cons, Hen. simpl.
  destruct (FQuery f (JSONData line)) as [|v rest].
  - simpl. apply andb_false_r.
  - apply orb_true_iff in Hbad as [He | Hf].
    + rewrite He. simpl. apply andb_false_r.
    + apply negb_true_iff in Hf. rewrite Hf, andb_false_r. simpl.
      apply andb_false_r.
Qed.

(** C7.  For a valid line and an enabled filter of the model, if the
    filter's evaluation on the line's value yields no result, or yields
    an error first, then [linePassesAllFilters] answers false and the
    line is absent from the visible sequence computed by [applyFilters].
    Both functions are total and have no error result: the failure is
    turned into the exclusion and nothing else. *)
Theorem failing_filter_excludes_line
    (m : Model) (L : LogLine) (f : Filter) :
  IsValid L = true ->
  In f (filters m) ->
  Enabled f = true ->
  (FQuery f (JSONData L) = [] \/
   exists msg rest, FQuery f (JSONData L) = GError msg :: rest) ->
  linePassesAllFilters m L = false /\
  ~ In L (getVisibleLines (applyFilters m)).
Proof.
  intros Hvalid Hin Hen Hfail.
  assert (Hno : linePassesAllFilters m L = false).
  { unfold linePassesAllFilters. rewrite Hvalid. simpl.
    apply (filterLoop_rejects _ f); auto.
    destruct Hfail as [-> | (msg & rest & ->)]; reflexivity. }
  split; [exact Hno|].
  rewrite visible_after_apply.
  destruct (filters m) as [|g gs] eqn:E; [destruct Hin|].
  rewrite filter_In. intros [_ Hp]. congruence.
Qed.


(** ** Re-anchoring *)

Lemma index_of_nat {A : Type} (s : list A) (k : nat) :
  index s (Z.of_nat k) = nth_error s k.
Proof.
  unfold index. replace (Z.of_nat k <? 0) with false
    by (symmetry; apply Z.ltb_ge; lia).
  now rewrite Nat2Z.id.
Qed.

Lemma restore_cursor (L : Z) (m : Model) :
  cursor (restorePositionAfterFilter L m) =
  if len (getVisibleLines m) =? 0 then 0
  else restoreScan (getVisibleLines m) 0 L 0.
Proof.
  unfold restorePositionAfterFilter.
  destruct (len (getVisibleLines m) =? 0); [reflexivity|].
  cbn.
  destruct (restoreScan (getVisibleLines m) 0 L 0 <? viewport m);
    [reflexivity|].
  destruct (restoreScan (getVisibleLines m) 0 L 0 >=? viewport m + height m - 1);
    [|reflexivity].
  cbn.
  destruct (restoreScan (getVisibleLines m) 0 L 0 - height m + 2 <? 0);
    reflexivity.
Qed.



(** ** View transform *)









Section ViewTransformerFacts.

Variable sprintfG : spec_float -> string.
Variable jsonMarshal : goval -> option string.
Variable sprintfV : goval -> string.



End ViewTransformerFacts.


(** ** Tail monitor and load requests *)

Section TailMonitorFacts.

Variable parseJSON : string -> option JSONObject.

Lemma failed_poll_is_nil (disk : Disk) (currentSize lastLineNum : Z) :
  pollFails disk currentSize ->
  checkForNewLines parseJSON disk currentSize lastLineNum = None.
Proof.
  unfold pollFails, checkForNewLines.
  destruct disk as [f|]; [|reflexivity].
  destruct (statSize f) as [size|]; [|reflexivity].
  intros [Hgrown Hseek]. rewrite Hseek.
  replace (size <=? currentSize) with false
    by (symmetry; apply Z.leb_gt; lia).
  reflexivity.
Qed.

(** C3, as amended.  When a poll cannot read the source (open, stat
    or seek fails) its command yields the nil message, so the model
    after the tick is the model before it: no error is recorded, the
    fully-loaded flag keeps its value, and the tick has scheduled the
    next poll with the same size and line number, so growth is
    reported again as soon as the file can be read. *)
Theorem failed_poll_leaves_model (disk : Disk) (m : Model) :
  pollFails disk (fileSize m) ->
  checkForNewLines parseJSON disk (fileSize m) (lastLineNum m) = None /\
  pollRound parseJSON disk m = m /\
  snd (updateTick (pollRound parseJSON disk m)) =
    [CmdCheckForNewLines (fileSize m) (lastLineNum m); CmdTick] /\
  (forall disk', pollRound parseJSON disk' (pollRound parseJSON disk m)
                 = pollRound parseJSON disk' m).
Proof.
  intros Hfail.
  assert (Hnil := failed_poll_is_nil disk _ (lastLineNum m) Hfail).
  assert (Hsame : pollRound parseJSON disk m = m).
  { unfold pollRound, updateTick. simpl. now rewrite Hnil. }
  split; [exact Hnil|]. split; [exact Hsame|].
  rewrite Hsame. split; reflexivity.
Qed.

End TailMonitorFacts.

(** C3, counterexample.  A poll that fails on a store still being
    loaded does not mark it fully loaded. *)
Lemma failed_poll_does_not_mark_loaded :
  ~ (forall (disk : Disk) (m : Model),
       pollFails disk (fileSize m) ->
       isFileFullyLoaded (pollRound parseLevel disk m) = true).
Proof.
  intros H. specialize (H None pollingModel I). discriminate H.
Qed.

(** C2, at the failing input.  Tail-follow is on, three lines are
    visible and the first is selected.  A batch that the filter removes
    entirely leaves the visible sequence as it was, yet the cursor jumps
    from index 0 to index 2. *)
Theorem tail_jump_without_growth :
  let m' := fst (updateNewLines None filteredBatch tailExample) in
  cursor tailExample = 0 /\
  getVisibleLines m' = getVisibleLines tailExample /\
  cursor m' = 2.
Proof. vm_compute. repeat split. Qed.

(** C4, at the failing input.  From the model [main] builds for a
    1500-line file, forty page-down keys bring the cursor within the
    threshold and issue the lazy load, which sets the flag; the [end]
    key, and the [t] key as well, then issue a read-to-end request
    while the flag is still set and no completion message has arrived. *)
Theorem end_key_ignores_loading_flag :
  match longModel with
  | None => False
  | Some m0 =>
      let m := runEvents m0 (repeat KeyPageDown 40) in
      issuedLoads m0 (repeat KeyPageDown 40) = [CmdLoadMoreLines 500] /\
      loadingMoreLines m = true /\
      filter isLoadRequest (snd (update m KeyEnd))
      = [CmdLoadToEnd (file m) 1000] /\
      filter isLoadRequest (snd (update m KeyTail))
      = [CmdLoadToEnd (file m) 1000] /\
      List.length (issuedLoads m0 (repeat KeyPageDown 40 ++ [KeyEnd])) = 2%nat
  end.
Proof. vm_compute. repeat split. Qed.

(** ** The theorems at concrete inputs *)

(** C7 at a filter that yields nothing and at one that yields an error
    first: the error line is rejected and not visible. *)
Lemma failing_filter_excludes_line_witness :
  (linePassesAllFilters (withSecondFilter emptyFilter) (levelLine 1 "error")
   = false /\
   ~ In (levelLine 1 "error")
        (getVisibleLines (applyFilters (withSecondFilter emptyFilter)))) /\
  (linePassesAllFilters (withSecondFilter errorFirst) (levelLine 1 "error")
   = false /\
   ~ In (levelLine 1 "error")
        (getVisibleLines (applyFilters (withSecondFilter errorFirst)))).
Proof.
  split.
  - apply (failing_filter_excludes_line
             (withSecondFilter emptyFilter) (levelLine 1 "error") emptyFilter).
    + reflexivity.
    + right. left. reflexivity.
    + reflexivity.
    + left. reflexivity.
  - apply (failing_filter_excludes_line
             (withSecondFilter errorFirst) (levelLine 1 "error") errorFirst).
    + reflexivity.
    + right. left. reflexivity.
    + reflexivity.
    + right. exists "boom", [GBool true]. reflexivity.
Defined.




(** C3 at a deleted file. *)
Lemma failed_poll_leaves_model_witness :
  pollRound parseLevel None pollingModel = pollingModel /\
  isFileFullyLoaded (pollRound parseLevel None pollingModel) = false.
Proof.
  destruct (failed_poll_leaves_model parseLevel None pollingModel I)
    as (_ & Hsame & _).
  split; [exact Hsame | rewrite Hsame; reflexivity].
Defined.

(** ** Line numbering *)

Lemma numbered_nil : numbered [].
Proof. reflexivity. Qed.

Lemma numbered_snoc (ls : list LogLine) (x : LogLine) :
  numbered ls -> LineNumber x = len ls + 1 -> numbered (ls ++ [x]).
Proof.
  unfold numbered, len. intros Hn Hx.
  rewrite map_app, length_app, Nat.add_1_r, seq_S, map_app, Hn. simpl.
  rewrite Hx. f_equal. f_equal. lia.
Qed.

Lemma numbered_last (ls : list LogLine) (x : LogLine) :
  numbered (ls ++ [x]) -> LineNumber x = len (ls ++ [x]).
Proof.
  unfold numbered, len.
  rewrite map_app, length_app, Nat.add_1_r, seq_S, map_app. simpl.
  intros H. apply app_inj_tail_iff in H as [_ H]. rewrite H. lia.
Qed.

Lemma lastLineNumber_snoc (ls : list LogLine) (x : LogLine) :
  lastLineNumber (ls ++ [x]) = LineNumber x.
Proof.
  unfold lastLineNumber, len. rewrite length_app, Nat.add_1_r.
  replace (Z.of_nat (S (List.length ls)) - 1) with (Z.of_nat (List.length ls))
    by lia.
  rewrite index_of_nat, nth_error_app2, Nat.sub_diag by lia. reflexivity.
Qed.

Lemma lastLineNumber_numbered (pre batch : list LogLine) :
  numbered (pre ++ batch) -> batch <> [] ->
  lastLineNumber batch = len (pre ++ batch).
Proof.
  intros Hn Hne.
  destruct (exists_last Hne) as (b & x & ->).
  rewrite lastLineNumber_snoc. rewrite app_assoc in *.
  now apply numbered_last.
Qed.

Section LoaderFacts.

Variable parseJSON : string -> option JSONObject.
Variable readAhead : list string -> nat.

Lemma parseLine_number (n : Z) (raw : string) :
  LineNumber (parseLine parseJSON n raw) = n.
Proof. unfold parseLine. destruct (parseJSON raw); reflexivity. Qed.

Lemma initialLoop_numbered (tokens : list string) :
  forall n chunkSize acc,
    numbered acc -> n = len acc + 1 ->
    numbered (fst (fst (initialLoop parseJSON tokens n chunkSize acc))).
Proof.
  induction tokens as [|raw rest IH]; intros n chunkSize acc Hn Hlen; simpl.
  - assumption.
  - destruct (n <=? chunkSize); [|assumption].
    apply IH.
    + apply numbered_snoc; [assumption|]. now rewrite parseLine_number.
    + rewrite len_app. unfold len at 2. simpl. lia.
Qed.

Lemma moreLoop_numbered (tokens : list string) :
  forall loaded chunkSize n acc,
    numbered acc -> n = len acc + 1 ->
    numbered
      (fst (fst (fst (moreLoop parseJSON tokens loaded chunkSize n acc)))).
Proof.
  induction tokens as [|raw rest IH]; intros loaded chunkSize n acc Hn Hlen;
    simpl.
  - assumption.
  - destruct (loaded <? chunkSize); [|assumption].
    apply IH.
    + apply numbered_snoc; [assumption|]. now rewrite parseLine_number.
    + rewrite len_app. unfold len at 2. simpl. lia.
Qed.

Lemma tailLoop_numbered (tokens : list string) :
  forall pre acc n,
    numbered (pre ++ acc) -> n = len (pre ++ acc) + 1 ->
    numbered (pre ++ tailLoop parseJSON tokens n acc).
Proof.
  induction tokens as [|raw rest IH]; intros pre acc n Hn Hlen; simpl.
  - assumption.
  - apply IH.
    + rewrite app_assoc. apply numbered_snoc; [assumption|].
      now rewrite parseLine_number.
    + rewrite app_assoc, len_app. unfold len at 2. simpl. lia.
Qed.

(** [loadMoreLines] keeps the store numbered whatever it returns. *)
Lemma loadMoreLines_numbered (chunkSize : Z) (m : Model) :
  numbered (lines m) ->
  numbered (lines (fst (loadMoreLines parseJSON readAhead chunkSize m))).
Proof.
  intros Hn. unfold loadMoreLines.
  destruct (file m) as [handle|]; [|assumption].
  destruct (isFileFullyLoaded m); [assumption|].
  pose proof (moreLoop_numbered (pending handle) 0 chunkSize
                (len (lines m) + 1) (lines m) Hn eq_refl) as Hloop.
  destruct (moreLoop parseJSON (pending handle) 0 chunkSize
              (len (lines m) + 1) (lines m))
    as [[[appended rest] loaded] scanEnded].
  simpl in Hloop.
  destruct (scanEnded && failing handle); [exact Hloop|].
  cbn.
  destruct (loaded <? chunkSize); cbn;
    destruct (len appended >? 0); exact Hloop.
Qed.

Lemma moreLoop_extends (tokens : list string) :
  forall loaded chunkSize n acc,
    exists ext,
      fst (fst (fst (moreLoop parseJSON tokens loaded chunkSize n acc)))
      = acc ++ ext.
Proof.
  induction tokens as [|raw rest IH]; intros loaded chunkSize n acc; simpl.
  - exists []. now rewrite app_nil_r.
  - destruct (loaded <? chunkSize).
    + destruct (IH (loaded + 1) chunkSize (n + 1)
                  (acc ++ [parseLine parseJSON n raw])) as [ext ->].
      exists (parseLine parseJSON n raw :: ext). now rewrite <- app_assoc.
    + exists []. now rewrite app_nil_r.
Qed.

(** Without an error it also brings the last line number up to date. *)
Lemma loadMoreLines_inv (chunkSize : Z) (m : Model) :
  storeInv m ->
  snd (loadMoreLines parseJSON readAhead chunkSize m) = false ->
  storeInv (fst (loadMoreLines parseJSON readAhead chunkSize m)).
Proof.
  intros [Hn Hlast] Herr. split; [now apply loadMoreLines_numbered|].
  pose proof (loadMoreLines_numbered chunkSize m Hn) as Hnum.
  revert Herr Hnum. unfold loadMoreLines.
  destruct (file m) as [handle|]; [|intros _ _; assumption].
  destruct (isFileFullyLoaded m); [intros _ _; assumption|].
  destruct (moreLoop_extends (pending handle) 0 chunkSize
              (len (lines m) + 1) (lines m)) as [ext Hext].
  destruct (moreLoop parseJSON (pending handle) 0 chunkSize
              (len (lines m) + 1) (lines m))
    as [[[appended rest] loaded] scanEnded].
  simpl in Hext.
  destruct (scanEnded && failing handle); [discriminate|].
  intros _. cbn.
  destruct (loaded <? chunkSize); cbn;
    destruct (len appended >? 0) eqn:Epos; cbn; intros Hnum.
  all: try (apply len_pos_iff in Epos;
            exact (lastLineNumber_numbered [] appended Hnum Epos)).
  all: destruct appended; [|discriminate Epos].
  all: symmetry in Hext; apply app_eq_nil in Hext as [Hnil _].
  all: now rewrite Hlast, Hnil.
Qed.

Lemma tailJump_store (m : Model) :
  lines (tailJump m) = lines m /\ lastLineNum (tailJump m) = lastLineNum m.
Proof.
  unfold tailJump.
  destruct (len (getVisibleLines m) >? 0); [|split; reflexivity].
  cbn. destruct (len (getVisibleLines m) - 1 >=? height m - 1); cbn.
  - destruct (len (getVisibleLines m) - 1 - height m + 2 <? 0);
      split; reflexivity.
  - split; reflexivity.
Qed.

Lemma applyFilters_lastLineNum (m : Model) :
  lastLineNum (applyFilters m) = lastLineNum m.
Proof. unfold applyFilters. destruct (len (filters m) =? 0); reflexivity. Qed.

Lemma updateNewLines_store (disk : Disk) (newLines : list LogLine) (m : Model) :
  (len newLines >? 0) = true ->
  lines (fst (updateNewLines disk newLines m)) = lines m ++ newLines /\
  lastLineNum (fst (updateNewLines disk newLines m)) = lastLineNumber newLines.
Proof.
  intros Hpos. unfold updateNewLines. rewrite Hpos.
  set (m1 := set_lastLineNum (lastLineNumber newLines)
               (set_lines (lines m ++ newLines) m)).
  set (m2 := if len (filters m1) >? 0 then applyFilters m1 else m1).
  set (m3 := if tailMode m2 then tailJump m2 else m2).
  assert (H1 : lines m1 = lines m ++ newLines /\
               lastLineNum m1 = lastLineNumber newLines)
    by (split; reflexivity).
  assert (H2 : lines m2 = lines m ++ newLines /\
               lastLineNum m2 = lastLineNumber newLines).
  { subst m2. destruct (len (filters m1) >? 0); [|exact H1].
    now rewrite applyFilters_lines, applyFilters_lastLineNum. }
  assert (H3 : lines m3 = lines m ++ newLines /\
               lastLineNum m3 = lastLineNumber newLines).
  { subst m3. destruct (tailMode m2); [|exact H2].
    destruct (tailJump_store m2) as [-> ->]. exact H2. }
  destruct (osStat disk); exact H3.
Qed.

(** A poll, with its message delivered at once, keeps the invariant. *)
Lemma pollRound_inv (disk : Disk) (m : Model) :
  storeInv m -> storeInv (pollRound parseJSON disk m).
Proof.
  intros [Hn Hlast]. unfold pollRound, updateTick. simpl.
  unfold checkForNewLines.
  destruct disk as [f|]; [|now split].
  destruct (statSize f) as [size|]; [|now split].
  destruct (size <=? fileSize m); [now split|].
  destruct (negb (seekable f)); [now split|].
  set (batch := tailLoop parseJSON (linesFrom f (fileSize m))
                  (lastLineNum m + 1) []).
  destruct (len batch >? 0) eqn:Epos; [|now split].
  destruct (updateNewLines_store (Some f) batch m Epos) as [Hl Hlast'].
  assert (Hnum : numbered (lines m ++ batch)).
  { apply tailLoop_numbered; rewrite app_nil_r; [assumption | lia]. }
  unfold storeInv. rewrite Hl, Hlast'. split; [exact Hnum|].
  apply lastLineNumber_numbered; [exact Hnum|].
  now apply len_pos_iff.
Qed.

Lemma startup_inv (source : option FileHandle) (size : Z) (m0 : Model) :
  startup parseJSON readAhead source size = Some m0 -> storeInv m0.
Proof.
  unfold startup, loadInitialChunk.
  destruct source as [file|]; [|discriminate].
  pose proof (initialLoop_numbered (pending file) 1 initialChunkSize []
                numbered_nil eq_refl) as Hloop.
  destruct (initialLoop parseJSON (pending file) 1 initialChunkSize [])
    as [[loaded rest] scanEnded].
  simpl in Hloop.
  destruct (scanEnded && failing file); [discriminate|].
  intros H. injection H as <-. unfold storeInv, newModel. cbn.
  split; [exact Hloop|].
  destruct (len loaded >? 0) eqn:Epos.
  - apply len_pos_iff in Epos.
    exact (lastLineNumber_numbered [] loaded Hloop Epos).
  - destruct loaded; [reflexivity | discriminate Epos].
Qed.

(** X1.  Numbering after the first chunk, any number of [loadMoreLines]
    calls that return no error, and any number of polls whose lines are
    appended as they are found: the store's line numbers are exactly 1
    to its length, and the tail monitor continues from that length. *)
Theorem numbering_invariant
    (source : option FileHandle) (size : Z) (m0 : Model)
    (ops : list StoreOp) :
  startup parseJSON readAhead source size = Some m0 ->
  errorFree parseJSON readAhead ops m0 ->
  numbered (lines (runOps parseJSON readAhead ops m0)) /\
  lastLineNum (runOps parseJSON readAhead ops m0)
  = len (lines (runOps parseJSON readAhead ops m0)).
Proof.
  intros Hstart. apply startup_inv in Hstart. revert m0 Hstart.
  induction ops as [|op ops IH]; intros m Hinv Hfree; [exact Hinv|].
  destruct Hfree as [Hop Hrest]. simpl. apply IH; [|exact Hrest].
  destruct op as [chunkSize|disk]; simpl.
  - now apply loadMoreLines_inv.
  - now apply pollRound_inv.
Qed.

(** X2.  Numbering after the first chunk and any sequence of
    [loadMoreLines] calls, failed ones included: the store's line numbers are exactly 1
    to its length. *)
Theorem numbering_after_loads
    (source : option FileHandle) (size : Z) (m0 : Model)
    (chunks : list Z) :
  startup parseJSON readAhead source size = Some m0 ->
  numbered (lines (runOps parseJSON readAhead (map OpLoadMore chunks) m0)).
Proof.
  intros Hstart. apply startup_inv in Hstart as [Hn _]. revert m0 Hn.
  induction chunks as [|c chunks IH]; intros m Hn; [exact Hn|].
  simpl. apply IH. now apply loadMoreLines_numbered.
Qed.

End LoaderFacts.

(** The numbering theorems on the example sources: the 1500-line file
    loaded lazily around a poll, and the file with the oversized line
    loaded twice. *)
Lemma numbering_invariant_witness :
  numbered
    (lines (runOps parseLevel noReadAhead lazySession longStart)) /\
  lastLineNum (runOps parseLevel noReadAhead lazySession longStart)
  = len (lines (runOps parseLevel noReadAhead lazySession longStart)).
Proof.
  apply (numbering_invariant parseLevel noReadAhead
           (Some longSource) 30000 longStart lazySession).
  - vm_compute. reflexivity.
  - vm_compute. repeat split.
Defined.

Lemma numbering_after_loads_witness :
  numbered
    (lines (runOps parseLevel noReadAhead
              (map OpLoadMore [500; 500]) oversizedStart)).
Proof.
  apply (numbering_after_loads parseLevel noReadAhead
           (Some oversizedSource) 30000 oversizedStart [500; 500]).
  vm_compute. reflexivity.
Defined.

(** ** Tail-follow and recomputation *)

Lemma tailJump_visible (m : Model) :
  getVisibleLines (tailJump m) = getVisibleLines m.
Proof.
  unfold tailJump.
  destruct (len (getVisibleLines m) >? 0); [|reflexivity].
  cbn. destruct (len (getVisibleLines m) - 1 >=? height m - 1); cbn.
  - destruct (len (getVisibleLines m) - 1 - height m + 2 <? 0); reflexivity.
  - reflexivity.
Qed.

Lemma tailJump_cursor (m : Model) :
  getVisibleLines m <> [] ->
  cursor (tailJump m) = len (getVisibleLines m) - 1.
Proof.
  intros Hne. apply len_pos_iff in Hne. unfold tailJump. rewrite Hne.
  cbn. destruct (len (getVisibleLines m) - 1 >=? height m - 1); cbn.
  - destruct (len (getVisibleLines m) - 1 - height m + 2 <? 0); reflexivity.
  - reflexivity.
Qed.

(** X3.  With tail-follow on, a non-empty batch puts the cursor on the last
    entry of the recomputed visible sequence whenever that sequence is
    not empty.  For the batch of five lines of which only line 6 passes
    the filter, the cursor ends on line 6. *)
Theorem tail_jump_lands_on_last_visible
    (disk : Disk) (newLines : list LogLine) (m : Model) :
  tailMode m = true ->
  newLines <> [] ->
  getVisibleLines (fst (updateNewLines disk newLines m)) <> [] ->
  cursor (fst (updateNewLines disk newLines m))
  = len (getVisibleLines (fst (updateNewLines disk newLines m))) - 1 /\
  currentLineNumber (fst (updateNewLines None mixedBatch tailExample)) = 6.
Proof.
  intros Htail Hne Hshown. apply len_pos_iff in Hne.
  split; [|vm_compute; reflexivity].
  revert Hshown. unfold updateNewLines. rewrite Hne.
  set (m1 := set_lastLineNum (lastLineNumber newLines)
               (set_lines (lines m ++ newLines) m)).
  set (m2 := if len (filters m1) >? 0 then applyFilters m1 else m1).
  assert (Ht : tailMode m2 = true).
  { subst m2. destruct (len (filters m1) >? 0); [|exact Htail].
    unfold applyFilters. destruct (len (filters m1) =? 0); exact Htail. }
  rewrite Ht.
  assert (Hfs : forall size m', getVisibleLines (set_fileSize size m')
                                = getVisibleLines m') by reflexivity.
  destruct (osStat disk) as [size|]; cbn [fst].
  - rewrite Hfs, tailJump_visible. intros Hvis.
    now apply tailJump_cursor.
  - rewrite tailJump_visible. intros Hvis. now apply tailJump_cursor.
Qed.

Lemma tail_jump_lands_on_last_visible_witness :
  cursor (fst (updateNewLines None mixedBatch tailExample)) = 3.
Proof.
  destruct (tail_jump_lands_on_last_visible None mixedBatch tailExample)
    as [Hc _].
  - reflexivity.
  - discriminate.
  - vm_compute. discriminate.
  - rewrite Hc. vm_compute. reflexivity.
Defined.

(** X5.  Recomputing the visible sequence twice gives what recomputing
    it once gives. *)
Theorem applyFilters_idempotent (m : Model) :
  applyFilters (applyFilters m) = applyFilters m.
Proof.
  unfold applyFilters.
  destruct (len (filters m) =? 0) eqn:E; cbn; rewrite E; reflexivity.
Qed.

(** ** The visible sequence of a numbered store *)

Lemma consecutive_increasing (ls : list LogLine) :
  forall start,
    map LineNumber ls = map Z.of_nat (seq start (List.length ls)) ->
    increasing ls /\ Forall (fun e => Z.of_nat start <= LineNumber e) ls.
Proof.
  induction ls as [|x rest IH]; intros start Hmap.
  - split; constructor.
  - simpl in Hmap. injection Hmap as Hx Hrest.
    destruct (IH (S start) Hrest) as [Hinc Hall]. split.
    + constructor; [exact Hinc|].
      eapply Forall_impl; [|exact Hall]. simpl. intros e He. lia.
    + constructor; [lia|].
      eapply Forall_impl; [|exact Hall]. simpl. intros e He. lia.
Qed.

Lemma increasing_filter (p : LogLine -> bool) (ls : list LogLine) :
  increasing ls -> increasing (filter p ls).
Proof.
  induction 1 as [|x rest Hsorted IH Hhead]; simpl; [constructor|].
  destruct (p x); [|exact IH].
  constructor; [exact IH|].
  rewrite Forall_forall in *. intros e He.
  apply filter_In in He as [He _]. now apply Hhead.
Qed.

(** X4.  On a numbered store the visible sequence computed by
    [applyFilters] has strictly increasing line numbers, which is what
    re-anchoring relies on. *)
Theorem visible_increasing (m : Model) :
  numbered (lines m) -> increasing (getVisibleLines (applyFilters m)).
Proof.
  intros Hn. apply consecutive_increasing in Hn as [Hinc _].
  rewrite visible_after_apply.
  destruct (filters m); [exact Hinc | now apply increasing_filter].
Qed.

Lemma visible_increasing_witness :
  increasing (getVisibleLines (applyFilters tailExample)).
Proof.
  apply (visible_increasing tailExample). reflexivity.
Defined.

(** ** Line wrapping *)

Lemma strTake_strDrop (n : nat) (s : string) :
  (strTake n s ++ strDrop n s)%string = s.
Proof.
  revert s. induction n as [|n IH]; intros s; [reflexivity|].
  destruct s as [|c rest]; [reflexivity|]. simpl. now rewrite IH.
Qed.

Lemma strTake_length (n : nat) (s : string) :
  String.length (strTake n s) = Nat.min n (String.length s).
Proof.
  revert s. induction n as [|n IH]; intros s; [reflexivity|].
  destruct s as [|c rest]; [reflexivity|]. simpl. now rewrite IH.
Qed.

Lemma strDrop_length (n : nat) (s : string) :
  String.length (strDrop n s) = (String.length s - n)%nat.
Proof.
  revert s. induction n as [|n IH]; intros s; [simpl; lia|].
  destruct s as [|c rest]; [reflexivity|]. simpl. now rewrite IH.
Qed.

Lemma append_empty_r (s : string) : (s ++ "")%string = s.
Proof. induction s as [|c s IH]; [reflexivity|]. simpl. now rewrite IH. Qed.

Lemma append_assoc (a b c : string) :
  ((a ++ b) ++ c)%string = (a ++ (b ++ c))%string.
Proof. induction a as [|x a IH]; [reflexivity|]. simpl. now rewrite IH. Qed.

Lemma joinAll_app (l1 l2 : list string) :
  joinAll (l1 ++ l2) = (joinAll l1 ++ joinAll l2)%string.
Proof.
  induction l1 as [|p l1 IH]; [reflexivity|].
  simpl. now rewrite IH, append_assoc.
Qed.

Lemma breakScan_range (line : string) (width : Z) (steps : nat) :
  forall i, 1 <= width -> i <= width - 1 ->
    1 <= breakScan line width i steps <= width.
Proof.
  induction steps as [|steps IH]; intros i Hw Hi; simpl; [lia|].
  destruct ((i >=? width - 20) && (i >? 0)) eqn:E; [|lia].
  apply andb_true_iff in E as [_ Hpos].
  rewrite Z.gtb_ltb in Hpos. apply Z.ltb_lt in Hpos.
  destruct (String.get (Z.to_nat i) line) as [c|]; [|lia].
  destruct (isBreakByte c); [lia|]. apply IH; lia.
Qed.

(** Wrapping keeps every byte, whatever the number of rounds. *)
Lemma wrapLoop_join (fuel : nat) :
  forall line width wrapped,
    joinAll (wrapLoop fuel line width wrapped)
    = (joinAll wrapped ++ line)%string.
Proof.
  induction fuel as [|fuel IH]; intros line width wrapped; cbn [wrapLoop].
  - destruct (byteLen line >? 0) eqn:E.
    + rewrite joinAll_app. simpl. now rewrite append_empty_r.
    + destruct line; [now rewrite append_empty_r | discriminate E].
  - destruct (byteLen line >? width).
    + rewrite IH, joinAll_app. cbn [joinAll fold_right].
      now rewrite append_empty_r, append_assoc, strTake_strDrop.
    + destruct (byteLen line >? 0) eqn:E.
      * rewrite joinAll_app. simpl. now rewrite append_empty_r.
      * destruct line; [now rewrite append_empty_r | discriminate E].
Qed.

(** With enough rounds every piece is non-empty and fits the width. *)
Lemma wrapLoop_pieces (fuel : nat) :
  forall line width wrapped,
    1 <= width ->
    (String.length line <= fuel)%nat ->
    Forall (fun p => 1 <= byteLen p <= width) wrapped ->
    Forall (fun p => 1 <= byteLen p <= width)
      (wrapLoop fuel line width wrapped).
Proof.
  induction fuel as [|fuel IH]; intros line width wrapped Hw Hfuel Hacc;
    cbn [wrapLoop].
  - destruct line; [exact Hacc | simpl in Hfuel; lia].
  - destruct (byteLen line >? width) eqn:Elong.
    + rewrite Z.gtb_ltb in Elong. apply Z.ltb_lt in Elong.
      pose proof (breakScan_range line width 20 (width - 1) Hw (Z.le_refl _))
        as Hbp.
      unfold byteLen in Elong.
      apply IH; [exact Hw | |].
      * rewrite strDrop_length. lia.
      * apply Forall_app. split; [exact Hacc|].
        constructor; [|constructor].
        unfold byteLen. rewrite strTake_length. lia.
    + rewrite Z.gtb_ltb in Elong. apply Z.ltb_ge in Elong.
      destruct (byteLen line >? 0) eqn:Epos; [|exact Hacc].
      rewrite Z.gtb_ltb in Epos. apply Z.ltb_lt in Epos.
      apply Forall_app. split; [exact Hacc|].
      constructor; [lia | constructor].
Qed.

(** More rounds than bytes change nothing. *)
Lemma wrapLoop_fuel (fuel : nat) :
  forall line width wrapped extra,
    1 <= width ->
    (String.length line <= fuel)%nat ->
    wrapLoop (fuel + extra) line width wrapped
    = wrapLoop fuel line width wrapped.
Proof.
  induction fuel as [|fuel IH]; intros line width wrapped extra Hw Hfuel.
  - destruct line; [|simpl in Hfuel; lia].
    destruct extra; cbn [wrapLoop Nat.add]; [reflexivity|].
    replace (byteLen "" >? width) with false; [reflexivity|].
    symmetry. rewrite Z.gtb_ltb. apply Z.ltb_ge. unfold byteLen. simpl. lia.
  - cbn [wrapLoop Nat.add].
    destruct (byteLen line >? width) eqn:Elong; [|reflexivity].
    rewrite Z.gtb_ltb in Elong. apply Z.ltb_lt in Elong.
    pose proof (breakScan_range line width 20 (width - 1) Hw (Z.le_refl _))
      as Hbp.
    apply IH; [exact Hw|]. rewrite strDrop_length. unfold byteLen in Elong. lia.
Qed.

(** X6.  [wrapLine] loses nothing: the pieces joined give the line
    back, for every width.  For a positive width every piece has at
    most [width] bytes, and every piece of a non-empty line is
    non-empty; a width of zero or less returns the line as one piece.
    The number of rounds the loop is given does not matter once it
    covers the length of the line. *)
Theorem wrapLine_keeps_text (line : string) (width : Z) :
  joinAll (wrapLine line width) = line /\
  (width <= 0 -> wrapLine line width = [line]) /\
  (1 <= width ->
   Forall (fun p => byteLen p <= width) (wrapLine line width)) /\
  (1 <= width -> line <> "" ->
   Forall (fun p => p <> "") (wrapLine line width)) /\
  (1 <= width -> forall extra,
     wrapLoop (String.length line + extra) line width []
     = wrapLoop (String.length line) line width []).
Proof.
  unfold wrapLine. split; [|split; [|split; [|split]]].
  - destruct (width <=? 0); [simpl; apply append_empty_r|].
    destruct (byteLen line <=? width); [simpl; apply append_empty_r|].
    now rewrite wrapLoop_join.
  - intros Hw. now replace (width <=? 0) with true
      by (symmetry; apply Z.leb_le; exact Hw).
  - intros Hw. replace (width <=? 0) with false
      by (symmetry; apply Z.leb_gt; lia).
    destruct (byteLen line <=? width) eqn:E.
    + apply Z.leb_le in E. constructor; [exact E | constructor].
    + eapply Forall_impl;
        [|apply (wrapLoop_pieces (String.length line) line width []);
          [exact Hw | lia | constructor]].
      simpl. intros p Hp. lia.
  - intros Hw Hne. replace (width <=? 0) with false
      by (symmetry; apply Z.leb_gt; lia).
    destruct (byteLen line <=? width).
    + constructor; [exact Hne | constructor].
    + eapply Forall_impl;
        [|apply (wrapLoop_pieces (String.length line) line width []);
          [exact Hw | lia | constructor]].
      simpl. intros p Hp ->. unfold byteLen in Hp. simpl in Hp. lia.
  - intros Hw extra. apply wrapLoop_fuel; [exact Hw | lia].
Qed.

(** ** What the loaders read *)

Section MoreLoaderFacts.

Variable parseJSON : string -> option JSONObject.
Variable readAhead : list string -> nat.

Lemma parseLine_raw (n : Z) (raw : string) :
  RawLine (parseLine parseJSON n raw) = raw.
Proof. unfold parseLine. destruct (parseJSON raw); reflexivity. Qed.

Lemma parseLine_valid (n : Z) (raw : string) :
  IsValid (parseLine parseJSON n raw) = decodes parseJSON raw.
Proof. unfold parseLine, decodes. destruct (parseJSON raw); reflexivity. Qed.

Lemma faithful_snoc (ls : list LogLine) (n : Z) (raw : string) :
  faithful parseJSON ls ->
  faithful parseJSON (ls ++ [parseLine parseJSON n raw]).
Proof.
  intros H. apply Forall_app. split; [exact H|].
  constructor; [|constructor].
  now rewrite parseLine_valid, parseLine_raw.
Qed.

Lemma initialLoop_content (tokens : list string) (chunkSize : Z) :
  forall n acc,
    map RawLine (fst (fst (initialLoop parseJSON tokens n chunkSize acc)))
    = map RawLine acc ++ firstn (Z.to_nat (chunkSize - n + 1)) tokens /\
    snd (fst (initialLoop parseJSON tokens n chunkSize acc))
    = skipn (S (Z.to_nat (chunkSize - n + 1))) tokens /\
    (faithful parseJSON acc ->
     faithful parseJSON
       (fst (fst (initialLoop parseJSON tokens n chunkSize acc)))).
Proof.
  induction tokens as [|raw rest IH]; intros n acc; simpl.
  - rewrite firstn_nil, app_nil_r. repeat split. auto.
  - destruct (n <=? chunkSize) eqn:E.
    + apply Z.leb_le in E.
      destruct (IH (n + 1) (acc ++ [parseLine parseJSON n raw]))
        as (Hraw & Hrest & Hf).
      replace (chunkSize - (n + 1) + 1) with (chunkSize - n) in * by lia.
      replace (Z.to_nat (chunkSize - n + 1)) with (S (Z.to_nat (chunkSize - n)))
        by lia.
      split; [|split].
      * rewrite Hraw, map_app. simpl. rewrite parseLine_raw.
        now rewrite <- app_assoc.
      * exact Hrest.
      * intros Hacc. apply Hf. now apply faithful_snoc.
    + apply Z.leb_gt in E.
      replace (Z.to_nat (chunkSize - n + 1)) with 0%nat by lia.
      simpl. rewrite app_nil_r. repeat split. auto.
Qed.

(** X7.  When [loadInitialChunk] succeeds, the store holds the first
    [chunkSize] lines of the file as they are, numbered from 1 and
    valid exactly when they decode.  The line after the chunk has been
    consumed by the loop condition: what the retained handle still
    holds starts no earlier than line [chunkSize + 2]. *)
Theorem first_chunk_content
    (f : FileHandle) (chunkSize : Z) (ls : list LogLine) (h : FileHandle) :
  loadInitialChunk parseJSON readAhead (Some f) chunkSize = Some (ls, h) ->
  map RawLine ls = firstn (Z.to_nat chunkSize) (pending f) /\
  numbered ls /\
  Forall (fun l => IsValid l = decodes parseJSON (RawLine l)) ls /\
  pending h
  = dropScanner readAhead (skipn (S (Z.to_nat chunkSize)) (pending f)).
Proof.
  unfold loadInitialChunk.
  pose proof (initialLoop_content (pending f) chunkSize 1 [])
    as (Hraw & Hrest & Hf).
  pose proof (initialLoop_numbered parseJSON (pending f) 1 chunkSize []
                numbered_nil eq_refl) as Hnum.
  destruct (initialLoop parseJSON (pending f) 1 chunkSize [])
    as [[loaded rest] scanEnded].
  simpl in Hraw, Hrest, Hf, Hnum.
  replace (chunkSize - 1 + 1) with chunkSize in * by lia.
  destruct (scanEnded && failing f); [discriminate|].
  intros H. injection H as <- <-. simpl.
  split; [exact Hraw|]. split; [exact Hnum|].
  split; [apply Hf; constructor|]. now rewrite Hrest.
Qed.

Lemma tailLoop_content (tokens : list string) :
  forall n acc,
    map RawLine (tailLoop parseJSON tokens n acc) = map RawLine acc ++ tokens /\
    (faithful parseJSON acc ->
     faithful parseJSON (tailLoop parseJSON tokens n acc)).
Proof.
  induction tokens as [|raw rest IH]; intros n acc; simpl.
  - rewrite app_nil_r. split; auto.
  - destruct (IH (n + 1) (acc ++ [parseLine parseJSON n raw])) as [Hraw Hf].
    split.
    + rewrite Hraw, map_app. simpl. rewrite parseLine_raw.
      now rewrite <- app_assoc.
    + intros Hacc. apply Hf. now apply faithful_snoc.
Qed.

(** X8.  [loadAllLines] fails exactly when the file cannot be opened or
    the scanner stops on an error; otherwise it returns one entry per
    line of the file, in order, with the line's text, numbered from 1
    and valid exactly when the text decodes. *)
Theorem loadAllLines_reads_everything (source : option FileHandle) :
  (loadAllLines parseJSON source = None <->
   source = None \/ exists f, source = Some f /\ failing f = true) /\
  (forall f ls,
     source = Some f ->
     loadAllLines parseJSON source = Some ls ->
     map RawLine ls = pending f /\
     numbered ls /\
     Forall (fun l => IsValid l = decodes parseJSON (RawLine l)) ls).
Proof.
  split.
  - unfold loadAllLines. destruct source as [f|].
    + destruct (failing f) eqn:E; split.
      * intros _. right. now exists f.
      * reflexivity.
      * discriminate.
      * intros [H | (g & Hg & Hfail)]; [discriminate|].
        injection Hg as <-. congruence.
    + split; [now left | reflexivity].
  - intros f ls -> H. unfold loadAllLines in H.
    destruct (failing f); [discriminate|]. injection H as <-.
    destruct (tailLoop_content (pending f) 1 []) as [Hraw Hf].
    split; [exact Hraw|]. split.
    + apply (tailLoop_numbered parseJSON (pending f) [] [] 1);
        [apply numbered_nil | reflexivity].
    + apply Hf. constructor.
Qed.

(** ** The estimate of the total number of lines *)

Lemma sampleLoop_bytes (tokens : list string) (sampleSize : Z) :
  forall lineCount totalBytes,
    lineCount <= totalBytes ->
    let '(totalBytes', lineCount', _) :=
      sampleLoop tokens lineCount sampleSize totalBytes in
    lineCount <= lineCount' /\ lineCount' <= totalBytes'.
Proof.
  induction tokens as [|raw rest IH]; intros lineCount totalBytes Hle; simpl.
  - lia.
  - destruct (lineCount <? sampleSize); [|lia].
    specialize (IH (lineCount + 1) (totalBytes + (byteLen raw + 1))).
    destruct (sampleLoop rest (lineCount + 1) sampleSize
                (totalBytes + (byteLen raw + 1))) as [[tb lc] ended].
    unfold byteLen in *. lia.
Qed.

Lemma sampleLoop_mono (tokens : list string) (sampleSize : Z) :
  forall lineCount totalBytes,
    lineCount
    <= snd (fst (sampleLoop tokens lineCount sampleSize totalBytes)).
Proof.
  induction tokens as [|raw rest IH]; intros lineCount totalBytes; simpl.
  - lia.
  - destruct (lineCount <? sampleSize); [|simpl; lia].
    specialize (IH (lineCount + 1) (totalBytes + (byteLen raw + 1))). lia.
Qed.

Lemma sampleLoop_uniform (tokens : list string) (sampleSize width : Z) :
  Forall (fun raw => byteLen raw + 1 = width) tokens ->
  forall lineCount totalBytes,
    totalBytes = lineCount * width ->
    fst (fst (sampleLoop tokens lineCount sampleSize totalBytes))
    = snd (fst (sampleLoop tokens lineCount sampleSize totalBytes)) * width /\
    (tokens <> [] -> lineCount < sampleSize ->
     lineCount
     < snd (fst (sampleLoop tokens lineCount sampleSize totalBytes))).
Proof.
  induction 1 as [|raw rest Hraw Hrest IH]; intros lineCount totalBytes Htb;
    simpl.
  - split; [exact Htb | congruence].
  - destruct (lineCount <? sampleSize) eqn:E.
    + destruct (IH (lineCount + 1) (totalBytes + (byteLen raw + 1)))
        as [IHtb _]; [lia|].
      split; [exact IHtb|]. intros _ _.
      pose proof (sampleLoop_mono rest sampleSize (lineCount + 1)
                    (totalBytes + (byteLen raw + 1))). lia.
    + apply Z.ltb_ge in E. simpl. split; [exact Htb | lia].
Qed.

End MoreLoaderFacts.

Section EstimateFacts.

Variable sampleSize : Z.

(** X9.  For a file of [n] lines that all have the same length, whose
    size is [n] times that length plus the terminator, the estimate is
    exactly [n], whatever the (positive) sample size. *)
Theorem estimate_exact_on_uniform_lines
    (f : FileHandle) (n : nat) (line : string) :
  pending f = repeat line n ->
  failing f = false ->
  (0 < n)%nat ->
  1 <= sampleSize ->
  estimateTotalLines (Some f)
    (Some (Z.of_nat n * (byteLen line + 1))) sampleSize
  = Some (Z.of_nat n).
Proof.
  intros Hpending Hfail Hn Hsample. unfold estimateTotalLines.
  assert (Hw : 1 <= byteLen line + 1) by (unfold byteLen; lia).
  replace (Z.of_nat n * (byteLen line + 1) =? 0) with false
    by (symmetry; apply Z.eqb_neq; nia).
  rewrite Hpending, Hfail.
  destruct (sampleLoop_uniform (repeat line n) sampleSize (byteLen line + 1))
    with (lineCount := 0) (totalBytes := 0) as [Htb Hlc].
  { apply Forall_forall. intros raw Hin. now apply repeat_spec in Hin as ->. }
  { reflexivity. }
  destruct (sampleLoop (repeat line n) 0 sampleSize 0)
    as [[totalBytes lineCount] scanEnded].
  simpl in Htb, Hlc. rewrite andb_false_r.
  assert (Hpos : 0 < lineCount).
  { apply Hlc; [|lia]. destruct n; [lia | discriminate]. }
  replace (lineCount =? 0) with false by (symmetry; apply Z.eqb_neq; lia).
  rewrite Htb, (Z.mul_comm lineCount), Z.quot_mul by lia.
  now rewrite Z.quot_mul by lia.
Qed.

(** X10.  The average line size is at least one byte whenever a line
    was sampled, so the division that gives the estimate is always
    defined; and for a non-negative file size the estimate lies between
    zero and that size. *)
Theorem estimate_is_bounded (f : FileHandle) (fileSize estimate : Z) :
  0 <= fileSize ->
  estimateTotalLines (Some f) (Some fileSize) sampleSize = Some estimate ->
  0 <= estimate <= fileSize /\
  (snd (fst (sampleLoop (pending f) 0 sampleSize 0)) <> 0 ->
   1 <= Z.quot (fst (fst (sampleLoop (pending f) 0 sampleSize 0)))
          (snd (fst (sampleLoop (pending f) 0 sampleSize 0)))).
Proof.
  intros Hsize. unfold estimateTotalLines.
  pose proof (sampleLoop_bytes (pending f) sampleSize 0 0 (Z.le_refl 0))
    as Hbytes.
  destruct (sampleLoop (pending f) 0 sampleSize 0)
    as [[totalBytes lineCount] scanEnded].
  destruct Hbytes as [Hlc Htb]. cbn [fst snd].
  assert (Havg : lineCount <> 0 -> 1 <= Z.quot totalBytes lineCount).
  { intros Hne. rewrite Z.quot_div_nonneg by lia.
    apply Z.div_le_lower_bound; lia. }
  intros H. split; [|exact Havg].
  destruct (fileSize =? 0) eqn:Ezero.
  - injection H as <-. lia.
  - destruct (scanEnded && failing f); [discriminate|].
    destruct (lineCount =? 0) eqn:Elc.
    + injection H as <-. lia.
    + injection H as <-. apply Z.eqb_neq in Elc.
      specialize (Havg Elc).
      rewrite Z.quot_div_nonneg by lia. split.
      * apply Z.div_pos; lia.
      * apply Z.div_le_upper_bound; [lia|]. nia.
Qed.

End EstimateFacts.

(** The estimate on the three-hundred-line file with a sample of one
    hundred lines. *)
Lemma estimate_exact_on_uniform_lines_witness :
  estimateTotalLines (Some uniformSource) (Some uniformSize) 100 = Some 300.
Proof.
  apply (estimate_exact_on_uniform_lines 100 uniformSource 300
           (levelText "info")).
  - reflexivity.
  - reflexivity.
  - lia.
  - lia.
Defined.

Lemma estimate_is_bounded_witness :
  0 <= 300 <= uniformSize.
Proof.
  apply (estimate_is_bounded 100 uniformSource uniformSize 300).
  - vm_compute. discriminate.
  - vm_compute. reflexivity.
Defined.

(** X7 and X8 on a source of three lines with a chunk of two: the
    third line is in neither the store nor the handle. *)
Lemma first_chunk_content_witness :
  map RawLine
    [parseLine parseLevel 1 "a"; parseLine parseLevel 2 "b"]
  = firstn 2 ["a"; "b"; "c"; "d"] /\
  pending (mkFileHandle ["d"] false)
  = dropScanner noReadAhead (skipn 3 ["a"; "b"; "c"; "d"]).
Proof.
  destruct (first_chunk_content parseLevel noReadAhead
              (mkFileHandle ["a"; "b"; "c"; "d"] false) 2
              [parseLine parseLevel 1 "a"; parseLine parseLevel 2 "b"]
              (mkFileHandle ["d"] false) eq_refl)
    as (Hraw & _ & _ & Hrest).
  split; [exact Hraw | exact Hrest].
Defined.

Lemma loadAllLines_reads_everything_witness :
  map RawLine (tailLoop parseLevel ["a"; "b"; "c"] 1 []) = ["a"; "b"; "c"].
Proof.
  destruct (loadAllLines_reads_everything parseLevel
              (Some (mkFileHandle ["a"; "b"; "c"] false))) as [_ H].
  destruct (H (mkFileHandle ["a"; "b"; "c"] false)
              (tailLoop parseLevel ["a"; "b"; "c"] 1 []) eq_refl eq_refl)
    as [Hraw _].
  exact Hraw.
Defined.

(** ** Reading to the end *)

Section LoadToEndFacts.

Variable parseJSON : string -> option JSONObject.
Variable readAhead : list string -> nat.




Lemma endJump_fields (m : Model) :
  lines (endJump m) = lines m /\
  isFileFullyLoaded (endJump m) = isFileFullyLoaded m /\
  file (endJump m) = file m /\
  showSpinner (endJump m) = showSpinner m /\
  getVisibleLines (endJump m) = getVisibleLines m /\
  (getVisibleLines m <> [] ->
   cursor (endJump m) = len (getVisibleLines m) - 1).
Proof.
  unfold endJump. destruct (len (getVisibleLines m) >? 0) eqn:E.
  - cbn. destruct (len (getVisibleLines m) - 1 >=? height m - 1);
      repeat split.
  - repeat split. intros Hne. apply len_pos_iff in Hne. congruence.
Qed.

Lemma applyFilters_fields (m : Model) :
  isFileFullyLoaded (applyFilters m) = isFileFullyLoaded m /\
  file (applyFilters m) = file m /\
  showSpinner (applyFilters m) = showSpinner m.
Proof.
  unfold applyFilters. destruct (len (filters m) =? 0); repeat split.
Qed.

(** What [case loadToEndMsg] leaves behind. *)
Lemma updateLoadToEndMsg_facts
    (newLines : list LogLine) (err isComplete : bool) (m : Model) :
  let '(m', cmds) := updateLoadToEndMsg newLines err isComplete m in
  lines m' = lines m ++ newLines /\
  (err || isComplete = true ->
   cmds = [] /\ isFileFullyLoaded m' = true /\ file m' = None /\
   showSpinner m' = false /\
   (getVisibleLines m' <> [] -> cursor m' = len (getVisibleLines m') - 1)) /\
  (err || isComplete = false ->
   cmds = [CmdLoadToEnd (file m) (len (lines m ++ newLines))] /\
   file m' = file m).
Proof.
  unfold updateLoadToEndMsg.
  set (m1 := if len newLines >? 0
             then set_lastLineNum (lastLineNumber newLines)
                    (set_lines (lines m ++ newLines) m)
             else m).
  assert (H1 : lines m1 = lines m ++ newLines /\ file m1 = file m).
  { subst m1. destruct (len newLines >? 0) eqn:E; [split; reflexivity|].
    destruct newLines; [now rewrite app_nil_r | discriminate E]. }
  destruct H1 as [Hl Hf].
  destruct (err || isComplete).
  - set (m2 := set_file None
                 (set_spinnerFrame 0
                    (set_showSpinner false (set_isFileFullyLoaded true m1)))).
    set (m3 := if len (filters m2) >? 0 then applyFilters m2 else m2).
    assert (H3 : lines m3 = lines m1 /\ isFileFullyLoaded m3 = true /\
                 file m3 = None /\ showSpinner m3 = false).
    { subst m3. destruct (len (filters m2) >? 0).
      - destruct (applyFilters_fields m2) as (-> & -> & ->).
        rewrite applyFilters_lines. repeat split.
      - repeat split. }
    destruct H3 as (Hl3 & Hfull & Hfile & Hspin).
    destruct (endJump_fields m3) as (El & Efull & Efile & Espin & Evis & Ecur).
    split; [congruence|]. split; [|discriminate].
    intros _. split; [reflexivity|].
    split; [congruence|]. split; [congruence|]. split; [congruence|].
    rewrite Evis. exact Ecur.
  - split; [exact Hl|]. split; [discriminate|].
    intros _. now rewrite Hl, Hf.
Qed.



End LoadToEndFacts.


(** ** Selection and window *)

(** Comparisons as propositions, for [lia]. *)
Ltac boolZ :=
  rewrite ?Z.gtb_ltb, ?Z.geb_leb in *;
  repeat match goal with
  | H : (_ <? _) = true |- _ => apply Z.ltb_lt in H
  | H : (_ <? _) = false |- _ => apply Z.ltb_ge in H
  | H : (_ <=? _) = true |- _ => apply Z.leb_le in H
  | H : (_ <=? _) = false |- _ => apply Z.leb_gt in H
  | H : (_ =? _) = true |- _ => apply Z.eqb_eq in H
  | H : (_ =? _) = false |- _ => apply Z.eqb_neq in H
  end.

(** Case analysis on every test of a handler. *)
Ltac branches :=
  repeat match goal with
  | |- context [if ?b then _ else _] =>
      let E := fresh "E" in destruct b eqn:E; cbn in *
  end.

(** A handler that leaves the store and the filters alone leaves the
    visible sequence alone. *)
Ltac sameVisible m :=
  repeat match goal with
  | |- context [getVisibleLines ?x] =>
      lazymatch x with
      | m => fail
      | _ => change (getVisibleLines x) with (getVisibleLines m)
      end
  end.

(** X12.  With a window of at least two rows, each of the keys up,
    down, page up, page down, home and end keeps the selection inside
    the visible sequence and on a rendered row, and leaves the visible
    sequence as it is. *)
Theorem navigation_keeps_selection (k : NavKey) (m : Model) :
  2 <= height m ->
  selectionValid m ->
  onScreen m ->
  selectionValid (navigate k m) /\
  onScreen (navigate k m) /\
  getVisibleLines (navigate k m) = getVisibleLines m.
Proof.
  unfold selectionValid, onScreen. intros Hh Hsel Hwin.
  pose proof (Zle_0_nat (List.length (getVisibleLines m))) as Hlen.
  fold (len (getVisibleLines m)) in Hlen.
  destruct k; unfold navigate.
  - unfold keyUp.
    branches; boolZ; cbn; sameVisible m; repeat split; try lia.
  - unfold keyDown, lazyLoadDue.
    branches; boolZ; cbn; sameVisible m; repeat split; try lia.
  - unfold keyPageUp.
    branches; boolZ; cbn; sameVisible m; repeat split; try lia.
  - unfold keyPageDown, lazyLoadDue.
    branches; boolZ; cbn; sameVisible m; repeat split; try lia.
  - unfold keyHome.
    branches; boolZ; cbn; sameVisible m; repeat split; try lia.
  - unfold keyEnd, endJump.
    branches; boolZ; cbn; sameVisible m; repeat split; try lia.
Qed.

Lemma restoreScan_bounds (L : Z) (vis : list LogLine) :
  forall i best,
    restoreScan vis i L best = best \/
    i <= restoreScan vis i L best <= i + len vis - 1.
Proof.
  induction vis as [|line rest IH]; intros i best; simpl; [now left|].
  assert (Hlen : len (line :: rest) = len rest + 1)
    by (unfold len; simpl; lia).
  assert (0 <= len rest) by (unfold len; lia).
  destruct (LineNumber line =? L); [right; lia|].
  destruct (LineNumber line >? L); [now left|].
  destruct (IH (i + 1) i) as [-> | Hb]; right; lia.
Qed.

(** X13.  Whatever line number is restored, and whether or not the
    visible sequence is sorted, [restorePositionAfterFilter] leaves the
    selection inside the visible sequence and on a rendered row, with
    no horizontal scroll. *)
Theorem reanchor_lands_on_screen (L : Z) (m : Model) :
  2 <= height m ->
  0 <= viewport m ->
  selectionValid (restorePositionAfterFilter L m) /\
  onScreen (restorePositionAfterFilter L m) /\
  lineScrollOffset (restorePositionAfterFilter L m) = 0.
Proof.
  unfold selectionValid, onScreen. intros Hh Hv.
  pose proof (Zle_0_nat (List.length (getVisibleLines m))) as Hlen.
  fold (len (getVisibleLines m)) in Hlen.
  rewrite restore_cursor.
  assert (Hvis : getVisibleLines (restorePositionAfterFilter L m)
                 = getVisibleLines m).
  { unfold restorePositionAfterFilter. branches; reflexivity. }
  rewrite Hvis. clear Hvis.
  pose proof (restoreScan_bounds L (getVisibleLines m) 0 0) as Hscan.
  unfold restorePositionAfterFilter.
  destruct (len (getVisibleLines m) =? 0) eqn:Eempty; cbn.
  - repeat split; lia.
  - apply Z.eqb_neq in Eempty.
    branches; boolZ; cbn; repeat split; lia.
Qed.

(** X12 and X13 on the tail example and on the re-anchoring example. *)
Lemma navigation_keeps_selection_witness :
  selectionValid (navigate NavDown tailExample) /\
  onScreen (navigate NavDown tailExample) /\
  getVisibleLines (navigate NavDown tailExample) = getVisibleLines tailExample.
Proof.
  apply (navigation_keeps_selection NavDown tailExample).
  - vm_compute. discriminate.
  - split; vm_compute; discriminate.
  - split; [|split]; vm_compute; first [reflexivity | discriminate].
Defined.

Lemma reanchor_lands_on_screen_witness :
  selectionValid (restorePositionAfterFilter 5 reanchorExample) /\
  onScreen (restorePositionAfterFilter 5 reanchorExample) /\
  lineScrollOffset (restorePositionAfterFilter 5 reanchorExample) = 0.
Proof.
  apply (reanchor_lands_on_screen 5 reanchorExample).
  - vm_compute. discriminate.
  - vm_compute. discriminate.
Defined.

(** ** Appending without tail-follow *)

Lemma synced_visible (m : Model) :
  synced m ->
  getVisibleLines m =
  match filters m with
  | [] => lines m
  | _ :: _ => filter (linePassesAllFilters m) (lines m)
  end.
Proof.
  intros Hs. unfold getVisibleLines.
  destruct (filters m) as [|f fs] eqn:E; [reflexivity|].
  replace (len (f :: fs) =? 0) with false
    by (symmetry; unfold len; simpl; lia).
  apply Hs. rewrite E. discriminate.
Qed.

Lemma applyFilters_synced (m : Model) : synced (applyFilters m).
Proof.
  intros Hne. rewrite applyFilters_filters in Hne.
  rewrite applyFilters_lines, (applyFilters_filtered m Hne).
  apply filter_ext. intros l. unfold linePassesAllFilters.
  now rewrite applyFilters_filters.
Qed.

Lemma visible_after_apply_under (m : Model) :
  getVisibleLines (applyFilters m) = visibleUnder (filters m) (lines m).
Proof.
  rewrite visible_after_apply. unfold visibleUnder.
  destruct (filters m) as [|g gs] eqn:E; [reflexivity|].
  apply filter_ext. intros l. unfold linePassesAllFilters. now rewrite E.
Qed.

Lemma synced_visible_under (m : Model) :
  synced m -> getVisibleLines m = visibleUnder (filters m) (lines m).
Proof.
  intros Hs. rewrite (synced_visible m Hs). unfold visibleUnder.
  destruct (filters m) as [|g gs] eqn:E; [reflexivity|].
  apply filter_ext. intros l. unfold linePassesAllFilters. now rewrite E.
Qed.

(** X14.  With tail-follow off, a batch of new lines leaves the cursor
    and the viewport where they were and only extends the visible
    sequence at its end, by the new lines that pass the filters (all of
    them when there is no filter): the selected entry is the same entry
    as before. *)
Theorem append_keeps_position
    (disk : Disk) (newLines : list LogLine) (m : Model) :
  tailMode m = false ->
  synced m ->
  let m' := fst (updateNewLines disk newLines m) in
  getVisibleLines m' =
    getVisibleLines m ++
    match filters m with
    | [] => newLines
    | _ :: _ => filter (linePassesAllFilters m) newLines
    end /\
  cursor m' = cursor m /\
  viewport m' = viewport m /\
  synced m'.
Proof.
  intros Htail Hsync. cbn zeta. unfold updateNewLines.
  destruct (len newLines >? 0) eqn:Epos.
  - set (m1 := set_lastLineNum (lastLineNumber newLines)
                 (set_lines (lines m ++ newLines) m)).
    assert (Hf1 : filters m1 = filters m) by reflexivity.
    rewrite (synced_visible m Hsync).
    destruct (filters m) as [|f fs] eqn:Efs.
    + replace (len (filters m1) >? 0) with false
        by (rewrite Hf1; reflexivity).
      replace (tailMode m1) with false by (symmetry; exact Htail).
      assert (Hm1 : getVisibleLines m1 = lines m ++ newLines).
      { unfold getVisibleLines. now rewrite Hf1. }
      assert (Hs1 : synced m1) by (intros Hne; now rewrite Hf1 in Hne).
      destruct (osStat disk); cbn [fst]; repeat split; assumption.
    + replace (len (filters m1) >? 0) with true
        by (rewrite Hf1; reflexivity).
      assert (Ht : tailMode (applyFilters m1) = false).
      { unfold applyFilters. destruct (len (filters m1) =? 0); exact Htail. }
      rewrite Ht.
      assert (Hv : getVisibleLines (applyFilters m1)
                   = filter (linePassesAllFilters m) (lines m) ++
                     filter (linePassesAllFilters m) newLines).
      { rewrite visible_after_apply, Hf1.
        change (lines m1) with (lines m ++ newLines).
        rewrite filter_app. reflexivity. }
      assert (Hc : cursor (applyFilters m1) = cursor m /\
                   viewport (applyFilters m1) = viewport m).
      { unfold applyFilters. destruct (len (filters m1) =? 0);
          split; reflexivity. }
      pose proof (applyFilters_synced m1) as Hs1.
      destruct Hc as [Hc Hvp].
      destruct (osStat disk); cbn [fst]; repeat split; assumption.
  - destruct newLines as [|l ls]; [|discriminate Epos].
    cbn [fst]. destruct (filters m); simpl; rewrite app_nil_r;
      repeat split; assumption.
Qed.

(** ** Adding and deleting filters *)

Lemma filter_filter {A : Type} (p q : A -> bool) (l : list A) :
  filter p (filter q l) = filter (fun x => q x && p x) l.
Proof.
  induction l as [|x l IH]; [reflexivity|]. simpl.
  destruct (q x); simpl; [destruct (p x)|]; now rewrite IH.
Qed.

Lemma restore_fields (L : Z) (m : Model) :
  filters (restorePositionAfterFilter L m) = filters m /\
  lines (restorePositionAfterFilter L m) = lines m /\
  filteredLines (restorePositionAfterFilter L m) = filteredLines m /\
  filterCursor (restorePositionAfterFilter L m) = filterCursor m.
Proof.
  unfold restorePositionAfterFilter.
  destruct (len (getVisibleLines m) =? 0); [repeat split|].
  cbn.
  destruct (restoreScan (getVisibleLines m) 0 L 0 <? viewport m);
    [repeat split|].
  destruct (restoreScan (getVisibleLines m) 0 L 0 >=? viewport m + height m - 1);
    [|repeat split].
  cbn.
  destruct (restoreScan (getVisibleLines m) 0 L 0 - height m + 2 <? 0);
    repeat split.
Qed.

Lemma restore_visible' (L : Z) (m : Model) :
  getVisibleLines (restorePositionAfterFilter L m) = getVisibleLines m.
Proof.
  destruct (restore_fields L m) as (Hf & Hl & Hfl & _).
  unfold getVisibleLines. now rewrite Hf, Hl, Hfl.
Qed.

Lemma synced_restore (L : Z) (m : Model) :
  synced m -> synced (restorePositionAfterFilter L m).
Proof.
  intros Hs Hne.
  destruct (restore_fields L m) as (Hf & Hl & Hfl & _).
  rewrite Hf in Hne. rewrite Hfl, Hl, (Hs Hne).
  apply filter_ext. intros l. unfold linePassesAllFilters. now rewrite Hf.
Qed.

Section FilterEntryFacts.

Variable Parse : string -> option Query.

Lemma entry_adds_filter (filterInput : string) (query : Query) (m : Model) :
  Parse filterInput = Some query ->
  filterInput <> "" ->
  filters (filterEntryEnter Parse filterInput m)
  = filters m ++ [mkFilter filterInput query true] /\
  lines (filterEntryEnter Parse filterInput m) = lines m /\
  synced (filterEntryEnter Parse filterInput m).
Proof.
  intros Hparse Hne. unfold filterEntryEnter, addFilter. rewrite Hparse.
  replace (negb (String.eqb filterInput "")) with true
    by (symmetry; apply negb_true_iff; now apply String.eqb_neq).
  set (m1 := set_filters (filters m ++ [mkFilter filterInput query true]) m).
  pose proof (synced_restore (currentLineNumber m) _ (applyFilters_synced m1))
    as Hs.
  destruct (restore_fields (currentLineNumber m) (applyFilters m1))
    as (Hf & Hl & _).
  split; [|split].
  - change (filters (set_filterMode false ?x)) with (filters x).
    now rewrite Hf, applyFilters_filters.
  - change (lines (set_filterMode false ?x)) with (lines x).
    now rewrite Hl, applyFilters_lines.
  - exact Hs.
Qed.

(** X15.  Enter in filter entry always leaves entry mode.  An empty
    expression or one that does not compile leaves the filters and the
    visible sequence as they were.  An expression that compiles
    appends one enabled filter, and the visible sequence is computed
    anew from the store under the longer filter list; when the
    filtered slice was in step with the store and the filters before,
    that is exactly the lines visible before that pass the new filter,
    in the same order. *)
Theorem filter_entry_narrows (filterInput : string) (m : Model) :
  let m' := filterEntryEnter Parse filterInput m in
  filterMode m' = false /\
  match Parse filterInput with
  | Some query =>
      if String.eqb filterInput "" then
        filters m' = filters m /\ getVisibleLines m' = getVisibleLines m
      else
        filters m' = filters m ++ [mkFilter filterInput query true] /\
        getVisibleLines m'
        = visibleUnder (filters m ++ [mkFilter filterInput query true])
            (lines m) /\
        (synced m ->
         getVisibleLines m'
         = filter
             (linePassesAllFilters
                (set_filters [mkFilter filterInput query true] m))
             (getVisibleLines m))
  | None =>
      filters m' = filters m /\ getVisibleLines m' = getVisibleLines m
  end.
Proof.
  cbn zeta. unfold filterEntryEnter, addFilter.
  split.
  { destruct (negb (String.eqb filterInput "")); [|reflexivity].
    destruct (Parse filterInput); reflexivity. }
  destruct (Parse filterInput) as [query|]; destruct (String.eqb filterInput "");
    cbn [negb]; try (split; reflexivity).
  set (f := mkFilter filterInput query true).
  set (m1 := set_filters (filters m ++ [f]) m).
  change (getVisibleLines
            (set_filterMode false
               (restorePositionAfterFilter (currentLineNumber m)
                  (applyFilters m1))))
    with (getVisibleLines
            (restorePositionAfterFilter (currentLineNumber m)
               (applyFilters m1))).
  change (filters
            (set_filterMode false
               (restorePositionAfterFilter (currentLineNumber m)
                  (applyFilters m1))))
    with (filters
            (restorePositionAfterFilter (currentLineNumber m)
               (applyFilters m1))).
  destruct (restore_fields (currentLineNumber m) (applyFilters m1))
    as (-> & _).
  rewrite restore_visible', applyFilters_filters.
  split; [reflexivity|].
  split; [rewrite visible_after_apply_under; reflexivity|].
  intros Hsync.
  rewrite visible_after_apply.
  change (filters m1) with (filters m ++ [f]).
  change (lines m1) with (lines m).
  assert (Hpass : forall l,
            linePassesAllFilters m1 l
            = linePassesAllFilters m l
              && linePassesAllFilters (set_filters [f] m) l).
  { intros l. unfold linePassesAllFilters.
    change (filters m1) with (filters m ++ [f]).
    change (filters (set_filters [f] m)) with [f].
    rewrite filterLoop_app. destruct (IsValid l); simpl; [reflexivity|].
    reflexivity. }
  rewrite (synced_visible m Hsync).
  destruct (filters m) as [|g gs] eqn:Efs.
  - simpl app. apply filter_ext. intros l. rewrite Hpass.
    unfold linePassesAllFilters at 1. rewrite Efs. simpl.
    unfold linePassesAllFilters. destruct (IsValid l); reflexivity.
  - rewrite filter_filter. simpl app.
    apply filter_ext. intros l. now rewrite Hpass.
Qed.

(** X16.  Deleting the filter that was just entered gives back the
    filter list, and the visible sequence is computed anew from the
    store under that list; when the filtered slice was in step with
    the store and the filters before the entry, the visible sequence
    is what it was. *)
Theorem delete_undoes_entry
    (filterInput : string) (query : Query) (m : Model) :
  Parse filterInput = Some query ->
  filterInput <> "" ->
  let entered := filterEntryEnter Parse filterInput m in
  let m' :=
    manageDelete
      (set_filterCursor (len (filters m))
         (set_filterManageMode true entered)) in
  filters m' = filters m /\
  getVisibleLines m' = visibleUnder (filters m) (lines m) /\
  (synced m -> getVisibleLines m' = getVisibleLines m).
Proof.
  intros Hparse Hne. cbn zeta.
  destruct (entry_adds_filter filterInput query m Hparse Hne)
    as (Hfs & Hle & _).
  set (entered := filterEntryEnter Parse filterInput m) in *.
  set (f := mkFilter filterInput query true) in *.
  unfold manageDelete.
  change (filterCursor
            (set_filterCursor (len (filters m))
               (set_filterManageMode true entered)))
    with (len (filters m)).
  change (filters
            (set_filterCursor (len (filters m))
               (set_filterManageMode true entered)))
    with (filters entered).
  rewrite Hfs, len_app.
  replace (len (filters m) <? len (filters m) + len [f]) with true
    by (symmetry; apply Z.ltb_lt; unfold len; simpl; lia).
  assert (Hcut : firstn (Z.to_nat (len (filters m))) (filters m ++ [f]) ++
                 skipn (Z.to_nat (len (filters m) + 1)) (filters m ++ [f])
                 = filters m).
  { unfold len. rewrite Nat2Z.id.
    replace (Z.to_nat (Z.of_nat (List.length (filters m)) + 1))
      with (List.length (filters m) + 1)%nat by lia.
    rewrite firstn_app, Nat.sub_diag, firstn_all. simpl.
    rewrite skipn_app, (skipn_all2 (filters m)) by lia.
    replace (List.length (filters m) + 1 - List.length (filters m))%nat
      with 1%nat by lia.
    simpl. now rewrite !app_nil_r. }
  rewrite Hcut.
  match goal with
  | |- context [restorePositionAfterFilter ?t (applyFilters ?x)] =>
      set (target := t); set (m2 := x)
  end.
  assert (Hf2 : filters m2 = filters m).
  { subst m2.
    match goal with
    | |- filters (if ?b then _ else _) = _ => destruct b; reflexivity
    end. }
  assert (Hl2 : lines m2 = lines m).
  { subst m2.
    match goal with
    | |- lines (if ?b then _ else _) = _ => destruct b; exact Hle
    end. }
  destruct (restore_fields target (applyFilters m2)) as (-> & _).
  rewrite restore_visible', applyFilters_filters, visible_after_apply_under.
  rewrite Hf2, Hl2.
  split; [reflexivity|]. split; [reflexivity|].
  intros Hsync. symmetry. now apply synced_visible_under.
Qed.

End FilterEntryFacts.

Lemma updateAt_length {A : Type} (g : A -> A) (s : list A) :
  forall i, List.length (updateAt s i g) = List.length s.
Proof.
  induction s as [|x s IH]; intros i; [reflexivity|].
  destruct i; simpl; [reflexivity | now rewrite IH].
Qed.

(** X17.  Every key of filter management keeps the management cursor
    on a filter, or at 0 when no filter is left; deleting removes
    exactly one filter. *)
Theorem manage_keeps_cursor (k : ManageKey) (m : Model) :
  manageCursorValid m ->
  manageCursorValid (manage k m) /\
  (filterCursor m < len (filters m) ->
   len (filters (manage ManageDelete m)) = len (filters m) - 1).
Proof.
  unfold manageCursorValid. intros Hv.
  pose proof (Zle_0_nat (List.length (filters m))) as Hlen.
  fold (len (filters m)) in Hlen.
  assert (Hcut : filterCursor m < len (filters m) ->
            len (firstn (Z.to_nat (filterCursor m)) (filters m) ++
                 skipn (Z.to_nat (filterCursor m + 1)) (filters m))
            = len (filters m) - 1).
  { intros Hlt. unfold len in *.
    rewrite length_app, length_firstn, length_skipn. lia. }
  split.
  - destruct k; unfold manage.
    + cbn. lia.
    + branches; boolZ; cbn; lia.
    + branches; boolZ; cbn; lia.
    + unfold manageToggle.
      destruct (filterCursor m <? len (filters m)) eqn:E; [|exact Hv].
      match goal with
      | |- context [restorePositionAfterFilter ?t (applyFilters ?x)] =>
          destruct (restore_fields t (applyFilters x)) as (-> & _ & _ & ->)
      end.
      rewrite applyFilters_filters.
      match goal with
      | |- context [filterCursor (applyFilters ?x)] =>
          replace (filterCursor (applyFilters x)) with (filterCursor m)
            by (unfold applyFilters; destruct (len (filters x) =? 0);
                reflexivity)
      end.
      cbn [filters set_filters]. unfold len.
      rewrite updateAt_length. exact Hv.
    + unfold manageDelete.
      destruct (filterCursor m <? len (filters m)) eqn:E; [|exact Hv].
      boolZ. specialize (Hcut E).
      match goal with
      | |- context [restorePositionAfterFilter ?t (applyFilters ?x)] =>
          destruct (restore_fields t (applyFilters x)) as (-> & _ & _ & ->);
          rewrite applyFilters_filters;
          replace (filterCursor (applyFilters x)) with (filterCursor x)
            by (unfold applyFilters; destruct (len (filters x) =? 0);
                reflexivity)
      end.
      cbn [filters set_filters filterCursor] in *.
      branches; boolZ; cbn; lia.
  - intros Hlt. specialize (Hcut Hlt).
    unfold manage, manageDelete.
    replace (filterCursor m <? len (filters m)) with true
      by (symmetry; now apply Z.ltb_lt).
    match goal with
    | |- context [restorePositionAfterFilter ?t (applyFilters ?x)] =>
        destruct (restore_fields t (applyFilters x)) as (-> & _);
        rewrite applyFilters_filters
    end.
    cbn [filters set_filters filterCursor] in *.
    branches; cbn; exact Hcut.
Qed.

(** Examples on the store of mixed levels with the info filter on. *)

Lemma mixedModel_synced : synced mixedModel.
Proof. intros _. reflexivity. Qed.

Lemma append_keeps_position_witness :
  getVisibleLines (fst (updateNewLines None mixedBatch quietExample))
  = [levelLine 1 "error"; levelLine 2 "error"; levelLine 3 "error";
     levelLine 6 "error"] /\
  cursor (fst (updateNewLines None mixedBatch quietExample)) = 0.
Proof.
  assert (Hs : synced quietExample) by (intros _; reflexivity).
  pose proof (append_keeps_position None mixedBatch quietExample
                eq_refl Hs) as H.
  cbn zeta in H. destruct H as (Hv & Hc & _).
  split; [rewrite Hv | rewrite Hc]; reflexivity.
Defined.

Lemma filter_entry_narrows_witness :
  getVisibleLines (filterEntryEnter parseExample ".level == error" mixedModel)
  = [] /\
  List.length
    (filters (filterEntryEnter parseExample ".level == error" mixedModel))
  = 2%nat.
Proof.
  pose proof (filter_entry_narrows parseExample ".level == error" mixedModel)
    as H.
  cbn zeta in H. destruct H as (_ & H).
  change (parseExample ".level == error") with (Some (levelIs "error")) in H.
  change (String.eqb ".level == error" "") with false in H.
  destruct H as (Hf & _ & Hv).
  split; [rewrite (Hv mixedModel_synced) | rewrite Hf]; reflexivity.
Defined.

Lemma delete_undoes_entry_witness :
  getVisibleLines
    (manageDelete
       (set_filterCursor 1
          (set_filterManageMode true
             (filterEntryEnter parseExample ".level == error" mixedModel))))
  = [levelLine 2 "info"; levelLine 4 "info"].
Proof.
  pose proof (delete_undoes_entry parseExample ".level == error"
                (levelIs "error") mixedModel eq_refl) as H.
  cbn zeta in H.
  destruct H as (_ & _ & Hv); [discriminate|].
  specialize (Hv mixedModel_synced).
  change (len (filters mixedModel)) with 1 in Hv.
  rewrite Hv. reflexivity.
Defined.

Lemma manage_keeps_cursor_witness :
  manageCursorValid (manage ManageDelete mixedModel) /\
  len (filters (manage ManageDelete mixedModel)) = 0.
Proof.
  assert (Hv : manageCursorValid mixedModel)
    by (vm_compute; split; discriminate).
  destruct (manage_keeps_cursor ManageDelete mixedModel Hv) as (Hk & Hd).
  split; [exact Hk | rewrite Hd; reflexivity].
Defined.

(** ** Text entry *)

Lemma byteLen_append (a b : string) :
  byteLen (a ++ b)%string = byteLen a + byteLen b.
Proof.
  unfold byteLen. induction a as [|c a IH]; [reflexivity|].
  simpl String.length. rewrite !Nat2Z.inj_succ. cbn [String.append] in *.
  lia.
Qed.

Lemma byteLen_nonneg (s : string) : 0 <= byteLen s.
Proof. unfold byteLen. lia. Qed.

Lemma get_in_range (s : string) :
  forall n, (n < String.length s)%nat -> exists c, String.get n s = Some c.
Proof.
  induction s as [|c s IH]; intros n Hn; simpl in Hn; [lia|].
  destruct n as [|n]; simpl; [now exists c|]. apply IH. lia.
Qed.

Lemma byteAt_in_range (s : string) (i : Z) :
  0 <= i < byteLen s -> exists c, byteAt s i = Some c.
Proof.
  unfold byteAt, byteLen. intros Hi.
  replace (0 <=? i) with true by (symmetry; apply Z.leb_le; lia).
  apply get_in_range. lia.
Qed.

Lemma sliceTo_ok (s : string) (hi : Z) :
  0 <= hi <= byteLen s ->
  sliceTo s hi = Some (strTake (Z.to_nat hi) s) /\
  byteLen (strTake (Z.to_nat hi) s) = hi.
Proof.
  intros Hhi. unfold sliceTo.
  replace ((0 <=? hi) && (hi <=? byteLen s)) with true
    by (symmetry; apply andb_true_iff; split; apply Z.leb_le; lia).
  split; [reflexivity|].
  unfold byteLen in *. rewrite strTake_length. lia.
Qed.

Lemma sliceFrom_ok (s : string) (lo : Z) :
  0 <= lo <= byteLen s ->
  sliceFrom s lo = Some (strDrop (Z.to_nat lo) s) /\
  byteLen (strDrop (Z.to_nat lo) s) = byteLen s - lo.
Proof.
  intros Hlo. unfold sliceFrom.
  replace ((0 <=? lo) && (lo <=? byteLen s)) with true
    by (symmetry; apply andb_true_iff; split; apply Z.leb_le; lia).
  split; [reflexivity|].
  unfold byteLen in *. rewrite strDrop_length. lia.
Qed.

Lemma splice_ok (t : TextInput) (upTo from : Z) (middle : string) (pos : Z) :
  0 <= upTo <= from -> from <= byteLen (inputText t) ->
  splice t upTo from middle pos
  = Some (mkTextInput
            (strTake (Z.to_nat upTo) (inputText t) ++ middle ++
             strDrop (Z.to_nat from) (inputText t))%string pos) /\
  byteLen (strTake (Z.to_nat upTo) (inputText t) ++ middle ++
           strDrop (Z.to_nat from) (inputText t))%string
  = upTo + byteLen middle + (byteLen (inputText t) - from).
Proof.
  intros H1 H2. unfold splice.
  destruct (sliceTo_ok (inputText t) upTo) as [-> Hl1]; [lia|].
  destruct (sliceFrom_ok (inputText t) from) as [-> Hl2]; [lia|].
  split; [reflexivity|]. rewrite !byteLen_append. lia.
Qed.

Lemma wordScan_spec (input : string) (steps : nat) :
  forall start,
    0 <= start < byteLen input -> start <= Z.of_nat steps ->
    exists s,
      wordScan input start steps = Some s /\
      0 <= s <= start /\
      (forall i, s < i <= start -> byteAt input i <> Some " "%char) /\
      (s = 0 \/ byteAt input s = Some " "%char).
Proof.
  induction steps as [|steps IH]; intros start Hstart Hfuel.
  - exists start. simpl in *. split; [reflexivity|]. split; [lia|].
    split; [intros i Hi; lia | left; lia].
  - cbn [wordScan]. destruct (start >? 0) eqn:Epos.
    + boolZ.
      destruct (byteAt_in_range input start Hstart) as [c Hc]. rewrite Hc.
      destruct (Ascii.eqb c " "%char) eqn:Ec; cbn [negb].
      * apply Ascii.eqb_eq in Ec. subst c.
        exists start. split; [reflexivity|]. split; [lia|].
        split; [intros i Hi; lia | now right].
      * apply Ascii.eqb_neq in Ec.
        destruct (IH (start - 1)) as (s & Hs & Hr & Hno & Hend); [lia|lia|].
        exists s. split; [exact Hs|]. split; [lia|]. split; [|exact Hend].
        intros i Hi. destruct (Z.eq_dec i start) as [->|Hne].
        -- rewrite Hc. congruence.
        -- apply Hno. lia.
    + boolZ. exists start. split; [reflexivity|]. split; [lia|].
      split; [intros i Hi; lia | left; lia].
Qed.

Lemma deleteWord_spec (t : TextInput) :
  inputValid t ->
  exists start,
    0 <= start <= cursorPos t /\
    deleteWord t
    = Some (mkTextInput
              (strTake (Z.to_nat start) (inputText t) ++
               strDrop (Z.to_nat (cursorPos t)) (inputText t))%string
              start) /\
    (forall i, start <= i < cursorPos t ->
               byteAt (inputText t) i <> Some " "%char) /\
    (start = 0 \/ byteAt (inputText t) (start - 1) = Some " "%char).
Proof.
  unfold inputValid. intros Hv. unfold deleteWord.
  destruct (cursorPos t >? 0) eqn:Epos; boolZ.
  - destruct (wordScan_spec (inputText t) (Z.to_nat (cursorPos t - 1))
                (cursorPos t - 1))
      as (s & -> & Hr & Hno & Hend); [lia|lia|].
    destruct (byteAt_in_range (inputText t) s) as [c Hc]; [lia|].
    rewrite Hc. destruct (Ascii.eqb c " "%char) eqn:Ec.
    + apply Ascii.eqb_eq in Ec. subst c.
      destruct (splice_ok t (s + 1) (cursorPos t) "" (s + 1)) as [-> _];
        [lia|lia|].
      exists (s + 1). split; [lia|]. split; [reflexivity|].
      split; [intros i Hi; apply Hno; lia|].
      right. replace (s + 1 - 1) with s by lia. exact Hc.
    + apply Ascii.eqb_neq in Ec.
      destruct (splice_ok t s (cursorPos t) "" s) as [-> _]; [lia|lia|].
      assert (Hs : s = 0).
      { destruct Hend as [Hz|Hsp]; [exact Hz|].
        rewrite Hc in Hsp. congruence. }
      exists s. split; [lia|]. split; [reflexivity|].
      split; [|now left].
      intros i Hi. destruct (Z.eq_dec i s) as [->|Hne].
      * rewrite Hc. congruence.
      * apply Hno. lia.
  - exists 0. split; [lia|].
    destruct t as [input pos]. cbn [cursorPos inputText] in *.
    assert (pos = 0) by lia. subst pos.
    split; [reflexivity|]. split; [intros i Hi; lia | now left].
Qed.

(** X18.  [ctrl+w] removes exactly the longest run of bytes other than
    a space that ends at the cursor, and puts the cursor where the run
    began.  It never removes a space: with a space right before the
    cursor it removes nothing. *)
Theorem ctrl_w_removes_one_word (clipboardText : string) (t : TextInput) :
  inputValid t ->
  exists start,
    0 <= start <= cursorPos t /\
    editKey clipboardText "ctrl+w" t
    = Some (mkTextInput
              (strTake (Z.to_nat start) (inputText t) ++
               strDrop (Z.to_nat (cursorPos t)) (inputText t))%string
              start) /\
    (forall i, start <= i < cursorPos t ->
               byteAt (inputText t) i <> Some " "%char) /\
    (start = 0 \/ byteAt (inputText t) (start - 1) = Some " "%char).
Proof.
  intros Hv. change (editKey clipboardText "ctrl+w" t) with (deleteWord t).
  now apply deleteWord_spec.
Qed.

Lemma ctrl_w_removes_one_word_witness :
  (exists start,
     0 <= start <= 9 /\
     editKey "" "ctrl+w" (mkTextInput ".level == info" 9)
     = Some (mkTextInput
               (strTake (Z.to_nat start) ".level == info" ++ " info")%string
               start) /\
     (forall i, start <= i < 9 ->
                byteAt ".level == info" i <> Some " "%char) /\
     (start = 0 \/ byteAt ".level == info" (start - 1) = Some " "%char)) /\
  editKey "" "ctrl+w" (mkTextInput ".level == info" 9)
  = Some (mkTextInput ".level  info" 7) /\
  editKey "" "ctrl+w" (mkTextInput ".level == info" 10)
  = Some (mkTextInput ".level == info" 10).
Proof.
  split; [|split; reflexivity].
  apply (ctrl_w_removes_one_word "" (mkTextInput ".level == info" 9)).
  vm_compute. split; discriminate.
Defined.

Lemma printable_single (key : string) :
  isPrintableKey key = true -> byteLen key = 1.
Proof.
  destruct key as [|c [|d rest]]; try discriminate. reflexivity.
Qed.

Lemma printable_inserts (clipboardText key : string) (t : TextInput) :
  isPrintableKey key = true ->
  editKey clipboardText key t
  = splice t (cursorPos t) (cursorPos t) key (cursorPos t + 1).
Proof.
  intros Hp. destruct key as [|c [|d rest]]; try discriminate.
  unfold editKey, keyIs. rewrite Hp. cbn [existsb String.eqb orb].
  repeat match goal with
  | |- context [Ascii.eqb c ?x] => destruct (Ascii.eqb c x)
  end; reflexivity.
Qed.

(** X19.  From a buffer whose cursor is inside the text or at its end,
    no key of the entry modes slices or indexes out of range, and the
    cursor is again inside the text or at its end. *)
Theorem editing_stays_in_bounds (clipboardText key : string) (t : TextInput) :
  inputValid t ->
  exists t', editKey clipboardText key t = Some t' /\ inputValid t'.
Proof.
  intros Hv.
  destruct (isPrintableKey key) eqn:Hp.
  { rewrite (printable_inserts clipboardText key t Hp).
    unfold inputValid in *.
    destruct (splice_ok t (cursorPos t) (cursorPos t) key (cursorPos t + 1))
      as [-> Hlen]; [lia|lia|].
    eexists. split; [reflexivity|]. cbn [inputText cursorPos].
    rewrite Hlen, (printable_single key Hp). lia. }
  pose proof (deleteWord_spec t Hv) as Hword.
  unfold inputValid in *. unfold editKey. rewrite Hp.
  pose proof (byteLen_nonneg clipboardText) as Hclip.
  repeat match goal with
  | |- context [if keyIs key ?l then _ else _] => destruct (keyIs key l)
  end.
  - eexists. split; [reflexivity|]. cbn. lia.
  - eexists. split; [reflexivity|].
    destruct (cursorPos t >? 0) eqn:E; boolZ; cbn [inputText cursorPos]; lia.
  - eexists. split; [reflexivity|].
    destruct (cursorPos t <? byteLen (inputText t)) eqn:E; boolZ;
      cbn [inputText cursorPos]; lia.
  - eexists. split; [reflexivity|]. cbn [inputText cursorPos]. lia.
  - eexists. split; [reflexivity|]. cbn [inputText cursorPos]. lia.
  - destruct (cursorPos t >? 0) eqn:E; boolZ.
    + destruct (splice_ok t (cursorPos t - 1) (cursorPos t) ""
                  (cursorPos t - 1)) as [-> Hlen]; [lia|lia|].
      eexists. split; [reflexivity|]. cbn [inputText cursorPos].
      rewrite Hlen. change (byteLen "") with 0. lia.
    + eexists. split; [reflexivity|]. lia.
  - destruct (cursorPos t <? byteLen (inputText t)) eqn:E; boolZ.
    + destruct (splice_ok t (cursorPos t) (cursorPos t + 1) ""
                  (cursorPos t)) as [-> Hlen]; [lia|lia|].
      eexists. split; [reflexivity|]. cbn [inputText cursorPos].
      rewrite Hlen. change (byteLen "") with 0. lia.
    + eexists. split; [reflexivity|]. lia.
  - destruct Hword as (start & Hr & -> & _).
    eexists. split; [reflexivity|]. cbn [inputText cursorPos].
    rewrite byteLen_append.
    destruct (sliceTo_ok (inputText t) start) as [_ ->]; [lia|].
    destruct (sliceFrom_ok (inputText t) (cursorPos t)) as [_ ->]; [lia|].
    lia.
  - destruct (sliceTo_ok (inputText t) (cursorPos t)) as [-> Hlen]; [lia|].
    eexists. split; [reflexivity|]. cbn [inputText cursorPos]. lia.
  - destruct (negb (String.eqb clipboardText "")).
    + destruct (splice_ok t (cursorPos t) (cursorPos t) clipboardText
                  (cursorPos t + byteLen clipboardText)) as [-> Hlen];
        [lia|lia|].
      eexists. split; [reflexivity|]. cbn [inputText cursorPos].
      rewrite Hlen. lia.
    + eexists. split; [reflexivity|]. lia.
  - eexists. split; [reflexivity|]. lia.
Qed.

Lemma editing_stays_in_bounds_witness :
  exists t',
    editKey "" "delete" (mkTextInput ".level" 5) = Some t' /\ inputValid t'.
Proof.
  apply (editing_stays_in_bounds "" "delete" (mkTextInput ".level" 5)).
  vm_compute. split; discriminate.
Defined.

Lemma strTake_exact (a b : string) :
  strTake (String.length a) (a ++ b)%string = a.
Proof. induction a as [|c a IH]; simpl; [now destruct b | now rewrite IH]. Qed.

Lemma strDrop_exact (a b : string) :
  strDrop (String.length a) (a ++ b)%string = b.
Proof. induction a as [|c a IH]; simpl; [now destruct b | exact IH]. Qed.

(** X20.  Typing a printable character puts it at the cursor and moves
    the cursor past it, and backspace right after gives back the buffer
    and the cursor as they were. *)
Theorem backspace_undoes_typing (clipboardText key : string) (t : TextInput) :
  inputValid t ->
  isPrintableKey key = true ->
  exists typed,
    editKey clipboardText key t = Some typed /\
    inputText typed
    = (strTake (Z.to_nat (cursorPos t)) (inputText t) ++ key ++
       strDrop (Z.to_nat (cursorPos t)) (inputText t))%string /\
    cursorPos typed = cursorPos t + 1 /\
    editKey clipboardText "backspace" typed = Some t.
Proof.
  unfold inputValid. intros Hv Hp.
  rewrite (printable_inserts clipboardText key t Hp).
  destruct (splice_ok t (cursorPos t) (cursorPos t) key (cursorPos t + 1))
    as [-> Hlen]; [lia|lia|].
  eexists. split; [reflexivity|]. cbn [inputText cursorPos].
  split; [reflexivity|]. split; [reflexivity|].
  rewrite (printable_single key Hp) in Hlen.
  destruct t as [input pos]. cbn [inputText cursorPos] in *.
  set (before := strTake (Z.to_nat pos) input) in *.
  set (rest := strDrop (Z.to_nat pos) input) in *.
  assert (Hb : String.length before = Z.to_nat pos).
  { subst before. rewrite strTake_length. unfold byteLen in Hv. lia. }
  assert (Hbk : String.length (before ++ key)%string = Z.to_nat (pos + 1)).
  { pose proof (byteLen_append before key) as Ha.
    rewrite (printable_single key Hp) in Ha. unfold byteLen in Ha. lia. }
  change (editKey clipboardText "backspace"
            (mkTextInput (before ++ key ++ rest)%string (pos + 1)))
    with (if pos + 1 >? 0
          then splice (mkTextInput (before ++ key ++ rest)%string (pos + 1))
                 (pos + 1 - 1) (pos + 1) "" (pos + 1 - 1)
          else Some (mkTextInput (before ++ key ++ rest)%string (pos + 1))).
  replace (pos + 1 >? 0) with true by (symmetry; rewrite Z.gtb_ltb; apply Z.ltb_lt; lia).
  destruct (splice_ok (mkTextInput (before ++ key ++ rest)%string (pos + 1))
              (pos + 1 - 1) (pos + 1) "" (pos + 1 - 1)) as [-> _];
    [lia | cbn [inputText]; lia |].
  cbn [inputText]. replace (pos + 1 - 1) with pos by lia.
  rewrite <- Hb at 1. rewrite strTake_exact.
  rewrite <- (append_assoc before key rest), <- Hbk, strDrop_exact.
  cbn [String.append]. subst before rest. now rewrite strTake_strDrop.
Qed.

Lemma backspace_undoes_typing_witness :
  exists typed,
    editKey "" "=" (mkTextInput ".a = 1" 4) = Some typed /\
    inputText typed = ".a == 1" /\
    editKey "" "backspace" typed = Some (mkTextInput ".a = 1" 4).
Proof.
  destruct (backspace_undoes_typing "" "=" (mkTextInput ".a = 1" 4))
    as (typed & Hk & Ht & _ & Hb);
    [vm_compute; split; discriminate | reflexivity |].
  exists typed. split; [exact Hk|]. split; [rewrite Ht; reflexivity | exact Hb].
Defined.

(** ** Horizontal scrolling and the rows of the list view *)

Lemma scrollValid_set (v : Z) (m : Model) :
  0 <= v <= maxScrollOf m -> scrollValid (set_lineScrollOffset v m).
Proof. intros H. exact H. Qed.

Lemma scrollValid_set_twice (v u : Z) (m : Model) :
  0 <= v <= maxScrollOf m ->
  scrollValid (set_lineScrollOffset v (set_lineScrollOffset u m)).
Proof. intros H. exact H. Qed.

(** X21.  The four horizontal scroll keys keep the scroll offset
    between 0 and the number of bytes of the selected raw line that do
    not fit in [width - 3] columns. *)
Theorem scroll_keeps_offset_in_range (k : ScrollKey) (m : Model) :
  0 <= cursor m ->
  scrollValid m ->
  scrollValid (scroll k m).
Proof.
  intros Hc Hv. pose proof Hv as [Hlo Hhi].
  destruct k; cbn [scroll];
    unfold keyLeft, keyRight, keyCtrlLeft, keyCtrlRight; cbn zeta;
    destruct (showPretty m); cbn [negb]; try exact Hv.
  - destruct (lineScrollOffset m >? 0) eqn:E; [|exact Hv]. boolZ.
    apply scrollValid_set. lia.
  - destruct (cursor m <? len (getVisibleLines m)); [|exact Hv].
    unfold maxScrollOf in Hhi.
    destruct (index (getVisibleLines m) (cursor m)) as [line|] eqn:Ei;
      [|exact Hv].
    destruct (byteLen (RawLine line) >? width m - 3) eqn:E1; [|exact Hv].
    destruct (lineScrollOffset m <? byteLen (RawLine line) - (width m - 3))
      eqn:E2; [|exact Hv].
    boolZ. apply scrollValid_set. unfold maxScrollOf. rewrite Ei. lia.
  - destruct (lineScrollOffset m >? 0) eqn:E; [|exact Hv]. boolZ.
    cbn [lineScrollOffset set_lineScrollOffset].
    destruct (lineScrollOffset m - 5 <? 0) eqn:E1; boolZ.
    + apply scrollValid_set_twice. lia.
    + apply scrollValid_set. lia.
  - destruct (cursor m <? len (getVisibleLines m)); [|exact Hv].
    unfold maxScrollOf in Hhi.
    destruct (index (getVisibleLines m) (cursor m)) as [line|] eqn:Ei;
      [|exact Hv].
    destruct (byteLen (RawLine line) >? width m - 3) eqn:E1; [|exact Hv].
    cbn [lineScrollOffset set_lineScrollOffset].
    destruct (lineScrollOffset m + 5 >?
              byteLen (RawLine line) - (width m - 3)) eqn:E2; boolZ.
    + apply scrollValid_set_twice. unfold maxScrollOf. rewrite Ei. lia.
    + apply scrollValid_set. unfold maxScrollOf. rewrite Ei. lia.
Qed.

Lemma scroll_keeps_offset_in_range_witness :
  scrollValid (scroll ScrollCtrlRight (wideModel 9)) /\
  lineScrollOffset (scroll ScrollCtrlRight (wideModel 9)) = 13.
Proof.
  split; [|reflexivity].
  apply (scroll_keeps_offset_in_range ScrollCtrlRight (wideModel 9)).
  - vm_compute. discriminate.
  - vm_compute. split; discriminate.
Defined.

(** X22.  In a window wider than 15 columns the text of a row has at
    most [width - 3] bytes, and a text that fits after scrolling is
    shown as it is. *)
Theorem row_fits_width (m : Model) (selected : bool) (displayLine : string) :
  15 < width m ->
  byteLen (truncateRow m selected displayLine) <= width m - 3 /\
  (byteLen displayLine <= width m - 3 ->
   lineScrollOffset m = 0 ->
   truncateRow m selected displayLine = displayLine).
Proof.
  intros Hw. unfold truncateRow. cbn zeta.
  replace (width m >? 15) with true
    by (symmetry; rewrite Z.gtb_ltb; apply Z.ltb_lt; lia).
  replace (width m - 3 >? 3) with true
    by (symmetry; rewrite Z.gtb_ltb; apply Z.ltb_lt; lia).
  rewrite andb_true_l, !andb_true_r.
  split.
  - match goal with
    | |- context [byteLen ?d >? width m - 3] =>
        destruct (byteLen d >? width m - 3) eqn:E
    end; boolZ; [|exact E].
    rewrite byteLen_append. change (byteLen "...") with 3.
    unfold byteLen in *. rewrite strTake_length. lia.
  - intros Hfit Hoff. rewrite Hoff. rewrite andb_false_r. cbn [andb].
    replace (byteLen displayLine >? width m - 3) with false
      by (symmetry; rewrite Z.gtb_ltb; apply Z.ltb_ge; lia).
    reflexivity.
Qed.

Lemma row_fits_width_witness :
  byteLen (truncateRow (wideModel 0) true (RawLine wideLine)) <= 17 /\
  truncateRow (wideModel 0) true (RawLine wideLine) = "abcdefghijklmn...".
Proof.
  split; [|reflexivity].
  apply (row_fits_width (wideModel 0) true (RawLine wideLine)).
  reflexivity.
Defined.

(** X23.  The selected row of a raw line that does not fit is shown
    from the scroll offset on; it ends in three dots at every offset
    below the bound of the scroll keys, and at the bound it is the end
    of the line, whole. *)
Theorem ellipsis_until_scrolled_to_end (m : Model) (line : LogLine) :
  index (getVisibleLines m) (cursor m) = Some line ->
  scrollValid m ->
  15 < width m ->
  width m - 3 < byteLen (RawLine line) ->
  truncateRow m true (RawLine line)
  = if lineScrollOffset m =? maxScrollOf m then
      strDrop (Z.to_nat (lineScrollOffset m)) (RawLine line)
    else
      (strTake (Z.to_nat (width m - 6))
         (strDrop (Z.to_nat (lineScrollOffset m)) (RawLine line)) ++
       "...")%string.
Proof.
  intros Hi [Hlo Hhi] Hw Hlong. unfold maxScrollOf in *. rewrite Hi in *.
  unfold truncateRow. cbn zeta.
  replace (width m >? 15) with true
    by (symmetry; rewrite Z.gtb_ltb; apply Z.ltb_lt; lia).
  replace (width m - 3 >? 3) with true
    by (symmetry; rewrite Z.gtb_ltb; apply Z.ltb_lt; lia).
  rewrite andb_true_l, !andb_true_r.
  replace (byteLen (RawLine line) >? lineScrollOffset m) with true
    by (symmetry; rewrite Z.gtb_ltb; apply Z.ltb_lt; lia).
  rewrite andb_true_r.
  replace (width m - 3 - 3) with (width m - 6) by lia.
  assert (Hdrop : byteLen (strDrop (Z.to_nat (lineScrollOffset m))
                             (RawLine line))
                  = byteLen (RawLine line) - lineScrollOffset m).
  { unfold byteLen in *. rewrite strDrop_length. lia. }
  destruct (lineScrollOffset m >? 0) eqn:Epos; cbn [andb]; boolZ.
  - rewrite Hdrop.
    destruct (lineScrollOffset m =?
              Z.max 0 (byteLen (RawLine line) - (width m - 3))) eqn:Eend;
      boolZ.
    + replace (byteLen (RawLine line) - lineScrollOffset m <? width m - 3)
        with false by (symmetry; apply Z.ltb_ge; lia).
      replace (width m - 3 <? byteLen (RawLine line) - lineScrollOffset m)
        with false by (symmetry; apply Z.ltb_ge; lia).
      reflexivity.
    + replace (width m - 3 <? byteLen (RawLine line) - lineScrollOffset m)
        with true by (symmetry; apply Z.ltb_lt; lia).
      reflexivity.
  - assert (Hz : lineScrollOffset m = 0) by lia. rewrite Hz.
    replace (0 =? Z.max 0 (byteLen (RawLine line) - (width m - 3)))
      with false by (symmetry; apply Z.eqb_neq; lia).
    replace (width m - 3 <? byteLen (RawLine line)) with true
      by (symmetry; apply Z.ltb_lt; lia).
    reflexivity.
Qed.

Lemma ellipsis_until_scrolled_to_end_witness :
  truncateRow (wideModel 13) true (RawLine wideLine) = "nopqrstuvwxyz0123" /\
  truncateRow (wideModel 12) true (RawLine wideLine) = "mnopqrstuvwxyz...".
Proof.
  split.
  - rewrite (ellipsis_until_scrolled_to_end (wideModel 13) wideLine);
      [reflexivity | reflexivity | vm_compute; split; discriminate
      | reflexivity | reflexivity].
  - rewrite (ellipsis_until_scrolled_to_end (wideModel 12) wideLine);
      [reflexivity | reflexivity | vm_compute; split; discriminate
      | reflexivity | reflexivity].
Defined.

(** ** The window size message *)

Lemma updateWindowSize_idle (h w : Z) (m : Model) :
  needsInitialTailJump m = false ->
  updateWindowSize h w m = set_width w (set_height h m).
Proof.
  intros Hn. unfold updateWindowSize. cbn zeta.
  change (needsInitialTailJump (set_width w (set_height h m)))
    with (needsInitialTailJump m).
  now rewrite Hn.
Qed.

(** X24.  A window size message stores the new size.  With the initial
    tail jump pending and a line to show, it selects the last visible
    entry and, in a window of at least two rows, puts it on screen; the
    request is cleared, so that every later window size message leaves
    cursor and viewport where they are. *)
Theorem initial_tail_jump_once (msgHeight msgWidth : Z) (m : Model) :
  let m' := updateWindowSize msgHeight msgWidth m in
  height m' = msgHeight /\ width m' = msgWidth /\
  needsInitialTailJump m' = false /\
  getVisibleLines m' = getVisibleLines m /\
  (needsInitialTailJump m = true -> 0 < len (getVisibleLines m) ->
   cursor m' = len (getVisibleLines m) - 1 /\
   lineScrollOffset m' = 0 /\
   (2 <= msgHeight -> onScreen m')) /\
  (forall h w,
     cursor (updateWindowSize h w m') = cursor m' /\
     viewport (updateWindowSize h w m') = viewport m').
Proof.
  cbn zeta.
  assert (Hshape :
    let m' := updateWindowSize msgHeight msgWidth m in
    height m' = msgHeight /\ width m' = msgWidth /\
    needsInitialTailJump m' = false /\
    getVisibleLines m' = getVisibleLines m).
  { unfold updateWindowSize. cbn zeta.
    change (needsInitialTailJump
              (set_width msgWidth (set_height msgHeight m)))
      with (needsInitialTailJump m).
    destruct (needsInitialTailJump m) eqn:En.
    - change (getVisibleLines (set_width msgWidth (set_height msgHeight m)))
        with (getVisibleLines m).
      destruct (len (getVisibleLines m) >? 0); [|repeat split].
      cbn [height set_width set_height set_cursor].
      destruct (len (getVisibleLines m) >? msgHeight - 1); repeat split.
    - repeat split. exact En. }
  cbn zeta in Hshape. destruct Hshape as (Hh & Hwd & Hn & Hvis).
  repeat (split; [assumption|]).
  split.
  - intros Hneed Hpos. unfold updateWindowSize. cbn zeta.
    change (needsInitialTailJump
              (set_width msgWidth (set_height msgHeight m)))
      with (needsInitialTailJump m).
    rewrite Hneed.
    change (getVisibleLines (set_width msgWidth (set_height msgHeight m)))
      with (getVisibleLines m).
    replace (len (getVisibleLines m) >? 0) with true
      by (symmetry; rewrite Z.gtb_ltb; apply Z.ltb_lt; lia).
    cbn [height set_width set_height set_cursor].
    unfold onScreen.
    destruct (len (getVisibleLines m) >? msgHeight - 1) eqn:E; boolZ;
      cbn; repeat split; lia.
  - intros h w.
    rewrite (updateWindowSize_idle h w _ Hn). split; reflexivity.
Qed.

Lemma initial_tail_jump_once_witness :
  cursor (updateWindowSize 10 80 (set_needsInitialTailJump true quietExample))
  = 2 /\
  onScreen
    (updateWindowSize 10 80 (set_needsInitialTailJump true quietExample)).
Proof.
  pose proof (initial_tail_jump_once 10 80
                (set_needsInitialTailJump true quietExample)) as H.
  cbn zeta in H. destruct H as (_ & _ & _ & _ & Hjump & _).
  destruct Hjump as (Hc & _ & Hs); [reflexivity | reflexivity |].
  split; [rewrite Hc; reflexivity | apply Hs; lia].
Defined.

(** ** Filters given on the command line *)

Lemma visible_determined (a b : Model) :
  filters a = filters b -> lines a = lines b ->
  synced a -> synced b ->
  getVisibleLines a = getVisibleLines b.
Proof.
  intros Hf Hl Ha Hb.
  rewrite (synced_visible a Ha), (synced_visible b Hb), Hf, Hl.
  destruct (filters b) as [|g gs] eqn:E; [reflexivity|].
  apply filter_ext. intros l. unfold linePassesAllFilters. now rewrite Hf, E.
Qed.

Section FlagFilterFacts.

Variable Parse : string -> option Query.

Lemma addFlagFilters_ok (filterExprs : list string) :
  Forall (fun e => e <> "" /\ Parse e <> None) filterExprs ->
  forall m, exists m',
    addFlagFilters Parse filterExprs m = Some m' /\
    filters m' = filters m ++ flat_map (flagFilter Parse) filterExprs /\
    lines m' = lines m.
Proof.
  induction 1 as [|e rest [_ He] _ IH]; intros m.
  - exists m. simpl. now rewrite app_nil_r.
  - cbn [addFlagFilters flat_map]. unfold addFilter, flagFilter at 1.
    destruct (Parse e) as [query|]; [|contradiction].
    destruct (IH (set_filters (filters m ++ [mkFilter e query true]) m))
      as (m' & Hrun & Hf & Hl).
    exists m'. split; [exact Hrun|]. split; [|exact Hl].
    rewrite Hf. cbn [filters set_filters]. now rewrite <- app_assoc.
Qed.

Lemma typeFilters_ok (filterExprs : list string) :
  Forall (fun e => e <> "" /\ Parse e <> None) filterExprs ->
  forall m, synced m ->
    filters (typeFilters Parse filterExprs m)
    = filters m ++ flat_map (flagFilter Parse) filterExprs /\
    lines (typeFilters Parse filterExprs m) = lines m /\
    synced (typeFilters Parse filterExprs m).
Proof.
  induction 1 as [|e rest [Hne He] _ IH]; intros m Hs.
  - simpl. now rewrite app_nil_r.
  - cbn [typeFilters fold_left flat_map]. unfold flagFilter at 1.
    destruct (Parse e) as [query|] eqn:Hp; [|contradiction].
    destruct (entry_adds_filter Parse e query m Hp Hne) as (Hf & Hl & Hs1).
    destruct (IH (filterEntryEnter Parse e m) Hs1) as (Hf2 & Hl2 & Hs2).
    unfold typeFilters in *. rewrite Hf2, Hl2, Hf, Hl.
    split; [now rewrite <- app_assoc|]. split; [reflexivity | exact Hs2].
Qed.

(** X25.  Filters given with [-f], all non-empty and all parsing, give
    the filters and the visible sequence that entering the same
    expressions one by one in filter entry gives. *)
Theorem flag_filters_as_typed (filterExprs : list string) (m : Model) :
  synced m ->
  Forall (fun e => e <> "" /\ Parse e <> None) filterExprs ->
  exists m',
    startFilters Parse filterExprs m = Some m' /\
    filters m' = filters (typeFilters Parse filterExprs m) /\
    getVisibleLines m' = getVisibleLines (typeFilters Parse filterExprs m).
Proof.
  intros Hs Hok.
  destruct (typeFilters_ok filterExprs Hok m Hs) as (Hf & Hl & Hst).
  destruct (addFlagFilters_ok filterExprs Hok m) as (m1 & Hrun & Hf1 & Hl1).
  unfold startFilters. rewrite Hrun.
  destruct filterExprs as [|e rest].
  - exists m1. simpl in Hrun. injection Hrun as <-.
    split; [reflexivity|]. split; reflexivity.
  - replace (len (e :: rest) >? 0) with true by reflexivity.
    exists (applyFilters m1). split; [reflexivity|].
    assert (Hfa : filters (applyFilters m1)
                  = filters (typeFilters Parse (e :: rest) m))
      by (rewrite applyFilters_filters; congruence).
    split; [exact Hfa|].
    apply visible_determined;
      [exact Hfa | rewrite applyFilters_lines; congruence
      | apply applyFilters_synced | exact Hst].
Qed.

(** X26.  Start-up with [-f] filters is all or nothing: it stops
    exactly when one of the expressions does not parse. *)
Theorem flag_filters_all_or_nothing (filterExprs : list string) (m : Model) :
  startFilters Parse filterExprs m = None <->
  Exists (fun e => Parse e = None) filterExprs.
Proof.
  unfold startFilters.
  assert (Hloop : forall m0,
            addFlagFilters Parse filterExprs m0 = None <->
            Exists (fun e => Parse e = None) filterExprs).
  { induction filterExprs as [|e rest IH]; intros m0.
    - simpl. split; [discriminate | intros Hex; inversion Hex].
    - cbn [addFlagFilters]. unfold addFilter.
      destruct (Parse e) as [query|] eqn:Hp.
      + rewrite IH. split; [now apply Exists_cons_tl|].
        intros Hex. inversion Hex as [? ? Hhd | ? ? Htl]; subst;
          [congruence | exact Htl].
      + split; [intros _; now apply Exists_cons_hd | reflexivity]. }
  rewrite <- (Hloop m).
  destruct (addFlagFilters Parse filterExprs m); split;
    intros; try discriminate; reflexivity.
Qed.

End FlagFilterFacts.

Lemma flag_filters_as_typed_witness :
  exists m',
    startFilters parseExample [".level == info"; ".level == error"]
      (modelOf [levelLine 1 "error"; levelLine 2 "info"] [] 0) = Some m' /\
    filters m'
    = filters
        (typeFilters parseExample [".level == info"; ".level == error"]
           (modelOf [levelLine 1 "error"; levelLine 2 "info"] [] 0)) /\
    getVisibleLines m'
    = getVisibleLines
        (typeFilters parseExample [".level == info"; ".level == error"]
           (modelOf [levelLine 1 "error"; levelLine 2 "info"] [] 0)).
Proof.
  apply (flag_filters_as_typed parseExample).
  - intros Hne. exfalso. apply Hne. reflexivity.
  - repeat constructor; discriminate.
Defined.

(** ** Disabled filters *)

Lemma index_split {A : Type} (s : list A) (i : Z) (x : A) :
  index s i = Some x ->
  exists pre post,
    s = pre ++ x :: post /\ List.length pre = Z.to_nat i /\
    0 <= i < len s.
Proof.
  unfold index. destruct (i <? 0) eqn:E; [discriminate|]. boolZ.
  intros Hn. pose proof Hn as Hlt.
  apply nth_error_split in Hn as (pre & post & -> & Hlen).
  exists pre, post. split; [reflexivity|]. split; [exact Hlen|].
  unfold len. rewrite length_app. simpl. lia.
Qed.

Lemma updateAt_middle {A : Type} (g : A -> A) (pre post : list A) (x : A) :
  updateAt (pre ++ x :: post) (List.length pre) g = pre ++ g x :: post.
Proof. induction pre as [|y pre IH]; simpl; [reflexivity | now rewrite IH]. Qed.


Lemma filterLoop_skips_disabled
    (pre post : list Filter) (f : Filter) (line : LogLine) :
  Enabled f = false ->
  filterLoop (pre ++ f :: post) line = filterLoop (pre ++ post) line.
Proof.
  intros Hoff. rewrite !filterLoop_app. f_equal.
  cbn [filterLoop]. now rewrite Hoff.
Qed.


Lemma manageToggle_visible (m : Model) :
  filterCursor m < len (filters m) ->
  getVisibleLines (manageToggle m)
  = visibleUnder
      (updateAt (filters m) (Z.to_nat (filterCursor m))
         (fun f => mkFilter (Expression f) (FQuery f) (negb (Enabled f))))
      (lines m) /\
  filters (manageToggle m)
  = updateAt (filters m) (Z.to_nat (filterCursor m))
      (fun f => mkFilter (Expression f) (FQuery f) (negb (Enabled f))) /\
  lines (manageToggle m) = lines m /\
  filterCursor (manageToggle m) = filterCursor m /\
  synced (manageToggle m).
Proof.
  intros Hlt. unfold manageToggle.
  replace (filterCursor m <? len (filters m)) with true
    by (symmetry; now apply Z.ltb_lt).
  match goal with
  | |- context [restorePositionAfterFilter ?t (applyFilters ?x)] =>
      set (target := t); set (m1 := x)
  end.
  destruct (restore_fields target (applyFilters m1)) as (Hf & Hl & _ & Hc).
  rewrite restore_visible', visible_after_apply_under, Hf, Hl, Hc.
  rewrite applyFilters_filters, applyFilters_lines.
  repeat split.
  - unfold applyFilters. destruct (len (filters m1) =? 0); reflexivity.
  - apply synced_restore, applyFilters_synced.
Qed.


(** X27.  Toggling the filter under the management cursor twice gives
    back the filter list and the visible sequence. *)
Theorem toggle_twice_restores (m : Model) :
  synced m ->
  0 <= filterCursor m ->
  filters (manageToggle (manageToggle m)) = filters m /\
  getVisibleLines (manageToggle (manageToggle m)) = getVisibleLines m.
Proof.
  intros Hs Hc.
  destruct (filterCursor m <? len (filters m)) eqn:E.
  - boolZ.
    destruct (manageToggle_visible m E) as (_ & Hf1 & Hl1 & Hc1 & _).
    assert (E1 : filterCursor (manageToggle m) < len (filters (manageToggle m))).
    { rewrite Hc1, Hf1. unfold len. rewrite updateAt_length. exact E. }
    destruct (manageToggle_visible (manageToggle m) E1)
      as (Hv2 & Hf2 & Hl2 & _ & _).
    assert (Hback : filters (manageToggle (manageToggle m)) = filters m).
    { rewrite Hf2, Hf1, Hc1.
      destruct (index (filters m) (filterCursor m)) as [f|] eqn:Ei.
      - apply index_split in Ei as (pre & post & HF & Hlen & _).
        rewrite HF, <- Hlen, !updateAt_middle. cbn.
        rewrite negb_involutive. now destruct f.
      - unfold index in Ei.
        replace (filterCursor m <? 0) with false in Ei
          by (symmetry; apply Z.ltb_ge; lia).
        apply nth_error_None in Ei. unfold len in E. lia. }
    split; [exact Hback|].
    rewrite Hv2, <- Hf2, Hback, Hl1. symmetry.
    now apply synced_visible_under.
  - unfold manageToggle. rewrite E. unfold manageToggle. rewrite E.
    split; reflexivity.
Qed.

Lemma toggle_twice_restores_witness :
  getVisibleLines (manageToggle (manageToggle mixedModel))
  = [levelLine 2 "info"; levelLine 4 "info"] /\
  getVisibleLines (manageToggle mixedModel)
  = [levelLine 1 "error"; levelLine 2 "info"; levelLine 4 "info";
     levelLine 5 "error"].
Proof.
  split; [|reflexivity].
  destruct (toggle_twice_restores mixedModel mixedModel_synced) as [_ Hv];
    [vm_compute; discriminate|].
  rewrite Hv. reflexivity.
Defined.



Section FilterEditFacts.

Variable Parse : string -> option Query.

(** X29.  Enter in filter edit on a filter that is switched off: an
    empty buffer or one that does not compile leaves the visible
    sequence as it was; one that compiles has the visible sequence
    computed anew from the store, and the result is the one for the
    filters before the edit, so the edit itself never shows.  When the
    filtered slice was in step with the store and the filters before,
    the visible sequence is unchanged whatever was entered. *)
Theorem editing_disabled_filter_changes_nothing
    (filterEditInput : string) (m : Model) (f : Filter) :
  index (filters m) (filterCursor m) = Some f ->
  Enabled f = false ->
  getVisibleLines (filterEditEnter Parse filterEditInput m)
  = (if String.eqb filterEditInput "" then getVisibleLines m
     else match Parse filterEditInput with
          | Some _ => visibleUnder (filters m) (lines m)
          | None => getVisibleLines m
          end) /\
  (synced m ->
   getVisibleLines (filterEditEnter Parse filterEditInput m)
   = getVisibleLines m).
Proof.
  intros Hi Hoff.
  assert (Hrun :
    getVisibleLines (filterEditEnter Parse filterEditInput m)
    = (if String.eqb filterEditInput "" then getVisibleLines m
       else match Parse filterEditInput with
            | Some _ => visibleUnder (filters m) (lines m)
            | None => getVisibleLines m
            end)).
  { unfold filterEditEnter.
    change (getVisibleLines (set_filterEditMode false ?x))
      with (getVisibleLines x).
    destruct (String.eqb filterEditInput ""); cbn [negb]; [reflexivity|].
    destruct (Parse filterEditInput) as [query|]; [|reflexivity].
    rewrite restore_visible', visible_after_apply_under.
    cbn [filters lines set_filters].
    apply index_split in Hi as (pre & post & HF & Hlen & _).
    rewrite HF, <- Hlen, updateAt_middle.
    unfold visibleUnder.
    destruct (pre ++ mkFilter filterEditInput query (Enabled f) :: post)
      as [|a b] eqn:E1; [now destruct pre|].
    destruct (pre ++ f :: post) as [|c d] eqn:E2; [now destruct pre|].
    apply filter_ext. intros l. rewrite <- E1, <- E2.
    rewrite !filterLoop_skips_disabled;
      [reflexivity | exact Hoff | exact Hoff]. }
  split; [exact Hrun|].
  intros Hs. rewrite Hrun.
  destruct (String.eqb filterEditInput ""); [reflexivity|].
  destruct (Parse filterEditInput); [|reflexivity].
  symmetry. now apply synced_visible_under.
Qed.

End FilterEditFacts.

Lemma editing_disabled_filter_changes_nothing_witness :
  getVisibleLines
    (filterEditEnter parseExample ".level == info"
       (set_filterCursor 1 twoFilterModel))
  = [levelLine 2 "info"; levelLine 4 "info"].
Proof.
  destruct (editing_disabled_filter_changes_nothing parseExample
              ".level == info" (set_filterCursor 1 twoFilterModel)
              (mkFilter ".level == error" (levelIs "error") false)
              eq_refl eq_refl) as [_ Hv].
  rewrite Hv; [reflexivity | intros _; reflexivity].
Defined.

(** ** A poll handled while a read-to-end is outstanding *)

Lemma numbered_nth (ls : list LogLine) (k : nat) (l : LogLine) :
  numbered ls -> nth_error ls k = Some l -> LineNumber l = Z.of_nat k + 1.
Proof.
  unfold numbered. intros Hn Hk.
  assert (Hlt : (k < List.length ls)%nat)
    by (apply nth_error_Some; congruence).
  assert (H1 : nth k (map LineNumber ls) 0 = LineNumber l).
  { apply nth_error_nth. now apply map_nth_error. }
  assert (H2 : nth k (map Z.of_nat (seq 1 (List.length ls))) 0
               = Z.of_nat (1 + k)).
  { apply nth_error_nth. apply map_nth_error.
    rewrite (nth_error_nth' (seq 1 (List.length ls)) 0%nat)
      by (rewrite length_seq; exact Hlt).
    now rewrite seq_nth. }
  rewrite <- H1, Hn, H2. lia.
Qed.

Section LateBatchFacts.

Variable parseJSON : string -> option JSONObject.
Variable readAhead : list string -> nat.

Lemma tailLoop_head (tokens : list string) :
  forall n acc x,
    hd_error acc = Some x ->
    hd_error (tailLoop parseJSON tokens n acc) = Some x.
Proof.
  induction tokens as [|raw rest IH]; intros n acc x Hx; simpl;
    [exact Hx|].
  apply IH. destruct acc; [discriminate | exact Hx].
Qed.

Lemma endLoop_head (tokens : list string) :
  forall n acc x,
    hd_error acc = Some x ->
    hd_error (fst (fst (endLoop parseJSON tokens n acc))) = Some x.
Proof.
  induction tokens as [|raw rest IH]; intros n acc x Hx; cbn [endLoop];
    [exact Hx|].
  assert (Hx' : hd_error (acc ++ [parseLine parseJSON n raw]) = Some x)
    by (destruct acc; [discriminate | exact Hx]).
  destruct (len (acc ++ [parseLine parseJSON n raw]) >=? 1000);
    [exact Hx' | now apply IH].
Qed.

(** The store after the [end] key, a poll that finds new lines, and the
    late message of the key's command: the poll's lines and the
    command's batch both start at the line number after the store the
    key saw. *)
Lemma late_batch_repeats
    (disk : Disk) (m : Model) (f : FileHandle) (tail : list LogLine) :
  storeInv m ->
  filterEditMode m = false -> filterMode m = false ->
  filterManageMode m = false -> viewMode m = false ->
  showPretty m = false -> isFileFullyLoaded m = false ->
  file m = Some f -> pending f <> [] ->
  checkForNewLines parseJSON disk (fileSize m) (lastLineNum m) = Some tail ->
  exists a tail' b batch',
    tail = a :: tail' /\
    lines (endKeyWithPoll parseJSON readAhead disk m)
    = lines m ++ (a :: tail') ++ b :: batch' /\
    LineNumber a = len (lines m) + 1 /\
    LineNumber b = len (lines m) + 1 /\
    ~ numbered (lines (endKeyWithPoll parseJSON readAhead disk m)).
Proof.
  intros [Hnum Hlast] He Hf Hm Hv Hp Hfull Hfile Hpend Hpoll.
  (* the poll's lines *)
  assert (Htail : exists a tail', tail = a :: tail' /\
                                  LineNumber a = len (lines m) + 1).
  { unfold checkForNewLines in Hpoll.
    destruct disk as [src|]; [|discriminate].
    destruct (statSize src); [|discriminate].
    destruct (_ <=? _); [discriminate|].
    destruct (negb (seekable src)); [discriminate|].
    destruct (linesFrom src (fileSize m)) as [|raw rest];
      [discriminate Hpoll|].
    cbn [tailLoop app] in Hpoll.
    pose proof (tailLoop_head rest (lastLineNum m + 1 + 1)
                  [parseLine parseJSON (lastLineNum m + 1) raw] _ eq_refl)
      as Hhd.
    destruct (len _ >? 0); [|discriminate].
    injection Hpoll as <-.
    destruct (tailLoop parseJSON rest _ _) as [|a tail']; [discriminate|].
    injection Hhd as ->. exists (parseLine parseJSON (lastLineNum m + 1) raw), tail'.
    split; [reflexivity|]. rewrite parseLine_number. lia. }
  destruct Htail as (a & tail' & -> & Ha).
  (* the command's batch *)
  unfold endKeyWithPoll, update, updateKey. rewrite He, Hf, Hm, Hv.
  unfold keyEnd. rewrite Hp, Hfull. cbn [negb filter isLoadRequest].
  rewrite Hfile. unfold loadToEndCmd.
  destruct (readToEnd parseJSON readAhead f (len (lines m)))
    as [[[batch err] isComplete] f'] eqn:Hread.
  assert (Hbatch : exists b batch', batch = b :: batch' /\
                                    LineNumber b = len (lines m) + 1).
  { unfold readToEnd in Hread.
    destruct (pending f) as [|raw rest] eqn:Epend; [contradiction|].
    pose proof (endLoop_head (raw :: rest) (len (lines m) + 1) []) as Hhd.
    cbn [endLoop app] in Hhd, Hread.
    assert (Hhd' :
      hd_error
        (fst (fst (if len [parseLine parseJSON (len (lines m) + 1) raw]
                      >=? 1000
                   then ([parseLine parseJSON (len (lines m) + 1) raw],
                         rest, false)
                   else endLoop parseJSON rest (len (lines m) + 1 + 1)
                          [parseLine parseJSON (len (lines m) + 1) raw])))
      = Some (parseLine parseJSON (len (lines m) + 1) raw)).
    { destruct (len _ >=? 1000); [reflexivity|].
      now apply endLoop_head. }
    destruct (if len [parseLine parseJSON (len (lines m) + 1) raw] >=? 1000
              then _ else _) as [[allNewLines rest'] scanEnded].
    cbn [fst] in Hhd'.
    assert (Heq : batch = allNewLines).
    { destruct scanEnded; [destruct (failing f)|]; now inversion Hread. }
    subst allNewLines.
    destruct batch as [|b batch']; [discriminate|].
    injection Hhd' as ->. eexists _, batch'. split; [reflexivity|].
    apply parseLine_number. }
  destruct Hbatch as (b & batch' & -> & Hb).
  (* the store *)
  set (m1 := set_spinnerFrame 0 (set_showSpinner true m)).
  assert (Hpoll1 : lines (pollRound parseJSON disk m1)
                   = lines m ++ a :: tail').
  { unfold pollRound, updateTick. cbn [fold_left runPoll].
    change (fileSize m1) with (fileSize m).
    change (lastLineNum m1) with (lastLineNum m).
    rewrite Hpoll.
    destruct (updateNewLines_store disk (a :: tail') m1 eq_refl) as [-> _].
    reflexivity. }
  assert (Hlines :
    lines (fst (updateLoadToEndMsg (b :: batch') err isComplete
                  (set_file (Some f') (pollRound parseJSON disk m1))))
    = lines m ++ (a :: tail') ++ b :: batch').
  { pose proof (updateLoadToEndMsg_facts (b :: batch') err isComplete
                  (set_file (Some f') (pollRound parseJSON disk m1))) as H.
    destruct (updateLoadToEndMsg (b :: batch') err isComplete _)
      as [m' cmds].
    destruct H as [H _]. cbn [fst]. rewrite H.
    change (lines (set_file (Some f') ?x)) with (lines x).
    now rewrite Hpoll1, <- app_assoc. }
  exists a, tail', b, batch'. split; [reflexivity|].
  split; [exact Hlines|]. split; [exact Ha|]. split; [exact Hb|].
  rewrite Hlines. intros Hbad.
  assert (Hk : nth_error (lines m ++ (a :: tail') ++ b :: batch')
                 (List.length (lines m) + List.length (a :: tail'))
               = Some b).
  { rewrite nth_error_app2 by lia.
    rewrite nth_error_app2 by lia.
    replace (List.length (lines m) + List.length (a :: tail')
             - List.length (lines m) - List.length (a :: tail'))%nat
      with 0%nat by lia.
    reflexivity. }
  apply (numbered_nth _ _ _ Hbad) in Hk.
  rewrite Hb in Hk. unfold len in Hk. simpl List.length in Hk. lia.
Qed.

End LateBatchFacts.

Lemma initialLoop_long :
  initialLoop parseLevel (pending longSource) 1 initialChunkSize []
  = (map (fun n => levelLine (Z.of_nat n) "info") (seq 1 1000),
     repeat (levelText "info") 499, false).
Proof. vm_compute. reflexivity. Qed.

(** C9, at the failing input.  A file of 1500 lines is opened: the
    first chunk holds lines 1 to 1000 and the handle is retained,
    whatever the scanner had read ahead, up to 240 lines (a buffer of
    4096 bytes holds no more of these lines of 17 bytes).  The [end]
    key issues the read-to-end command for line count 1000.  Before
    its message arrives a tick finds that a line was appended to the
    file, and that line enters the store as line 1001.  The command's
    batch was numbered from 1001 as well, so the store then holds line
    number 1001 twice, at indices 1000 and 1001, and its line numbers
    are not 1 to its length. *)
Theorem tail_append_during_read_to_end_repeats
    (readAhead : list string -> nat) :
  (forall rest, (readAhead rest <= 240)%nat) ->
  match startup parseLevel readAhead (Some longSource) 25500 with
  | None => False
  | Some m0 =>
      numbered (lines m0) /\ len (lines m0) = 1000 /\
      filter isLoadRequest (snd (update m0 KeyEnd))
      = [CmdLoadToEnd (file m0) 1000] /\
      let m := endKeyWithPoll parseLevel readAhead appendedDisk m0 in
      map LineNumber (firstn 2 (skipn 1000 (lines m))) = [1001; 1001] /\
      ~ numbered (lines m)
  end.
Proof.
  intros Hbound.
  destruct (startup parseLevel readAhead (Some longSource) 25500)
    as [m0|] eqn:Hstart.
  2:{ unfold startup, loadInitialChunk in Hstart.
      rewrite initialLoop_long in Hstart. discriminate Hstart. }
  pose proof (startup_inv parseLevel readAhead _ _ _ Hstart) as Hinv.
  unfold startup, loadInitialChunk in Hstart.
  rewrite initialLoop_long in Hstart. cbn [andb] in Hstart.
  set (L := map (fun n => levelLine (Z.of_nat n) "info") (seq 1 1000))
    in Hstart.
  set (R := repeat (levelText "info") 499) in Hstart.
  assert (HlenL : len L = 1000) by (vm_compute; reflexivity).
  replace (len L <? initialChunkSize) with false in Hstart
    by (rewrite HlenL; reflexivity).
  injection Hstart as <-.
  set (f := mkFileHandle (dropScanner readAhead R) false) in *.
  set (m0 := newModel L (Some f) false 25500) in *.
  assert (Hlines0 : lines m0 = L) by reflexivity.
  assert (Hpend : pending f <> []).
  { subst f. cbn [pending]. unfold dropScanner.
    intros Hnil. apply (f_equal (@List.length string)) in Hnil.
    rewrite length_skipn in Hnil. subst R. rewrite repeat_length in Hnil.
    specialize (Hbound (repeat (levelText "info") 499)).
    cbn [List.length] in Hnil. lia. }
  assert (Hlast0 : lastLineNum m0 = 1000).
  { destruct Hinv as [_ Hl]. change (lastLineNum m0 = len (lines m0)) in Hl.
    rewrite Hl, Hlines0. exact HlenL. }
  assert (Hpoll : checkForNewLines parseLevel appendedDisk
                    (fileSize m0) (lastLineNum m0)
                  = Some [levelLine 1001 "error"]).
  { rewrite Hlast0. reflexivity. }
  destruct (late_batch_repeats parseLevel readAhead appendedDisk m0 f
              [levelLine 1001 "error"] Hinv eq_refl eq_refl eq_refl eq_refl
              eq_refl eq_refl eq_refl Hpend Hpoll)
    as (a & tail' & b & batch' & Htail & Hl & Ha & Hb & Hbad).
  injection Htail as <- <-.
  split; [exact (proj1 Hinv)|]. split; [exact HlenL|].
  split.
  { change (filter isLoadRequest (snd (update m0 KeyEnd)))
      with [CmdLoadToEnd (file m0) (len (lines m0))].
    now rewrite Hlines0, HlenL. }
  cbn zeta. split; [|exact Hbad].
  rewrite Hl, Hlines0.
  rewrite skipn_app, skipn_all2
    by (apply Nat2Z.inj_le; fold (len L); rewrite HlenL; lia).
  replace (1000 - List.length L)%nat with 0%nat
    by (apply Nat2Z.inj; fold (len L); unfold len in HlenL; lia).
  cbn [app skipn firstn map]. rewrite Hb, Hlines0, HlenL. reflexivity.
Qed.

(** C9 with the scanner of the first chunk dropped 199 lines ahead:
    the store ends up with 1301 lines, line number 1001 twice. *)
Lemma tail_append_during_read_to_end_repeats_witness :
  match startup parseLevel blockReadAhead (Some longSource) 25500 with
  | None => False
  | Some m0 =>
      let m := endKeyWithPoll parseLevel blockReadAhead appendedDisk m0 in
      len (lines m) = 1301 /\
      map LineNumber (firstn 3 (skipn 999 (lines m))) = [1000; 1001; 1001] /\
      map RawLine (firstn 3 (skipn 999 (lines m)))
      = [levelText "info"; levelText "error"; levelText "info"] /\
      isFileFullyLoaded m = true /\
      ~ numbered (lines m)
  end.
Proof.
  assert (Hbound : forall rest, (blockReadAhead rest <= 240)%nat)
    by (intros rest; unfold blockReadAhead; lia).
  pose proof (tail_append_during_read_to_end_repeats blockReadAhead Hbound)
    as H.
  assert (E : startup parseLevel blockReadAhead (Some longSource) 25500
              = Some blockStart) by (vm_compute; reflexivity).
  rewrite E in H |- *. destruct H as (_ & _ & _ & _ & Hbad).
  cbn zeta. split; [vm_compute; reflexivity|].
  split; [vm_compute; reflexivity|].
  split; [vm_compute; reflexivity|].
  split; [vm_compute; reflexivity | exact Hbad].
Defined.
